(** * iter8 experiment controller

    A shallow embedding of the experiment reconciler
    (package [experiment]: [Reconcile], [syncMetrics],
    [addFinalizerIfAbsent], [removeFinalizer], [finalize], [proceed],
    [syncKubernetes], [finalizeIstio], [progress], [detectTargets], the
    experiment update predicate) and of [Targets.Cleanup] (package
    [targets]).

    The Go code mutates the experiment through a pointer and talks to the
    cluster, the iter8 cache, the clock and the logger.  The embedding
    threads a state made of the experiment behind the pointer, the state
    of the outside world, and the chronological trace of the calls that
    left the reconciler. *)

From Stdlib Require Import List String ZArith Bool Lia.
Import ListNotations.

Local Open Scope string_scope.
Local Open Scope Z_scope.
Local Open Scope list_scope.

(** ** API types (package [v1alpha1], [metav1], [corev1]) *)

(** An instant, in nanoseconds.  [time.Time] keeps seconds in an int64
    and a [Duration] is at most about 292 years, so for every instant
    that a cluster timestamp (RFC 3339, years 0 to 9999) can denote,
    [Add] is exact and [After] is the strict order. *)
Definition Time := Z.

Definition Add (t : Time) (d : Z) : Time := t + d.
Definition After (t u : Time) : bool := u <? t.

Record ExperimentCondition := {
  Type_ : string;
  CondStatus : string;
  Reason : string;
  Message : string
}.

Record Split := {
  Baseline : Z;
  Candidate : Z
}.

Record ExperimentStatus := {
  Phase : string;
  CreateTimestamp : Z;
  Conditions : list ExperimentCondition;
  TrafficSplit : Split;
  CurrentIteration : Z;
  LastIncrementTime : Time
}.

Record TargetService := {
  APIVersion : string;
  ServiceName : string;
  BaselineName : string;
  CandidateName : string
}.

Record TrafficControl := {
  Interval : string;
  MaxIterations : Z;
  TrafficStepSize : Z
}.

Record Analysis := {
  AnalyticsService : string;
  SuccessCriteria : list string
}.

Record ExperimentSpec := {
  TargetService_ : TargetService;
  TrafficControl_ : TrafficControl;
  Analysis_ : Analysis;
  CleanUp : string
}.

Record Experiment := {
  Name : string;
  Namespace : string;
  Generation : Z;
  Finalizers : list string;
  DeletionTimestamp : option Time;
  Spec : ExperimentSpec;
  Status : ExperimentStatus;
  Metrics : list (string * string);
  Action : string
}.

(** The zero values [ExperimentStatus{}] and [&Experiment{}]. *)
Definition zeroStatus : ExperimentStatus :=
  {| Phase := ""; CreateTimestamp := 0; Conditions := [];
     TrafficSplit := {| Baseline := 0; Candidate := 0 |};
     CurrentIteration := 0; LastIncrementTime := 0 |}.

Definition zeroSpec : ExperimentSpec :=
  {| TargetService_ := {| APIVersion := ""; ServiceName := "";
                          BaselineName := ""; CandidateName := "" |};
     TrafficControl_ := {| Interval := ""; MaxIterations := 0;
                           TrafficStepSize := 0 |};
     Analysis_ := {| AnalyticsService := ""; SuccessCriteria := [] |};
     CleanUp := "" |}.

Definition zeroExperiment : Experiment :=
  {| Name := ""; Namespace := ""; Generation := 0; Finalizers := [];
     DeletionTimestamp := None; Spec := zeroSpec; Status := zeroStatus;
     Metrics := []; Action := "" |}.

(** Field assignments through the pointer. *)
Definition SetFinalizers (fs : list string) (e : Experiment) : Experiment :=
  {| Name := Name e; Namespace := Namespace e; Generation := Generation e;
     Finalizers := fs; DeletionTimestamp := DeletionTimestamp e;
     Spec := Spec e; Status := Status e; Metrics := Metrics e;
     Action := Action e |}.

Definition SetAction (a : string) (e : Experiment) : Experiment :=
  {| Name := Name e; Namespace := Namespace e; Generation := Generation e;
     Finalizers := Finalizers e; DeletionTimestamp := DeletionTimestamp e;
     Spec := Spec e; Status := Status e; Metrics := Metrics e;
     Action := a |}.

Definition SetMetrics (m : list (string * string)) (e : Experiment) : Experiment :=
  {| Name := Name e; Namespace := Namespace e; Generation := Generation e;
     Finalizers := Finalizers e; DeletionTimestamp := DeletionTimestamp e;
     Spec := Spec e; Status := Status e; Metrics := m;
     Action := Action e |}.

Definition SetStatus (s : ExperimentStatus) (e : Experiment) : Experiment :=
  {| Name := Name e; Namespace := Namespace e; Generation := Generation e;
     Finalizers := Finalizers e; DeletionTimestamp := DeletionTimestamp e;
     Spec := Spec e; Status := s; Metrics := Metrics e;
     Action := Action e |}.

Definition SetTrafficSplit (b c : Z) (s : ExperimentStatus) : ExperimentStatus :=
  {| Phase := Phase s; CreateTimestamp := CreateTimestamp s;
     Conditions := Conditions s;
     TrafficSplit := {| Baseline := b; Candidate := c |};
     CurrentIteration := CurrentIteration s;
     LastIncrementTime := LastIncrementTime s |}.

(** Constants of the controller package. *)
Definition KubernetesService : string := "v1".
Definition KnativeServiceV1Alpha1 : string := "serving.knative.dev/v1alpha1".
Definition Iter8Controller : string := "iter8-controller".
Definition Finalizer : string := "finalizer.iter8-tools".

(** [corev1.ConditionTrue]. *)
Definition ConditionTrue : string := "True".

(** Modelled from the spec: the constants of package [v1alpha1], which is
    not among the sources.  The spec names the phase [Completed], the
    cleanup policy [delete], the terminate reason [overrideFailure] and
    the condition kinds [TargetsProvided], [MetricsSynced] and
    [ExperimentCompleted]. *)
Definition PhaseCompleted : string := "Completed".
Definition CleanUpDelete : string := "delete".
Definition ActionOverrideFailure : string := "overrideFailure".
Definition ExperimentConditionTargetsProvided : string := "TargetsProvided".
Definition ExperimentConditionMetricsSynced : string := "MetricsSynced".
Definition ExperimentConditionExperimentCompleted : string := "ExperimentCompleted".

(** Modelled from the spec: [ExperimentStatus.GetCondition] of package
    [v1alpha1], which is not among the sources.  The spec has the
    conditions as a mapping from condition kind to condition; the lookup
    gives the condition of that kind, or nil. *)
Definition GetCondition (kind : string) (s : ExperimentStatus)
  : option ExperimentCondition :=
  find (fun c => String.eqb (Type_ c) kind) (Conditions s).

(** ** Cluster types *)

Record NamespacedName := {
  nnNamespace : string;
  nnName : string
}.

(** [appsv1.Deployment], by its key. *)
Record Deployment := {
  depName : string;
  depNamespace : string
}.

(** An API error, with the status reason that [errors.IsNotFound]
    inspects. *)
Record error := {
  errReason : string;
  errMessage : string
}.

Definition IsNotFound (err : error) : bool := String.eqb (errReason err) "NotFound".

(** [reconcile.Result]. *)
Record Result := {
  Requeue : bool;
  RequeueAfter : Z
}.

Definition emptyResult : Result := {| Requeue := false; RequeueAfter := 0 |}.

(** [targets.Targets]. *)
Record Targets := {
  tService : string;
  tBaseline : Deployment;
  tCandidate : Deployment
}.

(** ** Calls that leave the reconciler *)

Inductive Event :=
| EGet (key : NamespacedName)
| EUpdate (obj : Experiment)
| EStatusUpdate (obj : Experiment)
| EDelete (obj : Deployment)
| ERegisterExperiment (obj : Experiment)
| ERemoveExperiment (obj : Experiment)
| ENow (t : Time)
| ELogInfo (msg : string)
| ELogError (msg : string)
| EStatusInit
| EMetricsRead
| EMarkSyncMetricsError
| EMarkSyncMetrics
| ECheckOrInitRules
| EDetectTargets
| EProgressExperiment (obj : Experiment)
| ECheckExperimentCompleted
| ESyncKnative
| EFinalizeKnative.

(** ** Interfaces *)

(** [client.Client], with its status writer.  A call answers from the
    state of the cluster and may change it. *)
Class Client (W : Type) := {
  client_Get : NamespacedName -> W -> (error + Experiment) * W;
  client_Update : Experiment -> W -> option error * W;
  client_Delete : Deployment -> W -> option error * W;
  client_StatusUpdate : Experiment -> W -> option error * W
}.

(** [iter8cache.Interface], as far as the reconciler calls it.  The
    context that [RegisterExperiment] returns is part of the world;
    [abstractTerminate] reads [util.ExperimentAbstract(context)]: [None]
    when it is nil, otherwise the answer of its [Terminate]. *)
Class Cache (W : Type) := {
  cache_RegisterExperiment : Experiment -> W -> W;
  cache_RemoveExperiment : Experiment -> W -> W;
  abstractTerminate : W -> option bool
}.

(** The functions of the repository that the sources call and that are
    not among them: packages [v1alpha1], [util], [metrics], [routing],
    and the other files of package [experiment].  Those that take the
    experiment by pointer return the experiment they leave behind. *)
Class Collaborators (W : Type) := {
  validUpdateErr : error -> bool;
  TerminateExperiment : string -> bool;
  GetIntervalDuration : TrafficControl -> Z;
  GetStableTarget : Experiment -> W -> string;
  time_Now : W -> Time;
  Status_Init : ExperimentStatus -> W -> ExperimentStatus;
  MarkTargetsError : string -> string -> ExperimentStatus -> ExperimentStatus;
  metrics_Read : Experiment -> W -> (option error * Experiment) * W;
  MarkSyncMetricsError : error -> Experiment -> W -> Experiment * W;
  MarkSyncMetrics : Experiment -> W -> Experiment * W;
  checkOrInitRules : Experiment -> W -> ((bool * option error) * Experiment) * W;
  r_detectTargets : Experiment -> W -> ((bool * option error) * Experiment) * W;
  progressExperiment : Experiment -> W -> (option error * Experiment) * W;
  checkExperimentCompleted : Experiment -> W -> ((bool * option error) * Experiment) * W;
  syncKnative : Experiment -> W -> ((Result * option error) * Experiment) * W;
  finalizeKnative : Experiment -> W -> ((Result * option error) * Experiment) * W
}.

(** ** The reconciler's monad *)

(** What is behind the [instance] pointer, the outside world, and the
    calls made so far, oldest first. *)
Record St (W : Type) := mkSt {
  instance : Experiment;
  world : W;
  trace : list Event
}.
Arguments mkSt {W}.
Arguments instance {W}.
Arguments world {W}.
Arguments trace {W}.

(** A Go function returns, or panics (a nil pointer dereference). *)
Inductive outcome (A : Type) :=
| Done (a : A)
| Panic (msg : string).
Arguments Done {A}.
Arguments Panic {A}.

Definition M (W A : Type) : Type := St W -> outcome A * St W.

Definition ret {W A} (a : A) : M W A := fun s => (Done a, s).

Definition bind {W A B} (c : M W A) (k : A -> M W B) : M W B :=
  fun s =>
    match c s with
    | (Done a, s') => k a s'
    | (Panic msg, s') => (Panic msg, s')
    end.

Definition panic {W A} (msg : string) : M W A := fun s => (Panic msg, s).

Declare Scope go_scope.
Delimit Scope go_scope with go.
Notation "x <- c ;; k" := (bind c (fun x => k))
  (at level 100, c at next level, right associativity) : go_scope.
Notation "' p <- c ;; k" := (bind c (fun x => let p := x in k))
  (at level 100, p pattern, c at next level, right associativity) : go_scope.
Notation "c ;; k" := (bind c (fun _ => k))
  (at level 100, right associativity) : go_scope.
Local Open Scope go_scope.

Section Primitives.
Context {W : Type}.

Definition getInstance : M W Experiment := fun s => (Done (instance s), s).

Definition setInstance (e : Experiment) : M W unit :=
  fun s => (Done tt, mkSt e (world s) (trace s)).

Definition emit (ev : Event) : M W unit :=
  fun s => (Done tt, mkSt (instance s) (world s) (trace s ++ [ev])).

(** A call that reads the world. *)
Definition readWorld {A} (f : W -> A) : M W A := fun s => (Done (f (world s)), s).

(** A call that answers from the world and changes it. *)
Definition call {A} (ev : Event) (f : W -> A * W) : M W A :=
  fun s =>
    let (a, w) := f (world s) in
    (Done a, mkSt (instance s) w (trace s ++ [ev])).

(** A call that is handed the [instance] pointer. *)
Definition callOnInstance {A} (ev : Event) (f : Experiment -> W -> (A * Experiment) * W)
  : M W A :=
  fun s =>
    let '((a, e), w) := f (instance s) (world s) in
    (Done a, mkSt e w (trace s ++ [ev])).

Definition logInfo (msg : string) : M W unit := emit (ELogInfo msg).
Definition logError (msg : string) : M W unit := emit (ELogError msg).
End Primitives.

(** ** Package [targets] *)

Section TargetsPkg.
Context {W : Type} `{Client W} `{Collaborators W}.

Definition Delete (obj : Deployment) : M W (option error) :=
  call (EDelete obj) (client_Delete obj).

(** [func (t *Targets) Cleanup(context, instance, client)] *)
Definition Cleanup (t : Targets) : M W unit :=
  inst <- getInstance ;;
  if String.eqb (CleanUp (Spec inst)) CleanUpDelete then
    stable <- readWorld (GetStableTarget inst) ;;
    if String.eqb stable "baseline" then
      err <- Delete (tCandidate t) ;;
      (match err with
       | Some e => if IsNotFound e then logError "Delete Candidate" else ret tt
       | None => ret tt
       end) ;;
      inst <- getInstance ;;
      setInstance (SetStatus (SetTrafficSplit 100 0 (Status inst)) inst)
    else if String.eqb stable "candidate" then
      err <- Delete (tBaseline t) ;;
      (match err with
       | Some e => if IsNotFound e then logError "Delete Baseline" else ret tt
       | None => ret tt
       end) ;;
      inst <- getInstance ;;
      setInstance (SetStatus (SetTrafficSplit 0 100 (Status inst)) inst)
    else ret tt
  else ret tt.
End TargetsPkg.

(** ** Package [experiment] *)

Section ExperimentPkg.
Context {W : Type} `{Client W} `{Cache W} `{Collaborators W}.

(** [err != nil && !validUpdateErr(err)] *)
Definition failed (err : option error) : bool :=
  match err with
  | Some e => negb (validUpdateErr e)
  | None => false
  end.

(** [c.Update(context, instance)] and [r.Status().Update(context, instance)] *)
Definition Update : M W (option error) :=
  inst <- getInstance ;;
  call (EUpdate inst) (client_Update inst).

Definition StatusUpdate : M W (option error) :=
  inst <- getInstance ;;
  call (EStatusUpdate inst) (client_StatusUpdate inst).

(** [func addFinalizerIfAbsent(context, c, instance, fName) (err error)]:
    the loop returns as soon as an entry equals [fName]. *)
Definition addFinalizerIfAbsent (fName : string) : M W (option error) :=
  inst <- getInstance ;;
  if existsb (fun finalizer => String.eqb finalizer fName) (Finalizers inst) then
    ret None
  else
    setInstance (SetFinalizers (Finalizers inst ++ [Finalizer]) inst) ;;
    err <- Update ;;
    (match err with
     | Some _ => logInfo "setting finalizer failed. (retrying)"
     | None => ret tt
     end) ;;
    ret err.

(** [func removeFinalizer(context, c, instance, fName) (err error)] *)
Definition removeFinalizer (fName : string) : M W (option error) :=
  inst <- getInstance ;;
  let finalizers := filter (fun f => negb (String.eqb f fName)) (Finalizers inst) in
  setInstance (SetFinalizers finalizers inst) ;;
  err <- Update ;;
  (match err with
   | Some _ => logInfo "setting finalizer failed. (retrying)"
   | None => ret tt
   end) ;;
  logInfo "FinalizerRemoved" ;;
  ret err.

(** [func (r *ReconcileExperiment) proceed(context, instance) bool] *)
Definition proceed : M W bool :=
  inst <- getInstance ;;
  if String.eqb (Phase (Status inst)) PhaseCompleted then ret false
  else ret true.

(** [func progress(context, instance) bool] *)
Definition progress : M W bool :=
  inst <- getInstance ;;
  if TerminateExperiment (Action inst) then ret false
  else
    now <- readWorld time_Now ;;
    emit (ENow now) ;;
    let traffic := TrafficControl_ (Spec inst) in
    let interval := GetIntervalDuration traffic in
    ret (After now (Add (LastIncrementTime (Status inst)) interval)).

(** [func detectTargets(context, instance) bool]: [cond.Status] on a
    nil [cond] panics. *)
Definition detectTargets : M W bool :=
  abstract <- readWorld abstractTerminate ;;
  match abstract with
  | Some true => ret false
  | _ =>
    inst <- getInstance ;;
    match GetCondition ExperimentConditionTargetsProvided (Status inst) with
    | Some cond => ret (negb (String.eqb (CondStatus cond) ConditionTrue))
    | None => panic "invalid memory address or nil pointer dereference"
    end
  end.

(** The [if updateStatus { ... }; return reconcile.Result{}, nil] that
    follows a failed [checkOrInitRules] or [r.detectTargets]. *)
Definition abandon (updateStatus : bool) : M W (Result * option error) :=
  if updateStatus then
    err <- StatusUpdate ;;
    if failed err then
      logInfo "Fail to update status: %v" ;;
      ret (emptyResult, None)
    else ret (emptyResult, None)
  else ret (emptyResult, None).

(** The tail of [syncKubernetes], from [checkExperimentCompleted] on. *)
Definition completion (hasProgressed : bool) : M W (Result * option error) :=
  '(completed, err) <- callOnInstance ECheckExperimentCompleted checkExperimentCompleted ;;
  if completed : bool then
    uerr <- StatusUpdate ;;
    if failed uerr then
      logInfo "Fail to update status: %v" ;;
      ret (emptyResult, None)
    else ret (emptyResult, err)
  else if hasProgressed then
    inst <- getInstance ;;
    let traffic := TrafficControl_ (Spec inst) in
    let interval := GetIntervalDuration traffic in
    logInfo "Requeue for next iteration" ;;
    ret ({| Requeue := false; RequeueAfter := interval |}, None)
  else
    logInfo "Request not processed" ;;
    ret (emptyResult, None).

(** The part of [syncKubernetes] from [hasProgressed := false] on. *)
Definition progression : M W (Result * option error) :=
  p <- progress ;;
  if p : bool then
    inst <- getInstance ;;
    err <- callOnInstance (EProgressExperiment inst) progressExperiment ;;
    uerr <- StatusUpdate ;;
    if failed uerr then
      logInfo "Fail to update status: %v" ;;
      ret (emptyResult, None)
    else
      match err with
      | Some _ => ret (emptyResult, None)
      | None => completion true
      end
  else completion false.

(** [func (r *ReconcileExperiment) syncKubernetes(context, instance)] *)
Definition syncKubernetes : M W (Result * option error) :=
  '(updateStatus, err) <- callOnInstance ECheckOrInitRules checkOrInitRules ;;
  match err with
  | Some _ => abandon updateStatus
  | None =>
    d <- detectTargets ;;
    if d : bool then
      '(updateStatus, err) <- callOnInstance EDetectTargets r_detectTargets ;;
      match err with
      | Some _ => abandon updateStatus
      | None => progression
      end
    else progression
  end.

(** [func (r *ReconcileExperiment) finalizeIstio(context, instance)] *)
Definition finalizeIstio : M W (Result * option error) :=
  inst <- getInstance ;;
  let completed := GetCondition ExperimentConditionExperimentCompleted (Status inst) in
  (match completed with
   | Some c =>
     if negb (String.eqb (CondStatus c) ConditionTrue) then
       setInstance (SetAction ActionOverrideFailure inst) ;;
       '(_, err) <- syncKubernetes ;;
       (match err with
        | Some _ => logError "Fail to execute finalize sync process"
        | None => ret tt
        end) ;;
       inst <- getInstance ;;
       call (ERemoveExperiment inst) (fun w => (tt, cache_RemoveExperiment inst w))
     else ret tt
   | None => ret tt
   end) ;;
  err <- removeFinalizer Finalizer ;;
  ret (emptyResult, err).

(** [func (r *ReconcileExperiment) finalize(context, instance)] *)
Definition finalize : M W (Result * option error) :=
  logInfo "finalizing" ;;
  inst <- getInstance ;;
  let apiVersion := APIVersion (TargetService_ (Spec inst)) in
  if String.eqb apiVersion KubernetesService then finalizeIstio
  else if String.eqb apiVersion KnativeServiceV1Alpha1 then
    callOnInstance EFinalizeKnative finalizeKnative
  else
    err <- removeFinalizer Finalizer ;;
    ret (emptyResult, err).

(** [func (r *ReconcileExperiment) syncMetrics(ctx, instance) error] *)
Definition syncMetrics : M W (option error) :=
  inst <- getInstance ;;
  match SuccessCriteria (Analysis_ (Spec inst)) with
  | [] => ret None
  | _ :: _ =>
    let metricsSycned := GetCondition ExperimentConditionMetricsSynced (Status inst) in
    if match metricsSycned with
       | None => true
       | Some c => negb (String.eqb (CondStatus c) ConditionTrue)
       end
    then
      err <- callOnInstance EMetricsRead metrics_Read ;;
      match err with
      | Some e =>
        if negb (validUpdateErr e) then
          callOnInstance EMarkSyncMetricsError
            (fun i w => let (i', w') := MarkSyncMetricsError e i w in ((tt, i'), w')) ;;
          uerr <- StatusUpdate ;;
          if failed uerr then
            logInfo "Fail to update status: %v" ;;
            ret uerr
          else ret err
        else
          callOnInstance EMarkSyncMetrics
            (fun i w => let (i', w') := MarkSyncMetrics i w in ((tt, i'), w')) ;;
          ret None
      | None =>
        callOnInstance EMarkSyncMetrics
          (fun i w => let (i', w') := MarkSyncMetrics i w in ((tt, i'), w')) ;;
        ret None
      end
    else ret None
  end.

(** The part of [Reconcile] from [syncMetrics] on. *)
Definition dispatch : M W (Result * option error) :=
  err <- syncMetrics ;;
  match err with
  | Some _ => ret (emptyResult, None)
  | None =>
    inst <- getInstance ;;
    let apiVersion := APIVersion (TargetService_ (Spec inst)) in
    if String.eqb apiVersion KubernetesService then syncKubernetes
    else if String.eqb apiVersion KnativeServiceV1Alpha1 then
      callOnInstance ESyncKnative syncKnative
    else
      setInstance
        (SetStatus (MarkTargetsError "UnsupportedAPIVersion" apiVersion (Status inst)) inst) ;;
      StatusUpdate ;;
      ret (emptyResult, None)
  end.

(** [func (r *ReconcileExperiment) Reconcile(request) (reconcile.Result, error)] *)
Definition Reconcile (request : NamespacedName) : M W (Result * option error) :=
  setInstance zeroExperiment ;;
  got <- call (EGet request) (client_Get request) ;;
  match got with
  | inl err =>
    if IsNotFound err then ret (emptyResult, None)
    else ret (emptyResult, Some err)
  | inr fetched =>
    setInstance fetched ;;
    call (ERegisterExperiment fetched)
         (fun w => (tt, cache_RegisterExperiment fetched w)) ;;
    logInfo "reconciling" ;;
    err <- addFinalizerIfAbsent Finalizer ;;
    if failed err then ret (emptyResult, err)
    else
      inst <- getInstance ;;
      match DeletionTimestamp inst with
      | Some _ => finalize
      | None =>
        p <- proceed ;;
        if negb p then
          logInfo "NotToProceed" ;;
          ret (emptyResult, None)
        else
          inst <- getInstance ;;
          if CreateTimestamp (Status inst) =? 0 then
            callOnInstance EStatusInit
              (fun i w => ((tt, SetStatus (Status_Init (Status i) w) i), w)) ;;
            uerr <- StatusUpdate ;;
            if failed uerr then
              logInfo "Fail to update status: %v" ;;
              ret (emptyResult, None)
            else dispatch
          else dispatch
      end
  end.
End ExperimentPkg.

(** ** The experiment update predicate (in [add]) *)

Definition Experiment_eq_dec (a b : Experiment) : {a = b} + {a <> b}.
Proof.
  repeat decide equality; try apply Z.eq_dec; try apply string_dec.
Defined.

(** [reflect.DeepEqual] on two experiments. *)
Definition DeepEqual (a b : Experiment) : bool :=
  if Experiment_eq_dec a b then true else false.

(** [reflect.DeepEqual(e.MetaOld, e.MetaNew)]: the metadata of an event
    is the [metav1.Object] view of the object of the event, that is the
    experiment itself, so the comparison is that of the two
    experiments. *)
Definition MetaDeepEqual (a b : Experiment) : bool := DeepEqual a b.

(** [len(x)] of a string counts its bytes; of a slice or a map, its
    entries. *)
Definition len {A} (l : list A) : Z := Z.of_nat (List.length l).
Definition lenString (s : string) : Z := Z.of_nat (String.length s).

(** [predicate.GenerationChangedPredicate{}.Update] of controller-runtime. *)
Definition GenerationChangedUpdate (oldInstance newInstance : Experiment) : bool :=
  negb (Generation newInstance =? Generation oldInstance).

(** [UpdateFunc: func(e event.UpdateEvent) bool] of the experiment watch:
    the lines it logs, and its answer. *)
Definition UpdateFunc (oldInstance newInstance : Experiment) : list Event * bool :=
  if (len (Finalizers oldInstance) =? 0) && (0 <? len (Finalizers newInstance)) then
    ([ELogInfo "UpdateRequestDetected FinalizerChanged Reject"], false)
  else if (0 <? lenString (Action oldInstance)) && (lenString (Action newInstance) =? 0) then
    ([ELogInfo "UpdateRequestDetected ActionReverted Reject"], false)
  else if (len (Metrics oldInstance) =? 0) && (0 <? len (Metrics newInstance)) then
    ([ELogInfo "UpdateRequestDetected MetrcisLoad Reject"], false)
  else
    ((if DeepEqual oldInstance newInstance then [] else [ELogInfo "ObjectChanged"])
     ++ (if MetaDeepEqual oldInstance newInstance then [] else [ELogInfo "MetaChanged"])
     ++ [ELogInfo "UpdateRequestDetected Unknown pass"],
     true).

(** The watch hands an update to the queue when every predicate of its
    list accepts it. *)
Definition admitUpdate (oldInstance newInstance : Experiment) : bool :=
  GenerationChangedUpdate oldInstance newInstance
  && snd (UpdateFunc oldInstance newInstance).

(** The three changes that the spec has the predicate suppress, as the
    spec words them: the finalizer list goes from none to some, the
    action is cleared, the metrics list is populated for the first
    time. *)
Definition finalizerAdded (oldInstance newInstance : Experiment) : bool :=
  match Finalizers oldInstance, Finalizers newInstance with
  | [], _ :: _ => true
  | _, _ => false
  end.

Definition actionCleared (oldInstance newInstance : Experiment) : bool :=
  negb (String.eqb (Action oldInstance) "") && String.eqb (Action newInstance) "".

Definition metricsLoaded (oldInstance newInstance : Experiment) : bool :=
  match Metrics oldInstance, Metrics newInstance with
  | [], _ :: _ => true
  | _, _ => false
  end.

(** An update whose only change is one of the three. *)
Definition onlyFinalizerAdded (oldInstance newInstance : Experiment) : Prop :=
  Finalizers oldInstance = []
  /\ exists f, newInstance = SetFinalizers [f] oldInstance.

Definition onlyActionCleared (oldInstance newInstance : Experiment) : Prop :=
  Action oldInstance <> "" /\ newInstance = SetAction "" oldInstance.

Definition onlyMetricsLoaded (oldInstance newInstance : Experiment) : Prop :=
  Metrics oldInstance = []
  /\ exists m, m <> [] /\ newInstance = SetMetrics m oldInstance.

(** ** The workload watches and the controller set-up (in [add], [Add]) *)

(** [func InitTargets() *Targets]: three empty objects. *)
Definition InitTargets : Targets :=
  {| tService := "";
     tBaseline := {| depName := ""; depNamespace := "" |};
     tCandidate := {| depName := ""; depNamespace := "" |} |}.

(** The part of [iter8cache.Interface] that the watches call.  A call
    answers from the cache, which is part of the world, and may change
    it. *)
Class TargetCache (W : Type) := {
  cache_MarkTargetDeploymentFound : string -> string -> W -> bool * W;
  cache_MarkTargetDeploymentMissing : string -> string -> W -> bool * W;
  cache_MarkTargetServiceFound : string -> string -> W -> bool * W;
  cache_MarkTargetServiceMissing : string -> string -> W -> bool * W;
  cache_DeploymentToExperiment : string -> string -> W -> (string * string * bool) * W;
  cache_ServiceToExperiment : string -> string -> W -> (string * string * bool) * W
}.

(** An event of a watch on a workload kind, by the name and namespace
    of its object (for an update: of the old and of the new object). *)
Inductive WorkloadEvent :=
| CreateEvent (name namespace : string)
| UpdateEvent (oldName oldNamespace newName newNamespace : string)
| DeleteEvent (name namespace : string).

(** What a watch did with an event: the lines logged and the requests
    put on the queue. *)
Record Handled := {
  logged : list Event;
  enqueued : list NamespacedName
}.

Definition dotted (name namespace : string) : string :=
  String.append name (String.append "." namespace).

Section Watches.
Context {W : Type} `{TargetCache W}.

(** [deploymentPredicate]: its [CreateFunc], [UpdateFunc] and
    [DeleteFunc], each with the lines it logs. *)
Definition deploymentCreateFunc (name namespace : string) (w : W)
  : (list Event * bool) * W :=
  let (ok, w') := cache_MarkTargetDeploymentFound name namespace w in
  if negb ok then (([], false), w')
  else (([ELogInfo (String.append "TargetDetected " (dotted name namespace))], true), w').

Definition deploymentUpdateFunc : bool := false.

Definition deploymentDeleteFunc (name namespace : string) (w : W)
  : (list Event * bool) * W :=
  let (ok, w') := cache_MarkTargetDeploymentMissing name namespace w in
  if negb ok then (([], false), w')
  else (([ELogInfo (String.append "DeploymentDeleted " (dotted name namespace))], true), w').

(** [deploymentToExperiment]: the requests for a mapped object. *)
Definition deploymentToExperiment (name namespace : string) (w : W)
  : list NamespacedName * W :=
  let '((experimentName, experimentNamespace, ok), w') :=
    cache_DeploymentToExperiment name namespace w in
  if negb ok then ([], w')
  else ([{| nnNamespace := experimentNamespace; nnName := experimentName |}], w').

(** [servicePredicate] and [serviceToExperiment]. *)
Definition serviceCreateFunc (name namespace : string) (w : W)
  : (list Event * bool) * W :=
  let (ok, w') := cache_MarkTargetServiceFound name namespace w in
  if negb ok then (([], false), w')
  else (([ELogInfo (String.append "ServiceDetected " (dotted name namespace))], true), w').

Definition serviceUpdateFunc : bool := false.

Definition serviceDeleteFunc (name namespace : string) (w : W)
  : (list Event * bool) * W :=
  let (ok, w') := cache_MarkTargetServiceMissing name namespace w in
  if negb ok then (([], false), w')
  else (([ELogInfo (String.append "ServiceDeleted " (dotted name namespace))], true), w').

Definition serviceToExperiment (name namespace : string) (w : W)
  : list NamespacedName * W :=
  let '((experimentName, experimentNamespace, ok), w') :=
    cache_ServiceToExperiment name namespace w in
  if negb ok then ([], w')
  else ([{| nnNamespace := experimentNamespace; nnName := experimentName |}], w').

(** A watch of controller-runtime with one predicate and
    [handler.EnqueueRequestsFromMapFunc]: the predicate sees the event
    first; an event it accepts is mapped and every request of the map
    is put on the queue (for an update, those of the old object, then
    those of the new one). *)
Definition watchWith
           (createFunc deleteFunc : string -> string -> W -> (list Event * bool) * W)
           (updateFunc : bool)
           (toRequests : string -> string -> W -> list NamespacedName * W)
           (ev : WorkloadEvent) (w : W) : Handled * W :=
  match ev with
  | CreateEvent name namespace =>
    let '((lines, ok), w1) := createFunc name namespace w in
    if ok then
      let (reqs, w2) := toRequests name namespace w1 in
      ({| logged := lines; enqueued := reqs |}, w2)
    else ({| logged := lines; enqueued := [] |}, w1)
  | UpdateEvent oldName oldNamespace newName newNamespace =>
    if updateFunc then
      let (reqsOld, w1) := toRequests oldName oldNamespace w in
      let (reqsNew, w2) := toRequests newName newNamespace w1 in
      ({| logged := []; enqueued := reqsOld ++ reqsNew |}, w2)
    else ({| logged := []; enqueued := [] |}, w)
  | DeleteEvent name namespace =>
    let '((lines, ok), w1) := deleteFunc name namespace w in
    if ok then
      let (reqs, w2) := toRequests name namespace w1 in
      ({| logged := lines; enqueued := reqs |}, w2)
    else ({| logged := lines; enqueued := [] |}, w1)
  end.

(** The two workload watches that [add] registers. *)
Definition watchDeployments : WorkloadEvent -> W -> Handled * W :=
  watchWith deploymentCreateFunc deploymentDeleteFunc deploymentUpdateFunc
            deploymentToExperiment.

Definition watchServices : WorkloadEvent -> W -> Handled * W :=
  watchWith serviceCreateFunc serviceDeleteFunc serviceUpdateFunc
            serviceToExperiment.
End Watches.

(** The calls of the set-up, oldest first in a trace. *)
Inductive SetupCall :=
| CallGetConfig
| CallNewIstioClient
| CallGetCache
| CallNewNotificationCenter
| CallRegisterHandler
| CallNewCache
| CallGetClient
| CallGetScheme
| CallGetEventRecorderFor (name : string)
| CallLogError (msg : string)
| CallNewController
| CallWatch (kind : string).

(** The manager and the libraries that the set-up calls: each call
    answers with its error, or nil. *)
Class Manager (W : Type) := {
  config_GetConfig : W -> option error * W;
  istioclient_NewForConfig : W -> option error * W;
  notifier_RegisterHandler : W -> option error * W;
  controller_New : W -> option error * W;
  controller_Watch : string -> W -> option error * W
}.

(** The calls of [newReconciler] that return no error: [mgr.GetCache],
    [iter8notifier.NewNotificationCenter], [iter8cache.New],
    [mgr.GetClient], [mgr.GetScheme] and [mgr.GetEventRecorderFor].
    What they hand back lives in the world. *)
Class ManagerParts (W : Type) := {
  mgr_GetCache : W -> W;
  notifier_NewNotificationCenter : W -> W;
  iter8cache_New : W -> W;
  mgr_GetClient : W -> W;
  mgr_GetScheme : W -> W;
  mgr_GetEventRecorderFor : string -> W -> W
}.

(** The set-up functions, in a module of their own: [Add] is also the
    name of the addition of a duration to an instant. *)
Module Bootstrap.
Section Setup.
Context {W : Type} `{Manager W} `{ManagerParts W}.

(** [newReconciler(mgr, stop)], which returns the reconciler and an
    error: the calls made, in the order of the source, and the error
    returned (nil when the reconciler is built).  The fields of the
    reconciler are evaluated in the order in which they are written. *)
Definition newReconciler (w : W) : (list SetupCall * option error) * W :=
  let (err, w1) := config_GetConfig w in
  match err with
  | Some e =>
    (([CallGetConfig; CallLogError "unable to get client config"], Some e), w1)
  | None =>
    let (err, w2) := istioclient_NewForConfig w1 in
    match err with
    | Some e =>
      (([CallGetConfig; CallNewIstioClient;
         CallLogError "Failed to create istio client"], Some e), w2)
    | None =>
      let w3 := mgr_GetCache w2 in
      let w4 := notifier_NewNotificationCenter w3 in
      let (err, w5) := notifier_RegisterHandler w4 in
      match err with
      | Some e =>
        (([CallGetConfig; CallNewIstioClient; CallGetCache; CallNewNotificationCenter;
           CallRegisterHandler;
           CallLogError "Failed to register notifier config handlers"], Some e), w5)
      | None =>
        let w6 := iter8cache_New w5 in
        let w7 := mgr_GetClient w6 in
        let w8 := mgr_GetScheme w7 in
        let w9 := mgr_GetEventRecorderFor Iter8Controller w8 in
        (([CallGetConfig; CallNewIstioClient; CallGetCache; CallNewNotificationCenter;
           CallRegisterHandler; CallNewCache; CallGetClient; CallGetScheme;
           CallGetEventRecorderFor Iter8Controller], None), w9)
      end
    end
  end.

(** [func add(mgr, r) error]: [err] is assigned by each [c.Watch] and
    tested after the last one only. *)
Definition add (w : W) : (list SetupCall * option error) * W :=
  let (err, w1) := controller_New w in
  match err with
  | Some e => (([CallNewController], Some e), w1)
  | None =>
    let (err, w2) := controller_Watch "Deployment" w1 in
    let (err, w3) := controller_Watch "Service" w2 in
    let (err, w4) := controller_Watch "Experiment" w3 in
    (([CallNewController; CallWatch "Deployment"; CallWatch "Service";
       CallWatch "Experiment"],
      match err with
      | Some e => Some e
      | None => None
      end), w4)
  end.

(** [func Add(mgr, stop) error] *)
Definition Add (w : W) : (list SetupCall * option error) * W :=
  let '((calls, err), w1) := newReconciler w in
  match err with
  | Some e => ((calls, Some e), w1)
  | None =>
    let '((more, err), w2) := add w1 in
    ((calls ++ more, err), w2)
  end.
End Setup.
End Bootstrap.

(** ** A concrete world

    A cluster that answers every call from a fixed script.  It gives the
    closed examples below something to run on; the theorems hold for
    every world. *)
Module Scenario.

Record Cluster := {
  stored : error + Experiment;
  updateAnswer : option error;
  statusAnswer : option error;
  deleteAnswer : option error;
  clock : Time;
  stableTarget : string;
  cached : list string
}.

Definition withCached (l : list string) (w : Cluster) : Cluster :=
  {| stored := stored w; updateAnswer := updateAnswer w;
     statusAnswer := statusAnswer w; deleteAnswer := deleteAnswer w;
     clock := clock w; stableTarget := stableTarget w; cached := l |}.

#[export] Instance client : Client Cluster := {
  client_Get := fun _ w => (stored w, w);
  client_Update := fun _ w => (updateAnswer w, w);
  client_Delete := fun _ w => (deleteAnswer w, w);
  client_StatusUpdate := fun _ w => (statusAnswer w, w)
}.

#[export] Instance cache : Cache Cluster := {
  cache_RegisterExperiment := fun e w => withCached (Name e :: cached w) w;
  cache_RemoveExperiment := fun e w =>
    withCached (filter (fun n => negb (String.eqb n (Name e))) (cached w)) w;
  abstractTerminate := fun _ => None
}.

(** Modelled from the spec: the terminate variants of the action are
    [successWithBaseline], [successWithCandidate], [abort] and
    [overrideFailure]; a conflict on the optimistic-concurrency token
    is the benign update error; status initialisation sets the phase
    to [Initializing] with a zero split, no conditions and iteration 0;
    the targets error is a [TargetsProvided] condition that is [False]
    with the reason and the message given. *)
Definition isTerminate (a : string) : bool :=
  existsb (String.eqb a)
          ["successWithBaseline"; "successWithCandidate"; "abort"; "overrideFailure"].

Definition markTargetsError (reason message : string) (s : ExperimentStatus)
  : ExperimentStatus :=
  {| Phase := Phase s; CreateTimestamp := CreateTimestamp s;
     Conditions :=
       {| Type_ := ExperimentConditionTargetsProvided; CondStatus := "False";
          Reason := reason; Message := message |}
       :: filter (fun c => negb (String.eqb (Type_ c) ExperimentConditionTargetsProvided))
                 (Conditions s);
     TrafficSplit := TrafficSplit s; CurrentIteration := CurrentIteration s;
     LastIncrementTime := LastIncrementTime s |}.

#[export] Instance collaborators : Collaborators Cluster := {
  validUpdateErr := fun e => String.eqb (errReason e) "Conflict";
  TerminateExperiment := isTerminate;
  GetIntervalDuration := fun _ => 10000000000;
  GetStableTarget := fun _ w => stableTarget w;
  time_Now := clock;
  Status_Init := fun _ w =>
    {| Phase := "Initializing"; CreateTimestamp := clock w; Conditions := [];
       TrafficSplit := {| Baseline := 0; Candidate := 0 |};
       CurrentIteration := 0; LastIncrementTime := 0 |};
  MarkTargetsError := markTargetsError;
  metrics_Read := fun i w => ((None, i), w);
  MarkSyncMetricsError := fun _ i w => (i, w);
  MarkSyncMetrics := fun i w => (i, w);
  checkOrInitRules := fun i w => (((false, None), i), w);
  r_detectTargets := fun i w => (((false, None), i), w);
  progressExperiment := fun i w => ((None, i), w);
  checkExperimentCompleted := fun i w => (((isTerminate (Action i), None), i), w);
  syncKnative := fun i w => (((emptyResult, None), i), w);
  finalizeKnative := fun i w => (((emptyResult, None), i), w)
}.

Definition notFound : error := {| errReason := "NotFound"; errMessage := "not found" |}.
Definition timeout : error := {| errReason := "Timeout"; errMessage := "timed out" |}.

(** An experiment on the Kubernetes family, initialised by an earlier
    reconcile and holding the finalizer. *)
Definition running : Experiment :=
  {| Name := "reviews"; Namespace := "bookinfo"; Generation := 1;
     Finalizers := [Finalizer]; DeletionTimestamp := None;
     Spec := {| TargetService_ := {| APIVersion := KubernetesService;
                                     ServiceName := "reviews";
                                     BaselineName := "reviews-v1";
                                     CandidateName := "reviews-v2" |};
                TrafficControl_ := {| Interval := "10s"; MaxIterations := 3;
                                      TrafficStepSize := 25 |};
                Analysis_ := {| AnalyticsService := "iter8-analytics";
                                SuccessCriteria := [] |};
                CleanUp := CleanUpDelete |};
     Status := {| Phase := "Progressing"; CreateTimestamp := 1000;
                  Conditions :=
                    [ {| Type_ := ExperimentConditionTargetsProvided;
                         CondStatus := ConditionTrue; Reason := ""; Message := "" |};
                      {| Type_ := ExperimentConditionExperimentCompleted;
                         CondStatus := "False"; Reason := ""; Message := "" |} ];
                  TrafficSplit := {| Baseline := 75; Candidate := 25 |};
                  CurrentIteration := 1;
                  LastIncrementTime := 5000000000 |};
     Metrics := []; Action := "" |}.

Definition SetSpec (sp : ExperimentSpec) (e : Experiment) : Experiment :=
  {| Name := Name e; Namespace := Namespace e; Generation := Generation e;
     Finalizers := Finalizers e; DeletionTimestamp := DeletionTimestamp e;
     Spec := sp; Status := Status e; Metrics := Metrics e; Action := Action e |}.

Definition SetDeletionTimestamp (t : option Time) (e : Experiment) : Experiment :=
  {| Name := Name e; Namespace := Namespace e; Generation := Generation e;
     Finalizers := Finalizers e; DeletionTimestamp := t;
     Spec := Spec e; Status := Status e; Metrics := Metrics e; Action := Action e |}.

Definition SetGeneration (g : Z) (e : Experiment) : Experiment :=
  {| Name := Name e; Namespace := Namespace e; Generation := g;
     Finalizers := Finalizers e; DeletionTimestamp := DeletionTimestamp e;
     Spec := Spec e; Status := Status e; Metrics := Metrics e; Action := Action e |}.

Definition withAPIVersion (v : string) (e : Experiment) : Experiment :=
  SetSpec {| TargetService_ := {| APIVersion := v;
                                  ServiceName := ServiceName (TargetService_ (Spec e));
                                  BaselineName := BaselineName (TargetService_ (Spec e));
                                  CandidateName := CandidateName (TargetService_ (Spec e)) |};
             TrafficControl_ := TrafficControl_ (Spec e);
             Analysis_ := Analysis_ (Spec e);
             CleanUp := CleanUp (Spec e) |} e.

Definition withCleanUp (c : string) (e : Experiment) : Experiment :=
  SetSpec {| TargetService_ := TargetService_ (Spec e);
             TrafficControl_ := TrafficControl_ (Spec e);
             Analysis_ := Analysis_ (Spec e);
             CleanUp := c |} e.

Definition withPhase (p : string) (e : Experiment) : Experiment :=
  SetStatus {| Phase := p; CreateTimestamp := CreateTimestamp (Status e);
               Conditions := Conditions (Status e);
               TrafficSplit := TrafficSplit (Status e);
               CurrentIteration := CurrentIteration (Status e);
               LastIncrementTime := LastIncrementTime (Status e) |} e.

Definition withConditions (cs : list ExperimentCondition) (e : Experiment) : Experiment :=
  SetStatus {| Phase := Phase (Status e); CreateTimestamp := CreateTimestamp (Status e);
               Conditions := cs;
               TrafficSplit := TrafficSplit (Status e);
               CurrentIteration := CurrentIteration (Status e);
               LastIncrementTime := LastIncrementTime (Status e) |} e.

(** A cluster that stores [e], accepts every write, and whose clock
    reads [now]. *)
Definition healthy (e : Experiment) (now : Time) : Cluster :=
  {| stored := inr e; updateAnswer := None; statusAnswer := None;
     deleteAnswer := None; clock := now; stableTarget := "baseline";
     cached := [] |}.

Definition withDeleteAnswer (a : option error) (w : Cluster) : Cluster :=
  {| stored := stored w; updateAnswer := updateAnswer w;
     statusAnswer := statusAnswer w; deleteAnswer := a;
     clock := clock w; stableTarget := stableTarget w; cached := cached w |}.

Definition withStored (r : error + Experiment) (w : Cluster) : Cluster :=
  {| stored := r; updateAnswer := updateAnswer w;
     statusAnswer := statusAnswer w; deleteAnswer := deleteAnswer w;
     clock := clock w; stableTarget := stableTarget w; cached := cached w |}.

Definition start (e : Experiment) (w : Cluster) : St Cluster := mkSt e w [].

Definition key : NamespacedName := {| nnNamespace := "bookinfo"; nnName := "reviews" |}.

Definition workloads : Targets :=
  {| tService := "reviews";
     tBaseline := {| depName := "reviews-v1"; depNamespace := "bookinfo" |};
     tCandidate := {| depName := "reviews-v2"; depNamespace := "bookinfo" |} |}.

End Scenario.

(** ** Vocabulary of the properties *)

Section Vocabulary.
Context {W : Type} `{Client W} `{Cache W} `{Collaborators W}.

(** The experiment that [removeFinalizer] writes back. *)
Definition released (e : Experiment) : Experiment :=
  SetFinalizers (filter (fun f => negb (String.eqb f Finalizer)) (Finalizers e)) e.

(** The progress check lets the experiment [e] advance at the clock
    reading [now]. *)
Definition permitted (now : Time) (e : Experiment) : Prop :=
  TerminateExperiment (Action e) = false
  /\ LastIncrementTime (Status e) + GetIntervalDuration (TrafficControl_ (Spec e)) < now.

(** A trace is gated when every call of [progressExperiment] comes
    right after a reading of the clock that permits it.  [prev] is the
    call before the trace, if any. *)
Fixpoint gatedFrom (prev : option Event) (t : list Event) : Prop :=
  match t with
  | [] => True
  | ev :: rest =>
    match ev with
    | EProgressExperiment e =>
      match prev with
      | Some (ENow now) => permitted now e
      | _ => False
      end
    | _ => True
    end /\ gatedFrom (Some ev) rest
  end.

Definition gated (t : list Event) : Prop := gatedFrom None t.

Definition quiet (ev : Event) : Prop :=
  match ev with
  | EProgressExperiment _ => False
  | _ => True
  end.

(** A computation steps when all it does to the trace is to append a
    gated run of calls. *)
Definition steps {A} (c : M W A) : Prop :=
  forall s, exists t, trace (snd (c s)) = trace s ++ t /\ gated t.

(** The state in which [Reconcile] reaches the finalizer step. *)
Definition fetched (request : NamespacedName) (e : Experiment) (w : W) (s : St W) : St W :=
  mkSt e (cache_RegisterExperiment e w)
       (trace s ++ [EGet request; ERegisterExperiment e; ELogInfo "reconciling"]).

(** The experiment needs no metrics sync. *)
Definition metricsSettled (e : Experiment) : Prop :=
  SuccessCriteria (Analysis_ (Spec e)) = []
  \/ exists c, GetCondition ExperimentConditionMetricsSynced (Status e) = Some c
               /\ CondStatus c = ConditionTrue.

(** The experiment with the targets error for its API version. *)
Definition rejected (e : Experiment) : Experiment :=
  SetStatus (MarkTargetsError "UnsupportedAPIVersion"
                              (APIVersion (TargetService_ (Spec e))) (Status e)) e.

(** The state in which [finalizeIstio] starts the synthetic pass. *)
Definition overridden (s : St W) : St W :=
  mkSt (SetAction ActionOverrideFailure (instance s)) (world s)
       (trace s ++ [ELogInfo "finalizing"]).

(** A computation returns when it never panics. *)
Definition returns {A} (c : M W A) : Prop :=
  forall s, exists a s', c s = (Done a, s').

(** The error line that [Cleanup] logs after a delete. *)
Definition deleteLog (msg : string) (err : option error) : list Event :=
  match err with
  | Some e => if IsNotFound e then [ELogError msg] else []
  | None => []
  end.
End Vocabulary.

(** ** Vocabulary of the further properties *)

Section Counting.
Context {W : Type} `{Client W} `{Cache W} `{Collaborators W}.

(** The experiment with the token appended, as [addFinalizerIfAbsent]
    writes it. *)
Definition held (e : Experiment) : Experiment :=
  SetFinalizers (Finalizers e ++ [Finalizer]) e.

(** [syncMetrics] has to read the metrics: there are success criteria
    and the [MetricsSynced] condition is not [True]. *)
Definition needsSync (e : Experiment) : bool :=
  match SuccessCriteria (Analysis_ (Spec e)) with
  | [] => false
  | _ :: _ =>
    match GetCondition ExperimentConditionMetricsSynced (Status e) with
    | None => true
    | Some c => negb (String.eqb (CondStatus c) ConditionTrue)
    end
  end.

Definition isProgress (ev : Event) : bool :=
  match ev with
  | EProgressExperiment _ => true
  | _ => false
  end.

Definition isStatusUpdate (ev : Event) : bool :=
  match ev with
  | EStatusUpdate _ => true
  | _ => false
  end.

Definition isDelete (ev : Event) : bool :=
  match ev with
  | EDelete _ => true
  | _ => false
  end.

Definition isLog (ev : Event) : bool :=
  match ev with
  | ELogInfo _ | ELogError _ => true
  | _ => false
  end.

(** The number of calls of a kind in a trace. *)
Definition calls (kind : Event -> bool) (t : list Event) : nat :=
  List.length (filter kind t).

(** A computation is sparing up to [n] when all it does to the trace is
    to append calls of which at most [n] are of [progressExperiment]. *)
Definition sparing (n : nat) {A} (c : M W A) : Prop :=
  forall s, exists t, trace (snd (c s)) = trace s ++ t /\ (calls isProgress t <= n)%nat.

(** The experiment differs from [e] in its traffic split at most. *)
Definition sameButSplit (e e' : Experiment) : Prop :=
  Name e' = Name e /\ Namespace e' = Namespace e /\ Generation e' = Generation e
  /\ Finalizers e' = Finalizers e /\ DeletionTimestamp e' = DeletionTimestamp e
  /\ Spec e' = Spec e /\ Metrics e' = Metrics e /\ Action e' = Action e
  /\ Phase (Status e') = Phase (Status e)
  /\ CreateTimestamp (Status e') = CreateTimestamp (Status e)
  /\ Conditions (Status e') = Conditions (Status e)
  /\ CurrentIteration (Status e') = CurrentIteration (Status e)
  /\ LastIncrementTime (Status e') = LastIncrementTime (Status e).

(** The trace ends with the completion check and a status update. *)
Definition endsCompleted (t : list Event) : Prop :=
  match rev t with
  | EStatusUpdate _ :: ECheckExperimentCompleted :: _ => True
  | _ => False
  end.

(** The result that asks for the next iteration of [e]. *)
Definition nextIteration (e : Experiment) : Result :=
  {| Requeue := false;
     RequeueAfter := GetIntervalDuration (TrafficControl_ (Spec e)) |}.

(** The state in which [Reconcile] sends the first status. *)
Definition initialised (e : Experiment) (w : W) : Experiment :=
  SetStatus (Status_Init (Status e) w) e.
End Counting.

Section Marks.
Context {W : Type} `{TargetCache W}.

(** What the cache answers when the deployment watch, or the service
    watch, marks the object of an event; an update marks nothing. *)
Definition deploymentMarked (ev : WorkloadEvent) (w : W) : bool :=
  match ev with
  | CreateEvent name namespace => fst (cache_MarkTargetDeploymentFound name namespace w)
  | UpdateEvent _ _ _ _ => false
  | DeleteEvent name namespace => fst (cache_MarkTargetDeploymentMissing name namespace w)
  end.

Definition serviceMarked (ev : WorkloadEvent) (w : W) : bool :=
  match ev with
  | CreateEvent name namespace => fst (cache_MarkTargetServiceFound name namespace w)
  | UpdateEvent _ _ _ _ => false
  | DeleteEvent name namespace => fst (cache_MarkTargetServiceMissing name namespace w)
  end.
End Marks.

Section Steps.
Context {W : Type} `{Client W} `{Cache W} `{Collaborators W}.

Definition isUpdate (ev : Event) : bool :=
  match ev with
  | EUpdate _ => true
  | _ => false
  end.

Definition hasToken (e : Experiment) : bool :=
  existsb (fun f => String.eqb f Finalizer) (Finalizers e).

(** The finalizer step of [Reconcile], from the state [s1] in which it
    starts: the error of [addFinalizerIfAbsent] and the state it
    leaves.  Nothing happens when the token is in the list; otherwise
    the experiment with the token appended is sent to the cluster. *)
Definition tokenError (s1 : St W) : option error :=
  if hasToken (instance s1) then None
  else fst (client_Update (held (instance s1)) (world s1)).

Definition tokenStep (s1 : St W) : St W :=
  if hasToken (instance s1) then s1
  else
    mkSt (held (instance s1))
         (snd (client_Update (held (instance s1)) (world s1)))
         (trace s1 ++ [EUpdate (held (instance s1))]
            ++ match fst (client_Update (held (instance s1)) (world s1)) with
               | Some _ => [ELogInfo "setting finalizer failed. (retrying)"]
               | None => []
               end).

(** The status initialisation of [Reconcile], from the state [s2] in
    which it starts: the error of the first status update and the state
    it leaves.  Nothing happens when the create timestamp is not 0. *)
Definition statusError (s2 : St W) : option error :=
  if CreateTimestamp (Status (instance s2)) =? 0 then
    fst (client_StatusUpdate (initialised (instance s2) (world s2)) (world s2))
  else None.

Definition statusStep (s2 : St W) : St W :=
  if CreateTimestamp (Status (instance s2)) =? 0 then
    mkSt (initialised (instance s2) (world s2))
         (snd (client_StatusUpdate (initialised (instance s2) (world s2)) (world s2)))
         (trace s2 ++ [EStatusInit; EStatusUpdate (initialised (instance s2) (world s2))])
  else s2.

(** The state in which the synthetic pass of [finalizeIstio] stops when
    [checkOrInitRules] fails and leaves the experiment [e1] and the
    world [w1]: after the status update if one is asked for. *)
Definition abandoned (s : St W) (updateStatus : bool) (e1 : Experiment) (w1 : W) : St W :=
  if updateStatus then
    mkSt e1 (snd (client_StatusUpdate e1 w1))
         (trace s ++ [ELogInfo "finalizing"; ECheckOrInitRules; EStatusUpdate e1]
            ++ if failed (fst (client_StatusUpdate e1 w1))
               then [ELogInfo "Fail to update status: %v"] else [])
  else mkSt e1 w1 (trace s ++ [ELogInfo "finalizing"; ECheckOrInitRules]).

(** What [finalize] returns, and the state it leaves, when it only
    removes the token, from the state [s]. *)
Definition tokenOnly (s : St W) : outcome (Result * option error) * St W :=
  (Done (emptyResult, fst (client_Update (released (instance s)) (world s))),
   mkSt (released (instance s))
        (snd (client_Update (released (instance s)) (world s)))
        (trace s ++ [ELogInfo "finalizing"; EUpdate (released (instance s))]
           ++ match fst (client_Update (released (instance s)) (world s)) with
              | Some _ => [ELogInfo "setting finalizer failed. (retrying)"]
              | None => []
              end
           ++ [ELogInfo "FinalizerRemoved"])).
End Steps.

(** ** Concrete experiments and clusters *)

Import Scenario.

Definition unsupportedVersion : string := "extensions/v1beta1".

(** The running experiment after its deletion was requested. *)
Definition deleted : Experiment := SetDeletionTimestamp (Some 7000000000) running.

(** The running experiment once completed, and the same after it lost
    the finalizer token. *)
Definition completed : Experiment := withPhase PhaseCompleted running.

Definition completedNoToken : Experiment := SetFinalizers [] completed.

(** The running experiment with another cleanup policy, and on an API
    family that the controller does not know, running or deleted. *)
Definition keeping : Experiment := withCleanUp "none" running.

Definition foreign : Experiment := withAPIVersion unsupportedVersion running.

Definition foreignDeleted : Experiment := withAPIVersion unsupportedVersion deleted.

(** The deleted experiment before any condition was set, and after
    [finalizeIstio] overrode its action. *)
Definition deletedEarly : Experiment := withConditions [] deleted.

Definition forced : Experiment := SetAction ActionOverrideFailure deleted.

Definition notCompleted : ExperimentCondition :=
  {| Type_ := ExperimentConditionExperimentCompleted; CondStatus := "False";
     Reason := ""; Message := "" |}.

(** A reconcile request arrives: nothing is behind the pointer yet. *)
Definition arriving (e : Experiment) : St Cluster := start zeroExperiment (healthy e 0).

Definition gone : St Cluster :=
  start zeroExperiment (withStored (inl notFound) (healthy running 0)).

Definition slow : St Cluster :=
  start zeroExperiment (withStored (inl timeout) (healthy running 0)).

(** The state in which the synthetic pass leaves the deleted experiment. *)
Definition synced : St Cluster :=
  mkSt forced (healthy deleted 0)
       [ELogInfo "finalizing"; ECheckOrInitRules; ECheckExperimentCompleted;
        EStatusUpdate forced].

(** The state in which the synthetic pass leaves the deleted experiment
    when the routing rules cannot be set up. *)
Definition stalled : St Cluster :=
  mkSt forced (healthy deleted 0)
       [ELogInfo "finalizing"; ECheckOrInitRules; EStatusUpdate forced].

(** The update that takes [objectOld] to [objectNew] adds the
    finalizer and also changes the cleanup policy, with a new
    generation. *)
Definition objectOld : Experiment := SetFinalizers [] keeping.

Definition objectNew : Experiment := SetGeneration 2 running.

(** The cluster from which the candidate is gone already, and the one
    whose delete times out. *)
Definition absent : Cluster := withDeleteAnswer (Some notFound) (healthy running 0).

Definition broken : Cluster := withDeleteAnswer (Some timeout) (healthy running 0).

(** The running experiment after the cleanup for a stable baseline. *)
Definition cleaned : Experiment :=
  SetStatus (SetTrafficSplit 100 0 (Status running)) running.

(** *** Further experiments and clusters *)

(** Helpers that fail: the metrics cannot be read and the routing rules
    cannot be set up; the rest is as in the scenario. *)
Definition flaky : Collaborators Cluster := {|
  validUpdateErr := fun e => String.eqb (errReason e) "Conflict";
  TerminateExperiment := isTerminate;
  GetIntervalDuration := fun _ => 10000000000;
  GetStableTarget := fun _ w => stableTarget w;
  time_Now := clock;
  Status_Init := fun _ w =>
    {| Phase := "Initializing"; CreateTimestamp := clock w; Conditions := [];
       TrafficSplit := {| Baseline := 0; Candidate := 0 |};
       CurrentIteration := 0; LastIncrementTime := 0 |};
  MarkTargetsError := markTargetsError;
  metrics_Read := fun i w => ((Some timeout, i), w);
  MarkSyncMetricsError := fun _ i w => (i, w);
  MarkSyncMetrics := fun i w => (i, w);
  checkOrInitRules := fun i w => (((true, Some timeout), i), w);
  r_detectTargets := fun i w => (((false, None), i), w);
  progressExperiment := fun i w => ((None, i), w);
  checkExperimentCompleted := fun i w => (((isTerminate (Action i), None), i), w);
  syncKnative := fun i w => (((emptyResult, None), i), w);
  finalizeKnative := fun i w => (((emptyResult, None), i), w)
|}.

(** The running experiment with a success criterion, its metrics not
    yet synced. *)
Definition measured : Experiment :=
  SetSpec {| TargetService_ := TargetService_ (Spec running);
             TrafficControl_ := TrafficControl_ (Spec running);
             Analysis_ := {| AnalyticsService := "iter8-analytics";
                             SuccessCriteria := ["latency"] |};
             CleanUp := CleanUp (Spec running) |} running.

(** The experiment as it is created, before its first reconcile gave it
    a status; it holds the token. *)
Definition created : Experiment := SetStatus zeroStatus running.

(** The deleted experiment once completed, and the deleted experiment
    that is not completed and has lost its [TargetsProvided] condition. *)
Definition deletedDone : Experiment :=
  withConditions
    [ {| Type_ := ExperimentConditionExperimentCompleted; CondStatus := ConditionTrue;
         Reason := ""; Message := "" |} ] deleted.


(** The state after a pass that made progress, twenty seconds in. *)
Definition progressed : St Cluster :=
  mkSt running (healthy running 20000000000)
       [ECheckOrInitRules; ENow 20000000000; EProgressExperiment running;
        EStatusUpdate running; ECheckExperimentCompleted;
        ELogInfo "Requeue for next iteration"].

(** The operator aborts the running experiment. *)
Definition aborted : Experiment := SetGeneration 2 (SetAction "abort" running).

(** A cluster that refuses the status, and one in which the stable
    target is not known. *)
Definition refusing (e : Experiment) : Cluster :=
  {| stored := inr e; updateAnswer := None; statusAnswer := Some timeout;
     deleteAnswer := None; clock := 0; stableTarget := "baseline"; cached := [] |}.

Definition undecided (e : Experiment) : Cluster :=
  {| stored := inr e; updateAnswer := None; statusAnswer := None;
     deleteAnswer := None; clock := 0; stableTarget := ""; cached := [] |}.

(** A cluster that refuses every update of the experiment itself. *)
Definition rejecting (e : Experiment) : Cluster :=
  {| stored := inr e; updateAnswer := Some timeout; statusAnswer := None;
     deleteAnswer := None; clock := 0; stableTarget := "baseline"; cached := [] |}.

(** An experiment of an unknown API family as it is created, without
    token and without status, and the same once the reconcile gave it
    both; then the unknown family with the other experiments. *)
Definition newcomer : Experiment :=
  SetFinalizers [] (withAPIVersion unsupportedVersion created).

Definition welcomed : Experiment :=
  initialised (held newcomer) (cache_RegisterExperiment newcomer (healthy newcomer 0)).

Definition foreignCompleted : Experiment := withAPIVersion unsupportedVersion completed.

Definition foreignCreated : Experiment := withAPIVersion unsupportedVersion created.

Definition foreignMeasured : Experiment := withAPIVersion unsupportedVersion measured.

(** The experiment as the controller sees it for the first time, without
    the token; and the deleted, completed experiment that another
    finalizer alone holds back. *)
Definition firstSeen : Experiment := SetFinalizers [] created.

Definition heldElsewhere : Experiment := SetFinalizers ["foregroundDeletion"] deletedDone.

(** The cache of the scenario knows the two workloads and the service
    of the running experiment; the world is left as it is. *)
Definition knownWorkload (name namespace : string) : bool :=
  existsb (String.eqb name) ["reviews-v1"; "reviews-v2"; "reviews"]
  && String.eqb namespace "bookinfo".

#[export] Instance targetCache : TargetCache Cluster := {
  cache_MarkTargetDeploymentFound := fun n ns w => (knownWorkload n ns, w);
  cache_MarkTargetDeploymentMissing := fun n ns w => (knownWorkload n ns, w);
  cache_MarkTargetServiceFound := fun n ns w => (knownWorkload n ns, w);
  cache_MarkTargetServiceMissing := fun n ns w => (knownWorkload n ns, w);
  cache_DeploymentToExperiment := fun n ns w =>
    (("reviews", "bookinfo", knownWorkload n ns), w);
  cache_ServiceToExperiment := fun n ns w =>
    (("reviews", "bookinfo", knownWorkload n ns), w)
}.

(** A manager whose world is the list of the kinds that it cannot
    watch; every other call of the set-up succeeds. *)
#[export] Instance manager : Manager (list string) := {
  config_GetConfig := fun w => (None, w);
  istioclient_NewForConfig := fun w => (None, w);
  notifier_RegisterHandler := fun w => (None, w);
  controller_New := fun w => (None, w);
  controller_Watch := fun kind w =>
    (if existsb (String.eqb kind) w then Some timeout else None, w)
}.

(** ** Properties *)

(** Runs the monad's plumbing. *)
Ltac run :=
  unfold bind, ret, panic, getInstance, setInstance, emit, readWorld, call,
         callOnInstance, logInfo, logError; simpl.

Section Properties.
Context {W : Type} `{Client W} `{Cache W} `{Collaborators W}.

Lemma existsb_eqb_In (x : string) (l : list string) :
  existsb (fun y => String.eqb y x) l = true <-> In x l.
Proof.
  rewrite existsb_exists. split.
  - intros [y [Hin Heq]]. apply String.eqb_eq in Heq. now subst.
  - intros Hin. exists x. split; [assumption | apply String.eqb_refl].
Qed.

Lemma filter_drops (x : string) (l : list string) :
  ~ In x (filter (fun f => negb (String.eqb f x)) l).
Proof.
  rewrite filter_In. intros [_ Hneq].
  now rewrite String.eqb_refl in Hneq.
Qed.

(** [removeFinalizer] writes the experiment without the token to the
    cluster once, whatever the state, and hands back the answer. *)
Lemma removeFinalizer_run (s : St W) :
  removeFinalizer Finalizer s =
  (Done (fst (client_Update (released (instance s)) (world s))),
   mkSt (released (instance s))
        (snd (client_Update (released (instance s)) (world s)))
        (trace s ++ [EUpdate (released (instance s))]
           ++ match fst (client_Update (released (instance s)) (world s)) with
              | Some _ => [ELogInfo "setting finalizer failed. (retrying)"]
              | None => []
              end
           ++ [ELogInfo "FinalizerRemoved"])).
Proof.
  unfold removeFinalizer, Update, released. run.
  destruct (client_Update _ (world s)) as [[err|] w]; simpl;
    repeat rewrite <- app_assoc; reflexivity.
Qed.

Lemma addFinalizerIfAbsent_skip (s : St W) :
  In Finalizer (Finalizers (instance s)) ->
  addFinalizerIfAbsent Finalizer s = (Done None, s).
Proof.
  intros Hin. unfold addFinalizerIfAbsent. run.
  apply existsb_eqb_In in Hin. rewrite Hin. reflexivity.
Qed.

(** C8: when the controller's finalizer token is already in the
    experiment's finalizer list, [addFinalizerIfAbsent] returns no
    error and leaves the whole state as it found it: no call is added
    to the trace (so no cluster update is issued), the world is the
    same, and the experiment, its finalizer list included, is
    unchanged. *)
Theorem addFinalizerIfAbsent_present (s : St W) :
  In Finalizer (Finalizers (instance s)) ->
  addFinalizerIfAbsent Finalizer s = (Done None, s).
Proof.
  intros Hin. unfold addFinalizerIfAbsent.
  unfold bind at 1. simpl.
  assert (Hfound : existsb (fun finalizer => String.eqb finalizer Finalizer)
                           (Finalizers (instance s)) = true).
  { apply existsb_exists. exists Finalizer. split; [exact Hin | apply String.eqb_refl]. }
  rewrite Hfound. reflexivity.
Qed.

(** C9: when the cleanup policy is not [delete], [Cleanup] leaves the
    whole state as it found it: the trace gains no call (so no
    workload is deleted) and the experiment, with its status and both
    fields of its traffic split, is unchanged. *)
Theorem Cleanup_keeps (t : Targets) (s : St W) :
  CleanUp (Spec (instance s)) <> CleanUpDelete ->
  Cleanup t s = (Done tt, s).
Proof.
  intros Hpol. unfold Cleanup. run.
  apply String.eqb_neq in Hpol. rewrite Hpol. reflexivity.
Qed.

(** C10: for a deleted experiment whose API family is neither the
    Kubernetes nor the Knative one, [finalize] goes straight to the
    removal of the finalizer token: its only call after the log line
    is the cluster update of the experiment without the token; the
    action is not overridden, no synthetic reconcile pass runs and the
    experiment is not removed from the cache. *)
Theorem finalize_unsupported (s : St W) :
  DeletionTimestamp (instance s) <> None ->
  APIVersion (TargetService_ (Spec (instance s))) <> KubernetesService ->
  APIVersion (TargetService_ (Spec (instance s))) <> KnativeServiceV1Alpha1 ->
  let e := released (instance s) in
  let answer := client_Update e (world s) in
  finalize s =
  (Done (emptyResult, fst answer),
   mkSt e (snd answer)
        (trace s ++ [ELogInfo "finalizing"; EUpdate e]
           ++ match fst answer with
              | Some _ => [ELogInfo "setting finalizer failed. (retrying)"]
              | None => []
              end
           ++ [ELogInfo "FinalizerRemoved"]))
  /\ ~ In Finalizer (Finalizers e)
  /\ Action e = Action (instance s)
  /\ Status e = Status (instance s).
Proof.
  intros _ Hk Hn e answer. split; [| split; [apply filter_drops | split; reflexivity]].
  unfold finalize. run.
  apply String.eqb_neq in Hk, Hn. rewrite Hk, Hn.
  unfold bind. rewrite removeFinalizer_run. simpl.
  subst e answer. repeat rewrite <- app_assoc. reflexivity.
Qed.

(** C7: when the initial fetch fails, the reconcile stops there.  A
    not-found error is swallowed: the result is empty (no requeue) and
    no error is returned.  Every other error is returned, with an
    empty result.  The fetch is the only call made. *)
Theorem Reconcile_fetch_error (request : NamespacedName) (s : St W)
        (err : error) (w : W) :
  client_Get request (world s) = (inl err, w) ->
  Reconcile request s =
  (Done (emptyResult, if IsNotFound err then None else Some err),
   mkSt zeroExperiment w (trace s ++ [EGet request])).
Proof.
  intros Hget. unfold Reconcile. run. rewrite Hget.
  destruct (IsNotFound err); reflexivity.
Qed.

(** *** Traces of the Kubernetes pass *)

Lemma gatedFrom_weaken (prev : option Event) (t : list Event) :
  gated t -> gatedFrom prev t.
Proof.
  destruct t as [|ev rest]; simpl; [trivial|].
  intros [Hev Hrest]. split; [|assumption].
  destruct ev; trivial. contradiction.
Qed.

Lemma gatedFrom_app (t u : list Event) :
  forall prev, gatedFrom prev t -> gated u -> gatedFrom prev (t ++ u).
Proof.
  induction t as [|ev rest IH]; simpl; intros prev Ht Hu.
  - now apply gatedFrom_weaken.
  - destruct Ht as [Hev Hrest]. split; [assumption | now apply IH].
Qed.

Lemma gated_quiet (ev : Event) : quiet ev -> gated [ev].
Proof. unfold gated, quiet. destruct ev; simpl; intuition. Qed.

Lemma steps_ret {A} (a : A) : steps (ret a : M W A).
Proof. intros s. exists []. simpl. now rewrite app_nil_r. Qed.

Lemma steps_panic {A} (msg : string) : steps (@panic W A msg).
Proof. intros s. exists []. simpl. now rewrite app_nil_r. Qed.

Lemma steps_bind {A B} (c : M W A) (k : A -> M W B) :
  steps c -> (forall a, steps (k a)) -> steps (bind c k).
Proof.
  intros Hc Hk s. unfold bind.
  destruct (Hc s) as [t [Ht Hg]].
  destruct (c s) as [[a|msg] s']; simpl in *.
  - destruct (Hk a s') as [u [Hu Hgu]]. exists (t ++ u).
    rewrite Hu, Ht, app_assoc. split; [reflexivity | now apply gatedFrom_app].
  - exists t. now split.
Qed.

Lemma steps_getInstance : steps (getInstance : M W Experiment).
Proof. intros s. exists []. simpl. now rewrite app_nil_r. Qed.

Lemma steps_setInstance (e : Experiment) : steps (setInstance e : M W unit).
Proof. intros s. exists []. simpl. now rewrite app_nil_r. Qed.

Lemma steps_readWorld {A} (f : W -> A) : steps (readWorld f).
Proof. intros s. exists []. simpl. now rewrite app_nil_r. Qed.

Lemma steps_emit (ev : Event) : quiet ev -> steps (emit ev : M W unit).
Proof. intros Hq s. exists [ev]. simpl. split; [reflexivity | now apply gated_quiet]. Qed.

Lemma steps_call {A} (ev : Event) (f : W -> A * W) : quiet ev -> steps (call ev f).
Proof.
  intros Hq s. exists [ev]. unfold call. destruct (f (world s)). simpl.
  split; [reflexivity | now apply gated_quiet].
Qed.

Lemma steps_callOnInstance {A} (ev : Event) (f : Experiment -> W -> (A * Experiment) * W) :
  quiet ev -> steps (callOnInstance ev f).
Proof.
  intros Hq s. exists [ev]. unfold callOnInstance.
  destruct (f (instance s) (world s)) as [[a e] w]. simpl.
  split; [reflexivity | now apply gated_quiet].
Qed.

Create HintDb stepping discriminated.

(** Splits a computation along its binds and branches. *)
Ltac stepping :=
  repeat first
    [ solve [auto 1 with stepping nocore]
    | apply steps_ret
    | apply steps_panic
    | apply steps_getInstance
    | apply steps_setInstance
    | apply steps_readWorld
    | apply steps_emit; exact I
    | apply steps_call; exact I
    | apply steps_callOnInstance; exact I
    | apply steps_bind; [| intros ?]
    | match goal with
      | |- steps (match ?x with _ => _ end) => destruct x
      | |- steps (let _ := ?x in _) => destruct x
      end ].

Lemma steps_StatusUpdate : steps StatusUpdate.
Proof. unfold StatusUpdate. stepping. Qed.

Lemma steps_Update : steps Update.
Proof. unfold Update. stepping. Qed.

Hint Resolve steps_StatusUpdate steps_Update : stepping.

Lemma steps_abandon (updateStatus : bool) : steps (abandon updateStatus).
Proof. unfold abandon, logInfo. stepping. Qed.

Lemma steps_completion (hasProgressed : bool) : steps (completion hasProgressed).
Proof. unfold completion, logInfo. stepping. Qed.

Lemma steps_detectTargets : steps detectTargets.
Proof. unfold detectTargets. stepping. Qed.

Hint Resolve steps_abandon steps_completion steps_detectTargets : stepping.

(** [progress] reads the clock only when the action is not a terminate
    variant, and then answers whether the clock is strictly after the
    last increment plus the interval. *)
Lemma progress_run (s : St W) :
  progress s =
  if TerminateExperiment (Action (instance s)) then (Done false, s)
  else
    (Done (LastIncrementTime (Status (instance s))
           + GetIntervalDuration (TrafficControl_ (Spec (instance s)))
           <? time_Now (world s)),
     mkSt (instance s) (world s) (trace s ++ [ENow (time_Now (world s))])).
Proof.
  unfold progress. run.
  destruct (TerminateExperiment (Action (instance s))); reflexivity.
Qed.

Lemma steps_progression : steps progression.
Proof.
  assert (Hrest : forall err : option error,
    steps (uerr <- StatusUpdate ;;
           if failed uerr then
             logInfo "Fail to update status: %v" ;;
             ret (emptyResult, None)
           else
             match err with
             | Some _ => ret (emptyResult, None)
             | None => completion true
             end)).
  { intros err. unfold logInfo. stepping. }
  intros s. unfold progression. unfold bind at 1. rewrite progress_run.
  destruct (TerminateExperiment (Action (instance s))) eqn:Hterm.
  - apply steps_completion.
  - destruct (_ <? _) eqn:Hafter.
    + unfold bind at 1. simpl. unfold bind at 1. unfold callOnInstance at 1. simpl.
      destruct (progressExperiment (instance s) (world s)) as [[err e'] w'].
      match goal with
      | |- exists t, trace (snd (_ ?s2)) = _ /\ _ =>
        destruct (Hrest err s2) as [u [Hu Hg]]
      end.
      exists ([ENow (time_Now (world s)); EProgressExperiment (instance s)] ++ u).
      split.
      * rewrite Hu. cbn [trace]. rewrite <- !app_assoc. reflexivity.
      * apply gatedFrom_app; [| assumption].
        simpl. repeat split; trivial. now apply Z.ltb_lt.
    + match goal with
      | |- exists t, trace (snd (_ ?s1)) = _ /\ _ =>
        destruct (steps_completion false s1) as [u [Hu Hg]]
      end.
      exists ([ENow (time_Now (world s))] ++ u). split.
      * rewrite Hu. cbn [trace]. rewrite <- !app_assoc. reflexivity.
      * apply gatedFrom_app; [| assumption]. simpl. auto.
Qed.

Lemma steps_syncKubernetes : steps syncKubernetes.
Proof.
  unfold syncKubernetes.
  pose proof steps_progression. stepping.
Qed.

(** In a gated trace every call of [progressExperiment] has a clock
    reading before it, in the trace or right before the trace, that
    permits it. *)
Lemma gatedFrom_In (t : list Event) (e : Experiment) :
  forall prev,
    gatedFrom prev t -> In (EProgressExperiment e) t ->
    exists now, (prev = Some (ENow now) \/ In (ENow now) t) /\ permitted now e.
Proof.
  induction t as [|ev rest IH]; simpl; intros prev Hg Hin; [contradiction|].
  destruct Hg as [Hev Hrest]. destruct Hin as [Heq | Hin].
  - subst ev. destruct prev as [[]|]; try contradiction.
    exists t. split; [now left | exact Hev].
  - destruct (IH (Some ev) Hrest Hin) as [now [[Hprev | Hlater] Hok]].
    + exists now. split; [right; left; congruence | exact Hok].
    + exists now. split; [right; right; exact Hlater | exact Hok].
Qed.

Lemma gated_In (t : list Event) (e : Experiment) :
  gated t -> In (EProgressExperiment e) t ->
  exists now, In (ENow now) t /\ permitted now e.
Proof.
  intros Hg Hin. destruct (gatedFrom_In t e None Hg Hin) as [now [[Hprev | Hlater] Hok]].
  - discriminate Hprev.
  - now exists now.
Qed.

(** C3 (amended): [progress] answers false whenever the action is a
    terminate variant, and otherwise answers true exactly when the
    clock is strictly after the last increment time plus the interval
    (an instant equal to that sum does not yet permit progression).
    In the Kubernetes pass [progressExperiment], the only caller of
    the analytics service, is invoked only right after a clock
    reading that permits it: never while the action is a terminate
    variant, and never until the interval has strictly elapsed. *)
Theorem progress_strictly_after (s : St W) :
  fst (progress s) =
  Done (negb (TerminateExperiment (Action (instance s)))
        && (LastIncrementTime (Status (instance s))
            + GetIntervalDuration (TrafficControl_ (Spec (instance s)))
            <? time_Now (world s)))
  /\ exists t,
      trace (snd (syncKubernetes s)) = trace s ++ t
      /\ gated t
      /\ forall e, In (EProgressExperiment e) t ->
           TerminateExperiment (Action e) = false
           /\ exists now,
               In (ENow now) t
               /\ LastIncrementTime (Status e)
                  + GetIntervalDuration (TrafficControl_ (Spec e)) < now.
Proof.
  split.
  - rewrite progress_run.
    destruct (TerminateExperiment (Action (instance s))); reflexivity.
  - destruct (steps_syncKubernetes s) as [t [Ht Hg]].
    exists t. split; [exact Ht | split; [exact Hg |]].
    intros e Hin. destruct (gated_In t e Hg Hin) as [now [Hnow [Hterm Hlate]]].
    split; [exact Hterm | now exists now].
Qed.

(** *** Reconciling a fetched experiment *)

(** With the token in place and no deletion timestamp, [Reconcile]
    goes from the fetch to the gate without another call. *)
Lemma Reconcile_to_gate (request : NamespacedName) (s : St W) (e : Experiment) (w : W) :
  client_Get request (world s) = (inr e, w) ->
  In Finalizer (Finalizers e) ->
  DeletionTimestamp e = None ->
  Reconcile request s =
  (p <- proceed ;;
   if negb p then
     logInfo "NotToProceed" ;;
     ret (emptyResult, None)
   else
     inst <- getInstance ;;
     if CreateTimestamp (Status inst) =? 0 then
       callOnInstance EStatusInit
         (fun i w => ((tt, SetStatus (Status_Init (Status i) w) i), w)) ;;
       uerr <- StatusUpdate ;;
       if failed uerr then
         logInfo "Fail to update status: %v" ;;
         ret (emptyResult, None)
       else dispatch
     else dispatch) (fetched request e w s).
Proof.
  intros Hget Hin Hdel. unfold Reconcile.
  unfold bind at 1. simpl. unfold bind at 1. unfold call at 1. simpl. rewrite Hget.
  unfold bind at 1. simpl. unfold bind at 1. unfold call at 1. simpl.
  unfold bind at 1. simpl. unfold bind at 1.
  rewrite addFinalizerIfAbsent_skip by exact Hin. simpl.
  unfold bind at 1. simpl. rewrite Hdel.
  unfold fetched. repeat rewrite <- app_assoc. reflexivity.
Qed.

(** [addFinalizerIfAbsent] on any state: nothing when the token is
    there, otherwise one cluster update of the experiment with the token
    appended. *)
Lemma addFinalizerIfAbsent_run (s : St W) :
  addFinalizerIfAbsent Finalizer s =
  if existsb (fun f => String.eqb f Finalizer) (Finalizers (instance s)) then
    (Done None, s)
  else
    let e' := SetFinalizers (Finalizers (instance s) ++ [Finalizer]) (instance s) in
    let answer := client_Update e' (world s) in
    (Done (fst answer),
     mkSt e' (snd answer)
          (trace s ++ [EUpdate e']
             ++ match fst answer with
                | Some _ => [ELogInfo "setting finalizer failed. (retrying)"]
                | None => []
                end)).
Proof.
  unfold addFinalizerIfAbsent, Update. run.
  destruct (existsb _ (Finalizers (instance s))); [reflexivity|].
  destruct (client_Update _ (world s)) as [[err|] w]; simpl;
    repeat rewrite <- app_assoc; reflexivity.
Qed.

(** When the token is in place, a [Completed] experiment without
    deletion timestamp is fetched, registered, and let go at the gate. *)
Lemma Reconcile_completed_with_token (request : NamespacedName) (s : St W)
      (e : Experiment) (w : W) :
  client_Get request (world s) = (inr e, w) ->
  DeletionTimestamp e = None ->
  Phase (Status e) = PhaseCompleted ->
  In Finalizer (Finalizers e) ->
  Reconcile request s =
  (Done (emptyResult, None),
   mkSt e (cache_RegisterExperiment e w)
        (trace s ++ [EGet request; ERegisterExperiment e;
                     ELogInfo "reconciling"; ELogInfo "NotToProceed"])).
Proof.
  intros Hget Hdel Hphase Hin.
  rewrite (Reconcile_to_gate request s e w Hget Hin Hdel).
  unfold proceed, fetched. run. rewrite Hphase. simpl.
  repeat rewrite <- app_assoc. reflexivity.
Qed.

(** C1 (amended): the gate is not the first step; the fetch, the
    registration in the cache, the finalizer step and the deletion check
    come before it.  For every reconcile of an experiment that has no
    deletion timestamp and whose phase is [Completed]: when the
    experiment holds the finalizer token, the reconcile only logs after
    the fetch and the registration and returns at the gate with an empty
    result and no error; when the token is missing, the one call before
    the gate is the cluster update that adds it, and the reconcile
    returns that update's error if it is not a benign one.  In both
    cases there is no status update, metrics sync, routing change or
    analytics call. *)
Theorem Reconcile_completed_returns (request : NamespacedName) (s : St W)
        (e : Experiment) (w : W) :
  client_Get request (world s) = (inr e, w) ->
  DeletionTimestamp e = None ->
  Phase (Status e) = PhaseCompleted ->
  let w1 := cache_RegisterExperiment e w in
  let e' := SetFinalizers (Finalizers e ++ [Finalizer]) e in
  let answer := client_Update e' w1 in
  let arrival := trace s ++ [EGet request; ERegisterExperiment e; ELogInfo "reconciling"] in
  Reconcile request s =
  if existsb (fun f => String.eqb f Finalizer) (Finalizers e) then
    (Done (emptyResult, None), mkSt e w1 (arrival ++ [ELogInfo "NotToProceed"]))
  else
    (Done (emptyResult, if failed (fst answer) then fst answer else None),
     mkSt e' (snd answer)
          (arrival ++ [EUpdate e']
             ++ match fst answer with
                | Some _ => [ELogInfo "setting finalizer failed. (retrying)"]
                | None => []
                end
             ++ if failed (fst answer) then [] else [ELogInfo "NotToProceed"])).
Proof.
  intros Hget Hdel Hphase w1 e' answer arrival.
  unfold Reconcile.
  unfold bind at 1. simpl. unfold bind at 1. unfold call at 1. simpl. rewrite Hget.
  unfold bind at 1. simpl. unfold bind at 1. unfold call at 1. simpl.
  unfold bind at 1. simpl. unfold bind at 1.
  rewrite addFinalizerIfAbsent_run. simpl.
  destruct (existsb _ (Finalizers e)).
  - simpl. unfold bind at 1. simpl. rewrite Hdel.
    unfold proceed. run. rewrite Hphase. simpl.
    subst arrival. repeat rewrite <- app_assoc. reflexivity.
  - fold w1. fold e'. fold answer.
    destruct answer as [[err|] w2]; simpl.
    + destruct (validUpdateErr err); simpl.
      * unfold bind at 1. simpl. rewrite Hdel.
        unfold proceed. run. rewrite Hphase. simpl.
        subst arrival. repeat rewrite <- app_assoc. reflexivity.
      * subst arrival. repeat rewrite <- app_assoc. reflexivity.
    + unfold bind at 1. simpl. rewrite Hdel.
      unfold proceed. run. rewrite Hphase. simpl.
      subst arrival. repeat rewrite <- app_assoc. reflexivity.
Qed.

(** [syncMetrics] does nothing when there are no success criteria. *)
Lemma syncMetrics_no_criteria (s : St W) :
  SuccessCriteria (Analysis_ (Spec (instance s))) = [] ->
  syncMetrics s = (Done None, s).
Proof. intros Hnone. unfold syncMetrics. run. now rewrite Hnone. Qed.

(** [syncMetrics] does nothing when the metrics are synced already. *)
Lemma syncMetrics_synced (s : St W) (c : ExperimentCondition) :
  GetCondition ExperimentConditionMetricsSynced (Status (instance s)) = Some c ->
  CondStatus c = ConditionTrue ->
  syncMetrics s = (Done None, s).
Proof.
  intros Hcond Htrue. unfold syncMetrics. run.
  destruct (SuccessCriteria _); [reflexivity|].
  rewrite Hcond, Htrue. reflexivity.
Qed.

(** The default branch of the switch in [Reconcile]. *)
Lemma dispatch_unsupported (s : St W) :
  metricsSettled (instance s) ->
  APIVersion (TargetService_ (Spec (instance s))) <> KubernetesService ->
  APIVersion (TargetService_ (Spec (instance s))) <> KnativeServiceV1Alpha1 ->
  dispatch s =
  (Done (emptyResult, None),
   mkSt (rejected (instance s))
        (snd (client_StatusUpdate (rejected (instance s)) (world s)))
        (trace s ++ [EStatusUpdate (rejected (instance s))])).
Proof.
  intros Hmet Hk Hn. unfold dispatch. unfold bind at 1.
  assert (Hsync : syncMetrics s = (Done None, s)).
  { destruct Hmet as [Hnone | [c [Hc Ht]]];
      [now apply syncMetrics_no_criteria | now apply (syncMetrics_synced s c Hc)]. }
  rewrite Hsync. unfold StatusUpdate. run.
  apply String.eqb_neq in Hk, Hn. rewrite Hk, Hn. simpl.
  unfold rejected.
  destruct (client_StatusUpdate _ (world s)) as [uerr w']. reflexivity.
Qed.

(** [addFinalizerIfAbsent] for the controller's token, as a step. *)
Lemma tokenStep_run (s1 : St W) :
  addFinalizerIfAbsent Finalizer s1 = (Done (tokenError s1), tokenStep s1).
Proof.
  rewrite addFinalizerIfAbsent_run. unfold tokenError, tokenStep, hasToken, held.
  destruct (existsb _ (Finalizers (instance s1))); reflexivity.
Qed.

(** The finalizer step changes the finalizer list only. *)
Lemma tokenStep_keeps (s1 : St W) :
  DeletionTimestamp (instance (tokenStep s1)) = DeletionTimestamp (instance s1)
  /\ Status (instance (tokenStep s1)) = Status (instance s1)
  /\ Spec (instance (tokenStep s1)) = Spec (instance s1).
Proof.
  unfold tokenStep. destruct (hasToken (instance s1)); repeat split.
Qed.

Lemma hasToken_In (e : Experiment) :
  In Finalizer (Finalizers e) -> hasToken e = true.
Proof.
  intros Hin. unfold hasToken. apply existsb_exists.
  exists Finalizer. split; [exact Hin | apply String.eqb_refl].
Qed.

(** [Reconcile] up to the finalizer step: when the update that adds the
    token fails with an error that is not benign the error is returned,
    otherwise the reconcile goes on in the state that the step leaves. *)
Lemma Reconcile_token_fails (request : NamespacedName) (s : St W) (e : Experiment) (w : W) :
  client_Get request (world s) = (inr e, w) ->
  failed (tokenError (fetched request e w s)) = true ->
  Reconcile request s =
  (Done (emptyResult, tokenError (fetched request e w s)),
   tokenStep (fetched request e w s)).
Proof.
  intros Hget Htoken. unfold Reconcile.
  unfold bind at 1. simpl. unfold bind at 1. unfold call at 1. simpl. rewrite Hget.
  unfold bind at 1. simpl. unfold bind at 1. unfold call at 1. simpl.
  unfold bind at 1. simpl. unfold bind at 1.
  replace (mkSt e (cache_RegisterExperiment e w)
                (((trace s ++ [EGet request]) ++ [ERegisterExperiment e])
                   ++ [ELogInfo "reconciling"]))
    with (fetched request e w s)
    by (unfold fetched; repeat rewrite <- app_assoc; reflexivity).
  rewrite tokenStep_run, Htoken. reflexivity.
Qed.

Lemma Reconcile_after_token (request : NamespacedName) (s : St W) (e : Experiment) (w : W) :
  client_Get request (world s) = (inr e, w) ->
  failed (tokenError (fetched request e w s)) = false ->
  Reconcile request s =
  (inst <- getInstance ;;
   match DeletionTimestamp inst with
   | Some _ => finalize
   | None =>
     p <- proceed ;;
     if negb p then
       logInfo "NotToProceed" ;;
       ret (emptyResult, None)
     else
       inst <- getInstance ;;
       if CreateTimestamp (Status inst) =? 0 then
         callOnInstance EStatusInit
           (fun i w => ((tt, SetStatus (Status_Init (Status i) w) i), w)) ;;
         uerr <- StatusUpdate ;;
         if failed uerr then
           logInfo "Fail to update status: %v" ;;
           ret (emptyResult, None)
         else dispatch
       else dispatch
   end) (tokenStep (fetched request e w s)).
Proof.
  intros Hget Htoken. unfold Reconcile.
  unfold bind at 1. simpl. unfold bind at 1. unfold call at 1. simpl. rewrite Hget.
  unfold bind at 1. simpl. unfold bind at 1. unfold call at 1. simpl.
  unfold bind at 1. simpl. unfold bind at 1.
  replace (mkSt e (cache_RegisterExperiment e w)
                (((trace s ++ [EGet request]) ++ [ERegisterExperiment e])
                   ++ [ELogInfo "reconciling"]))
    with (fetched request e w s)
    by (unfold fetched; repeat rewrite <- app_assoc; reflexivity).
  rewrite tokenStep_run, Htoken. reflexivity.
Qed.

(** A fetched experiment that is neither deleted nor completed, and
    whose finalizer step and status initialisation do not fail, comes
    to the metrics sync. *)
Lemma Reconcile_to_sync (request : NamespacedName) (s : St W) (e : Experiment) (w : W) :
  client_Get request (world s) = (inr e, w) ->
  DeletionTimestamp e = None ->
  Phase (Status e) <> PhaseCompleted ->
  failed (tokenError (fetched request e w s)) = false ->
  failed (statusError (tokenStep (fetched request e w s))) = false ->
  Reconcile request s = dispatch (statusStep (tokenStep (fetched request e w s))).
Proof.
  intros Hget Hdel Hphase Htoken Hstatus. unfold Reconcile.
  unfold bind at 1. simpl. unfold bind at 1. unfold call at 1. simpl. rewrite Hget.
  unfold bind at 1. simpl. unfold bind at 1. unfold call at 1. simpl.
  unfold bind at 1. simpl. unfold bind at 1.
  replace (mkSt e (cache_RegisterExperiment e w)
                (((trace s ++ [EGet request]) ++ [ERegisterExperiment e])
                   ++ [ELogInfo "reconciling"]))
    with (fetched request e w s)
    by (unfold fetched; repeat rewrite <- app_assoc; reflexivity).
  rewrite tokenStep_run, Htoken.
  destruct (tokenStep_keeps (fetched request e w s)) as [Hd [Hs _]].
  cbn [instance fetched] in Hd, Hs.
  unfold bind at 1. cbn [getInstance]. rewrite Hd, Hdel.
  apply String.eqb_neq in Hphase.
  unfold proceed. unfold bind at 1. unfold bind at 1. cbn [getInstance].
  rewrite Hs, Hphase. cbn [ret negb]. unfold bind at 1. cbn [getInstance].
  unfold statusError, statusStep in *. rewrite Hs in *.
  destruct (CreateTimestamp (Status e) =? 0); [| reflexivity].
  unfold StatusUpdate. remember (tokenStep (fetched request e w s)) as s2.
  unfold bind, callOnInstance, call, getInstance. cbn [instance world trace].
  unfold initialised in *.
  destruct (client_StatusUpdate _ (world s2)) as [uerr w3]. cbn [fst snd] in *.
  rewrite Hstatus. rewrite <- app_assoc. reflexivity.
Qed.

(** The default branch of the switch, after a metrics sync that
    returned nil and left the state [s4]. *)
Lemma dispatch_default (s3 s4 : St W) :
  syncMetrics s3 = (Done None, s4) ->
  APIVersion (TargetService_ (Spec (instance s4))) <> KubernetesService ->
  APIVersion (TargetService_ (Spec (instance s4))) <> KnativeServiceV1Alpha1 ->
  dispatch s3 =
  (Done (emptyResult, None),
   mkSt (rejected (instance s4))
        (snd (client_StatusUpdate (rejected (instance s4)) (world s4)))
        (trace s4 ++ [EStatusUpdate (rejected (instance s4))])).
Proof.
  intros Hsync Hk Hn. unfold dispatch. unfold bind at 1. rewrite Hsync.
  unfold StatusUpdate. run.
  apply String.eqb_neq in Hk, Hn. rewrite Hk, Hn. simpl. unfold rejected.
  destruct (client_StatusUpdate _ (world s4)) as [uerr w']. reflexivity.
Qed.

(** C6 (amended): for every reconcile that gets as far as the switch on
    the API version, that is for every fetched experiment that has no
    deletion timestamp and is not [Completed], and for which neither
    the cluster update of the finalizer step (sent when the token is
    missing) nor the first status update (sent when the create
    timestamp is 0) fails with an error that is not benign and the
    metrics sync returns nil: if the API version of the target service,
    as the experiment has it at the switch, is neither [v1] nor
    [serving.knative.dev/v1alpha1], the controller marks the targets
    error [UnsupportedAPIVersion] with the API version as its message,
    sends the status to the cluster once, and returns an empty result
    (no requeue) and no error, whatever that status update answers. *)
Theorem Reconcile_unsupported (request : NamespacedName) (s : St W)
        (e : Experiment) (w : W) :
  client_Get request (world s) = (inr e, w) ->
  DeletionTimestamp e = None ->
  Phase (Status e) <> PhaseCompleted ->
  failed (tokenError (fetched request e w s)) = false ->
  failed (statusError (tokenStep (fetched request e w s))) = false ->
  let s3 := statusStep (tokenStep (fetched request e w s)) in
  let s4 := snd (syncMetrics s3) in
  fst (syncMetrics s3) = Done None ->
  APIVersion (TargetService_ (Spec (instance s4))) <> KubernetesService ->
  APIVersion (TargetService_ (Spec (instance s4))) <> KnativeServiceV1Alpha1 ->
  Reconcile request s =
  (Done (emptyResult, None),
   mkSt (rejected (instance s4))
        (snd (client_StatusUpdate (rejected (instance s4)) (world s4)))
        (trace s4 ++ [EStatusUpdate (rejected (instance s4))])).
Proof.
  intros Hget Hdel Hphase Htoken Hstatus s3 s4 Hsync Hk Hn.
  rewrite (Reconcile_to_sync request s e w Hget Hdel Hphase Htoken Hstatus).
  fold s3. apply dispatch_default; [| exact Hk | exact Hn].
  subst s4. destruct (syncMetrics s3) as [out s4]. simpl in *. now subst out.
Qed.

(** *** Finalization *)

(** [finalize] on the Kubernetes family once the synthetic pass has
    returned [out] and left the state [s1]. *)
Lemma finalize_after_pass (s s1 : St W) (c : ExperimentCondition)
      (out : Result * option error) :
  APIVersion (TargetService_ (Spec (instance s))) = KubernetesService ->
  GetCondition ExperimentConditionExperimentCompleted (Status (instance s)) = Some c ->
  CondStatus c <> ConditionTrue ->
  syncKubernetes (overridden s) = (Done out, s1) ->
  let e := released (instance s1) in
  let answer := client_Update e (cache_RemoveExperiment (instance s1) (world s1)) in
  finalize s =
  (Done (emptyResult, fst answer),
   mkSt e (snd answer)
        (trace s1
           ++ match snd out with
              | Some _ => [ELogError "Fail to execute finalize sync process"]
              | None => []
              end
           ++ [ERemoveExperiment (instance s1); EUpdate e]
           ++ match fst answer with
              | Some _ => [ELogInfo "setting finalizer failed. (retrying)"]
              | None => []
              end
           ++ [ELogInfo "FinalizerRemoved"])).
Proof.
  intros Hk Hcond Hnot Hsync e answer.
  unfold finalize. unfold bind at 1. simpl. unfold bind at 1. simpl.
  rewrite Hk. simpl.
  unfold finalizeIstio. unfold bind at 1. simpl. rewrite Hcond.
  apply String.eqb_neq in Hnot. rewrite Hnot. simpl.
  unfold bind at 1. unfold bind at 1. unfold bind at 1. simpl.
  unfold bind at 1. fold (overridden s). rewrite Hsync.
  destruct out as [res err]. simpl.
  unfold bind at 1.
  assert (Hlog : forall s' : St W,
    (match err return M W unit with
     | Some _ => logError "Fail to execute finalize sync process"
     | None => ret tt
     end) s' =
    (Done tt, mkSt (instance s') (world s')
                   (trace s' ++ match err with
                                | Some _ => [ELogError "Fail to execute finalize sync process"]
                                | None => []
                                end))).
  { intros [i w' t]. destruct err; run; [reflexivity | now rewrite app_nil_r]. }
  rewrite Hlog. unfold bind at 1. simpl.
  rewrite removeFinalizer_run. simpl.
  subst e answer. repeat rewrite <- app_assoc. reflexivity.
Qed.

(** [finalize] on the Kubernetes family when the [ExperimentCompleted]
    condition is absent, or [True]: the guard of [finalizeIstio] is
    false and the token alone is dropped. *)
Lemma finalize_token_only (s : St W) :
  APIVersion (TargetService_ (Spec (instance s))) = KubernetesService ->
  (GetCondition ExperimentConditionExperimentCompleted (Status (instance s)) = None
   \/ exists c,
       GetCondition ExperimentConditionExperimentCompleted (Status (instance s)) = Some c
       /\ CondStatus c = ConditionTrue) ->
  finalize s = tokenOnly s.
Proof.
  intros Hk Hcond. unfold finalize, tokenOnly.
  unfold bind at 1. simpl. unfold bind at 1. simpl.
  rewrite Hk. simpl.
  unfold finalizeIstio. unfold bind at 1. simpl.
  destruct Hcond as [Hnone | [c [Hsome Htrue]]].
  - rewrite Hnone. unfold bind at 1. simpl. unfold bind at 1.
    rewrite removeFinalizer_run. simpl.
    repeat rewrite <- app_assoc. reflexivity.
  - rewrite Hsome, Htrue. simpl. unfold bind at 1. simpl. unfold bind at 1.
    rewrite removeFinalizer_run. simpl.
    repeat rewrite <- app_assoc. reflexivity.
Qed.

(** The Kubernetes pass when [checkOrInitRules] fails: it stops after
    the status update, if one is asked for. *)
Lemma syncKubernetes_abandons (s : St W) (updateStatus : bool) (err : error)
      (e1 : Experiment) (w1 : W) :
  checkOrInitRules (instance s) (world s) = (((updateStatus, Some err), e1), w1) ->
  syncKubernetes s =
  (Done (emptyResult, None),
   if updateStatus then
     mkSt e1 (snd (client_StatusUpdate e1 w1))
          (trace s ++ [ECheckOrInitRules; EStatusUpdate e1]
             ++ if failed (fst (client_StatusUpdate e1 w1))
                then [ELogInfo "Fail to update status: %v"] else [])
   else mkSt e1 w1 (trace s ++ [ECheckOrInitRules])).
Proof.
  intros Hrules. unfold syncKubernetes. unfold bind at 1. unfold callOnInstance.
  rewrite Hrules. simpl. unfold abandon.
  destruct updateStatus; [| reflexivity].
  unfold StatusUpdate. run.
  destruct (client_StatusUpdate e1 w1) as [uerr w2]. simpl.
  destruct (failed uerr); simpl; repeat rewrite <- app_assoc; reflexivity.
Qed.

(** C2 (amended): for a deleted experiment of the Kubernetes family,
    finalization looks at the [ExperimentCompleted] condition.

    - When the condition is present and not [True], it sets the action
      to [overrideFailure], runs [syncKubernetes] once on the experiment
      so overridden and, when that pass returns, removes the experiment
      from the cache and only then sends the cluster update that drops
      the finalizer token: the trace of [finalize] is the trace of the
      pass, then the removal from the cache, then the update.
    - The pass need not get as far as the routing: when
      [checkOrInitRules] fails on the overridden experiment the pass
      stops there, after one status update at most, with an empty
      result and no error, and finalization goes on to the cache and
      the token all the same.
    - When the condition is absent, or [True], finalization sends the
      update that drops the token and does nothing else. *)
Theorem finalize_force_terminates (s : St W) :
  DeletionTimestamp (instance s) <> None ->
  APIVersion (TargetService_ (Spec (instance s))) = KubernetesService ->
  (forall (c : ExperimentCondition) (out : Result * option error) (s1 : St W),
      GetCondition ExperimentConditionExperimentCompleted (Status (instance s)) = Some c ->
      CondStatus c <> ConditionTrue ->
      syncKubernetes (overridden s) = (Done out, s1) ->
      let e := released (instance s1) in
      let answer := client_Update e (cache_RemoveExperiment (instance s1) (world s1)) in
      finalize s =
      (Done (emptyResult, fst answer),
       mkSt e (snd answer)
            (trace s1
               ++ match snd out with
                  | Some _ => [ELogError "Fail to execute finalize sync process"]
                  | None => []
                  end
               ++ [ERemoveExperiment (instance s1); EUpdate e]
               ++ match fst answer with
                  | Some _ => [ELogInfo "setting finalizer failed. (retrying)"]
                  | None => []
                  end
               ++ [ELogInfo "FinalizerRemoved"]))
      /\ Action (instance (overridden s)) = ActionOverrideFailure
      /\ (exists t, trace s1 = trace s ++ [ELogInfo "finalizing"] ++ t)
      /\ ~ In Finalizer (Finalizers e))
  /\ (forall (c : ExperimentCondition) (updateStatus : bool) (err : error)
             (e1 : Experiment) (w1 : W),
      GetCondition ExperimentConditionExperimentCompleted (Status (instance s)) = Some c ->
      CondStatus c <> ConditionTrue ->
      checkOrInitRules (SetAction ActionOverrideFailure (instance s)) (world s)
      = (((updateStatus, Some err), e1), w1) ->
      let s1 := abandoned s updateStatus e1 w1 in
      let answer :=
        client_Update (released e1) (cache_RemoveExperiment e1 (world s1)) in
      syncKubernetes (overridden s) = (Done (emptyResult, None), s1)
      /\ finalize s =
         (Done (emptyResult, fst answer),
          mkSt (released e1) (snd answer)
               (trace s1
                  ++ [ERemoveExperiment e1; EUpdate (released e1)]
                  ++ match fst answer with
                     | Some _ => [ELogInfo "setting finalizer failed. (retrying)"]
                     | None => []
                     end
                  ++ [ELogInfo "FinalizerRemoved"])))
  /\ (GetCondition ExperimentConditionExperimentCompleted (Status (instance s)) = None
      \/ (exists c,
           GetCondition ExperimentConditionExperimentCompleted (Status (instance s)) = Some c
           /\ CondStatus c = ConditionTrue) ->
      finalize s = tokenOnly s).
Proof.
  intros _ Hk. split; [| split].
  - intros c out s1 Hcond Hnot Hsync e answer.
    split; [| split; [reflexivity | split; [| apply filter_drops]]].
    + exact (finalize_after_pass s s1 c out Hk Hcond Hnot Hsync).
    + destruct (steps_syncKubernetes (overridden s)) as [t [Ht _]].
      rewrite Hsync in Ht. simpl in Ht. exists t.
      rewrite Ht. now rewrite <- app_assoc.
  - intros c updateStatus err e1 w1 Hcond Hnot Hrules s1 answer.
    assert (Hsync : syncKubernetes (overridden s) = (Done (emptyResult, None), s1)).
    { rewrite (syncKubernetes_abandons (overridden s) updateStatus err e1 w1 Hrules).
      subst s1. unfold abandoned, overridden. cbn [trace].
      destruct updateStatus; repeat rewrite <- app_assoc; reflexivity. }
    split; [exact Hsync |].
    assert (Hinst : instance s1 = e1)
      by (subst s1; unfold abandoned; destruct updateStatus; reflexivity).
    rewrite (finalize_after_pass s s1 c (emptyResult, None) Hk Hcond Hnot Hsync).
    subst answer. rewrite Hinst. reflexivity.
  - exact (finalize_token_only s Hk).
Qed.

Lemma returns_ret {A} (a : A) : returns (ret a : M W A).
Proof. intros s. now exists a, s. Qed.

Lemma returns_bind {A B} (c : M W A) (k : A -> M W B) :
  returns c -> (forall a, returns (k a)) -> returns (bind c k).
Proof.
  intros Hc Hk s. unfold bind.
  destruct (Hc s) as [a [s' Hrun]]. rewrite Hrun. apply Hk.
Qed.

Lemma returns_getInstance : returns (getInstance : M W Experiment).
Proof. intros s. now exists (instance s), s. Qed.

Lemma returns_setInstance (e : Experiment) : returns (setInstance e : M W unit).
Proof. intros s. eexists. eexists. reflexivity. Qed.

Lemma returns_emit (ev : Event) : returns (emit ev : M W unit).
Proof. intros s. eexists. eexists. reflexivity. Qed.

Lemma returns_readWorld {A} (f : W -> A) : returns (readWorld f).
Proof. intros s. eexists. eexists. reflexivity. Qed.

Lemma returns_call {A} (ev : Event) (f : W -> A * W) : returns (call ev f).
Proof.
  intros s. unfold call. destruct (f (world s)). eexists. eexists. reflexivity.
Qed.

Lemma returns_callOnInstance {A} (ev : Event) (f : Experiment -> W -> (A * Experiment) * W) :
  returns (callOnInstance ev f).
Proof.
  intros s. unfold callOnInstance. destruct (f (instance s) (world s)) as [[a e] w].
  eexists. eexists. reflexivity.
Qed.

Create HintDb returning discriminated.

(** Splits a computation along its binds and branches. *)
Ltac returning :=
  repeat first
    [ solve [auto 1 with returning nocore]
    | apply returns_ret
    | apply returns_getInstance
    | apply returns_setInstance
    | apply returns_readWorld
    | apply returns_emit
    | apply returns_call
    | apply returns_callOnInstance
    | apply returns_bind; [| intros ?]
    | match goal with
      | |- returns (match ?x with _ => _ end) => destruct x
      | |- returns (let _ := ?x in _) => destruct x
      end ].

Lemma returns_StatusUpdate : returns StatusUpdate.
Proof. unfold StatusUpdate. returning. Qed.

Hint Resolve returns_StatusUpdate : returning.

Lemma returns_abandon (updateStatus : bool) : returns (abandon updateStatus).
Proof. unfold abandon, logInfo. returning. Qed.

Lemma returns_completion (hasProgressed : bool) : returns (completion hasProgressed).
Proof. unfold completion, logInfo. returning. Qed.

Hint Resolve returns_abandon returns_completion : returning.

Lemma returns_progress : returns progress.
Proof. unfold progress. returning. Qed.

Hint Resolve returns_progress : returning.

Lemma returns_progression : returns progression.
Proof. unfold progression, logInfo. returning. Qed.

Hint Resolve returns_progression : returning.

(** The Kubernetes pass panics only in [detectTargets], on an
    experiment without a [TargetsProvided] condition.  It returns
    whenever [checkOrInitRules] fails, or the cached abstract asks to
    terminate, or [checkOrInitRules] leaves the condition in place. *)
Lemma syncKubernetes_returns (s : St W) :
  (snd (fst (fst (checkOrInitRules (instance s) (world s)))) <> None
   \/ abstractTerminate (snd (checkOrInitRules (instance s) (world s))) = Some true
   \/ GetCondition ExperimentConditionTargetsProvided
        (Status (snd (fst (checkOrInitRules (instance s) (world s))))) <> None) ->
  exists out s1, syncKubernetes s = (Done out, s1).
Proof.
  intros Hok. unfold syncKubernetes. unfold bind at 1. unfold callOnInstance at 1.
  destruct (checkOrInitRules (instance s) (world s)) as [[[upd err] e] w]. simpl in *.
  destruct err as [err|]; [apply returns_abandon|].
  unfold bind at 1. unfold detectTargets. unfold bind at 1. simpl.
  assert (Hrest : forall d : bool, returns
    (if d then
       ' (updateStatus, err) <- callOnInstance EDetectTargets r_detectTargets ;;
       match err with
       | Some _ => abandon updateStatus
       | None => progression
       end
     else progression)).
  { intros d. returning. }
  destruct (abstractTerminate w) as [[|]|] eqn:Habs.
  - apply (Hrest false).
  - unfold bind at 1. simpl.
    destruct (GetCondition _ _) eqn:Hcond.
    + apply Hrest.
    + destruct Hok as [Hok | [Hok | Hok]]; [now contradiction Hok | discriminate | now contradiction Hok].
  - unfold bind at 1. simpl.
    destruct (GetCondition _ _) eqn:Hcond.
    + apply Hrest.
    + destruct Hok as [Hok | [Hok | Hok]]; [now contradiction Hok | discriminate | now contradiction Hok].
Qed.

(** *** Cleanup *)

(** With the policy [delete] and the baseline stable, [Cleanup]
    deletes the candidate, and nothing else, and sets the split to
    100 and 0, whatever the delete answers. *)
Lemma Cleanup_baseline_stable (t : Targets) (s : St W) :
  CleanUp (Spec (instance s)) = CleanUpDelete ->
  GetStableTarget (instance s) (world s) = "baseline" ->
  Cleanup t s =
  (Done tt,
   mkSt (SetStatus (SetTrafficSplit 100 0 (Status (instance s))) (instance s))
        (snd (client_Delete (tCandidate t) (world s)))
        (trace s ++ [EDelete (tCandidate t)]
           ++ deleteLog "Delete Candidate" (fst (client_Delete (tCandidate t) (world s))))).
Proof.
  intros Hpol Hstable. unfold Cleanup, Delete. run.
  rewrite Hpol, String.eqb_refl, Hstable. simpl.
  destruct (client_Delete (tCandidate t) (world s)) as [[err|] w]; simpl.
  - destruct (IsNotFound err); simpl; repeat rewrite <- app_assoc; reflexivity.
  - reflexivity.
Qed.

(** With the policy [delete] and the candidate stable, [Cleanup]
    deletes the baseline, and nothing else, and sets the split to 0
    and 100, whatever the delete answers. *)
Lemma Cleanup_candidate_stable (t : Targets) (s : St W) :
  CleanUp (Spec (instance s)) = CleanUpDelete ->
  GetStableTarget (instance s) (world s) = "candidate" ->
  Cleanup t s =
  (Done tt,
   mkSt (SetStatus (SetTrafficSplit 0 100 (Status (instance s))) (instance s))
        (snd (client_Delete (tBaseline t) (world s)))
        (trace s ++ [EDelete (tBaseline t)]
           ++ deleteLog "Delete Baseline" (fst (client_Delete (tBaseline t) (world s))))).
Proof.
  intros Hpol Hstable. unfold Cleanup, Delete. run.
  rewrite Hpol, String.eqb_refl, Hstable. simpl.
  destruct (client_Delete (tBaseline t) (world s)) as [[err|] w]; simpl.
  - destruct (IsNotFound err); simpl; repeat rewrite <- app_assoc; reflexivity.
  - reflexivity.
Qed.
End Properties.

(** ** The update predicate *)

Lemma len_nil {A} : @len A [] = 0.
Proof. reflexivity. Qed.

Lemma len_cons_pos {A} (x : A) (l : list A) : (0 <? len (x :: l)) = true.
Proof. apply Z.ltb_lt. unfold len. simpl List.length. lia. Qed.

Lemma len_cons_nonzero {A} (x : A) (l : list A) : (len (x :: l) =? 0) = false.
Proof. apply Z.eqb_neq. unfold len. simpl List.length. lia. Qed.

Lemma lenString_zero (s : string) : (lenString s =? 0) = String.eqb s "".
Proof.
  destruct s as [|c s]; [reflexivity|].
  simpl String.eqb. apply Z.eqb_neq. unfold lenString. simpl String.length. lia.
Qed.

Lemma lenString_pos (s : string) : (0 <? lenString s) = negb (String.eqb s "").
Proof.
  destruct s as [|c s]; [reflexivity|].
  simpl String.eqb. apply Z.ltb_lt. unfold lenString. simpl String.length. lia.
Qed.

Lemma UpdateFunc_answer (oldInstance newInstance : Experiment) :
  snd (UpdateFunc oldInstance newInstance) =
  negb (finalizerAdded oldInstance newInstance
        || actionCleared oldInstance newInstance
        || metricsLoaded oldInstance newInstance).
Proof.
  unfold UpdateFunc, finalizerAdded, actionCleared, metricsLoaded.
  rewrite lenString_pos, lenString_zero.
  destruct (Finalizers oldInstance) as [|f fs], (Finalizers newInstance) as [|g gs];
    rewrite ?len_nil, ?len_cons_pos, ?len_cons_nonzero; simpl;
    try reflexivity;
    destruct (negb (String.eqb (Action oldInstance) "")
              && String.eqb (Action newInstance) ""); simpl;
    try reflexivity;
    destruct (Metrics oldInstance) as [|m ms], (Metrics newInstance) as [|n ns];
    rewrite ?len_nil, ?len_cons_pos, ?len_cons_nonzero; reflexivity.
Qed.

(** C4 (amended): the update predicate rejects an update exactly when
    the finalizer list goes from empty to non-empty, or the action goes
    from non-empty to empty, or the metrics list goes from empty to
    non-empty, whatever else the update changes; it accepts every other
    update.  The watch hands on the accepted updates whose generation
    changed. *)
Theorem UpdateFunc_rejects_exactly (oldInstance newInstance : Experiment) :
  snd (UpdateFunc oldInstance newInstance) =
  negb (finalizerAdded oldInstance newInstance
        || actionCleared oldInstance newInstance
        || metricsLoaded oldInstance newInstance)
  /\ admitUpdate oldInstance newInstance =
     negb (Generation newInstance =? Generation oldInstance)
     && negb (finalizerAdded oldInstance newInstance
              || actionCleared oldInstance newInstance
              || metricsLoaded oldInstance newInstance).
Proof.
  split; [apply UpdateFunc_answer|].
  unfold admitUpdate, GenerationChangedUpdate. now rewrite UpdateFunc_answer.
Qed.

(** When the finalizer addition, the clearing of the action or the first
    metrics load is the only change, the predicate rejects the update. *)
Lemma UpdateFunc_rejects_only (oldInstance newInstance : Experiment) :
  onlyFinalizerAdded oldInstance newInstance
  \/ onlyActionCleared oldInstance newInstance
  \/ onlyMetricsLoaded oldInstance newInstance ->
  snd (UpdateFunc oldInstance newInstance) = false.
Proof.
  rewrite UpdateFunc_answer.
  unfold finalizerAdded, actionCleared, metricsLoaded.
  intros [[Hold [f Hnew]] | [[Hold Hnew] | [Hold [m [Hm Hnew]]]]]; subst newInstance; simpl.
  - now rewrite Hold.
  - apply String.eqb_neq in Hold. rewrite Hold. simpl. now rewrite orb_true_r.
  - rewrite Hold. destruct m; [contradiction|]. now rewrite orb_true_r.
Qed.

(** ** Further properties *)

(** Runs the monad's plumbing. *)
Ltac exec :=
  unfold bind, ret, panic, getInstance, setInstance, emit, readWorld, call,
         callOnInstance, logInfo, logError; simpl.

Section Further.
Context {W : Type} `{Client W} `{Cache W} `{Collaborators W}.

(** *** The finalizer token *)

Lemma filter_keeps_others (x : string) (l : list string) :
  ~ In x l -> filter (fun f => negb (String.eqb f x)) l = l.
Proof.
  induction l as [|y l IH]; simpl; intros Hnot; [reflexivity|].
  destruct (String.eqb_spec y x) as [Heq | Hneq]; simpl.
  - exfalso. apply Hnot. now left.
  - f_equal. apply IH. intros Hin. apply Hnot. now right.
Qed.

Lemma filter_count_others (x f : string) (l : list string) :
  f <> x ->
  count_occ string_dec (filter (fun g => negb (String.eqb g x)) l) f
  = count_occ string_dec l f.
Proof.
  intros Hneq. induction l as [|y l IH]; simpl; [reflexivity|].
  destruct (String.eqb_spec y x) as [Heq | Hother]; simpl.
  - subst y. destruct (string_dec x f) as [Hxf | _]; [now subst | exact IH].
  - destruct (string_dec y f); now rewrite IH.
Qed.

(** X1: when the token is not in the list, [addFinalizerIfAbsent]
    followed by [removeFinalizer] gives the finalizer list back as it
    was, whatever the two cluster updates answer; in between the token
    is in the list. *)
Theorem finalizer_round_trip (s : St W) :
  ~ In Finalizer (Finalizers (instance s)) ->
  In Finalizer (Finalizers (instance (snd (addFinalizerIfAbsent Finalizer s))))
  /\ Finalizers (instance (snd (removeFinalizer Finalizer
                                  (snd (addFinalizerIfAbsent Finalizer s)))))
     = Finalizers (instance s).
Proof.
  intros Hnot. rewrite addFinalizerIfAbsent_run.
  destruct (existsb _ (Finalizers (instance s))) eqn:Hhas.
  - apply existsb_eqb_In in Hhas. contradiction.
  - cbn zeta. cbn [snd instance]. split.
    + simpl. apply in_or_app. right. now left.
    + rewrite removeFinalizer_run. cbn [snd instance]. unfold released.
      cbn [Finalizers SetFinalizers].
      rewrite filter_app. cbn [filter]. rewrite String.eqb_refl. cbn [negb].
      rewrite app_nil_r. now apply filter_keeps_others.
Qed.

(** X2: after [addFinalizerIfAbsent] the token is in the list, even
    when the cluster update failed, and a second call right after it
    returns nil and leaves the state alone: it sends no second update. *)
Theorem addFinalizerIfAbsent_twice (s : St W) :
  In Finalizer (Finalizers (instance (snd (addFinalizerIfAbsent Finalizer s))))
  /\ addFinalizerIfAbsent Finalizer (snd (addFinalizerIfAbsent Finalizer s))
     = (Done None, snd (addFinalizerIfAbsent Finalizer s)).
Proof.
  assert (Hin : In Finalizer
                   (Finalizers (instance (snd (addFinalizerIfAbsent Finalizer s))))).
  { rewrite addFinalizerIfAbsent_run.
    destruct (existsb _ (Finalizers (instance s))) eqn:Hhas.
    - now apply existsb_eqb_In in Hhas.
    - simpl. apply in_or_app. right. now left. }
  split; [exact Hin | now apply addFinalizerIfAbsent_skip].
Qed.

(** X3: [removeFinalizer] takes every occurrence of the token out of the
    list and keeps every other finalizer, as often as it was there; it
    sends the cluster update even when the token was not in the list,
    returns what that update answers, and logs [FinalizerRemoved] last
    even when the update failed. *)
Theorem removeFinalizer_only_token (s : St W) :
  let s' := snd (removeFinalizer Finalizer s) in
  ~ In Finalizer (Finalizers (instance s'))
  /\ (forall f, f <> Finalizer ->
        count_occ string_dec (Finalizers (instance s')) f
        = count_occ string_dec (Finalizers (instance s)) f)
  /\ fst (removeFinalizer Finalizer s)
     = Done (fst (client_Update (instance s') (world s)))
  /\ exists lines,
      trace s' = trace s ++ [EUpdate (instance s')] ++ lines ++ [ELogInfo "FinalizerRemoved"]
      /\ forallb isLog lines = true.
Proof.
  intros s'. subst s'. rewrite removeFinalizer_run. cbn [fst snd instance trace].
  split; [apply filter_drops |].
  split; [intros f Hneq; now apply filter_count_others |].
  split; [reflexivity |].
  eexists. split; [reflexivity |].
  destruct (fst (client_Update _ _)); reflexivity.
Qed.

(** X4: [addFinalizerIfAbsent] looks for [fName] but appends the
    controller's own token.  Called with another name that is not in
    the list, it appends the controller's token and the name is still
    not in the list afterwards, so every further call appends the token
    again. *)
Theorem addFinalizerIfAbsent_other_name (fName : string) (s : St W) :
  fName <> Finalizer ->
  ~ In fName (Finalizers (instance s)) ->
  let s1 := snd (addFinalizerIfAbsent fName s) in
  Finalizers (instance s1) = Finalizers (instance s) ++ [Finalizer]
  /\ ~ In fName (Finalizers (instance s1))
  /\ Finalizers (instance (snd (addFinalizerIfAbsent fName s1)))
     = Finalizers (instance s) ++ [Finalizer; Finalizer].
Proof.
  intros Hother Hnot.
  assert (Hstep : forall s0 : St W,
    ~ In fName (Finalizers (instance s0)) ->
    Finalizers (instance (snd (addFinalizerIfAbsent fName s0)))
    = Finalizers (instance s0) ++ [Finalizer]).
  { intros s0 Hnot0. unfold addFinalizerIfAbsent, Update. exec.
    destruct (existsb _ (Finalizers (instance s0))) eqn:Hhas.
    - apply existsb_eqb_In in Hhas. contradiction.
    - destruct (client_Update _ (world s0)) as [[err|] w]; reflexivity. }
  intros s1. subst s1.
  assert (Hstill : ~ In fName (Finalizers (instance (snd (addFinalizerIfAbsent fName s))))).
  { rewrite (Hstep s Hnot). intros Hin. apply in_app_or in Hin.
    destruct Hin as [Hin | [Heq | []]]; [contradiction | now apply Hother]. }
  split; [now apply Hstep |]. split; [exact Hstill |].
  rewrite (Hstep _ Hstill), (Hstep s Hnot), <- app_assoc. reflexivity.
Qed.

(** *** Metrics sync and status initialisation *)

(** [syncMetrics] when it has to read the metrics, by what
    [metrics.Read] answers. *)
Lemma syncMetrics_read (s : St W) (rerr : option error) (e1 : Experiment) (w1 : W) :
  needsSync (instance s) = true ->
  metrics_Read (instance s) (world s) = ((rerr, e1), w1) ->
  syncMetrics s =
  match rerr with
  | Some e =>
    if validUpdateErr e then
      (Done None,
       mkSt (fst (MarkSyncMetrics e1 w1)) (snd (MarkSyncMetrics e1 w1))
            (trace s ++ [EMetricsRead; EMarkSyncMetrics]))
    else
      let marked := MarkSyncMetricsError e e1 w1 in
      let answer := client_StatusUpdate (fst marked) (snd marked) in
      (Done (if failed (fst answer) then fst answer else Some e),
       mkSt (fst marked) (snd answer)
            (trace s ++ [EMetricsRead; EMarkSyncMetricsError; EStatusUpdate (fst marked)]
               ++ if failed (fst answer) then [ELogInfo "Fail to update status: %v"] else []))
  | None =>
    (Done None,
     mkSt (fst (MarkSyncMetrics e1 w1)) (snd (MarkSyncMetrics e1 w1))
          (trace s ++ [EMetricsRead; EMarkSyncMetrics]))
  end.
Proof.
  intros Hneeds Hread. unfold needsSync in Hneeds. unfold syncMetrics, StatusUpdate. exec.
  destruct (SuccessCriteria _) as [|c cs]; [discriminate|].
  assert (Hcond : match GetCondition ExperimentConditionMetricsSynced (Status (instance s)) with
                  | Some c0 => negb (String.eqb (CondStatus c0) ConditionTrue)
                  | None => true
                  end = true).
  { destruct (GetCondition _ _); exact Hneeds. }
  rewrite Hcond, Hread. simpl.
  destruct rerr as [e|]; simpl.
  - destruct (validUpdateErr e); simpl.
    + destruct (MarkSyncMetrics e1 w1) as [e2 w2]. simpl.
      repeat rewrite <- app_assoc. reflexivity.
    + destruct (MarkSyncMetricsError e e1 w1) as [e2 w2]. simpl.
      destruct (client_StatusUpdate e2 w2) as [[uerr|] w3]; simpl.
      * destruct (validUpdateErr uerr); simpl; repeat rewrite <- app_assoc; reflexivity.
      * repeat rewrite <- app_assoc. reflexivity.
  - destruct (MarkSyncMetrics e1 w1) as [e2 w2]. simpl.
    repeat rewrite <- app_assoc. reflexivity.
Qed.

(** X5: when there are success criteria and the metrics are not synced
    yet, [syncMetrics] returns nil exactly when [metrics.Read] returns
    nil or a benign update error, and then marks the metrics synced
    without a status update.  On any other read error it marks the sync
    error, sends exactly one status update, never marks the metrics
    synced, and returns an error. *)
Theorem syncMetrics_outcome (s : St W) (rerr : option error) (e1 : Experiment) (w1 : W) :
  needsSync (instance s) = true ->
  metrics_Read (instance s) (world s) = ((rerr, e1), w1) ->
  (fst (syncMetrics s) = Done None <-> failed rerr = false)
  /\ (failed rerr = false ->
      trace (snd (syncMetrics s)) = trace s ++ [EMetricsRead; EMarkSyncMetrics])
  /\ (failed rerr = true ->
      exists e2 lines,
        trace (snd (syncMetrics s))
        = trace s ++ [EMetricsRead; EMarkSyncMetricsError; EStatusUpdate e2] ++ lines
        /\ forallb isLog lines = true
        /\ exists err, fst (syncMetrics s) = Done (Some err)).
Proof.
  intros Hneeds Hread. rewrite (syncMetrics_read s rerr e1 w1 Hneeds Hread).
  destruct rerr as [e|]; simpl.
  - destruct (validUpdateErr e); simpl.
    + split; [split; reflexivity |]. split; [reflexivity | discriminate].
    + split.
      * split; [| discriminate].
        destruct (failed (fst (client_StatusUpdate _ _))) eqn:Hf; [| discriminate].
        destruct (fst (client_StatusUpdate _ _)); [discriminate | discriminate Hf].
      * split; [discriminate |]. intros _.
        eexists. eexists. split; [reflexivity |].
        destruct (failed (fst (client_StatusUpdate _ _))) eqn:Hf.
        -- split; [reflexivity |].
           destruct (fst (client_StatusUpdate _ _)) as [uerr|]; [| discriminate Hf].
           now exists uerr.
        -- split; [reflexivity | now exists e].
  - split; [split; reflexivity |]. split; [reflexivity | discriminate].
Qed.

(** A running experiment that holds the token and has its status
    initialised goes from the fetch straight to the metrics sync. *)
Lemma Reconcile_to_dispatch (request : NamespacedName) (s : St W) (e : Experiment) (w : W) :
  client_Get request (world s) = (inr e, w) ->
  In Finalizer (Finalizers e) ->
  DeletionTimestamp e = None ->
  Phase (Status e) <> PhaseCompleted ->
  CreateTimestamp (Status e) <> 0 ->
  Reconcile request s = dispatch (fetched request e w s).
Proof.
  intros Hget Hin Hdel Hphase Hinit.
  rewrite (Reconcile_to_gate request s e w Hget Hin Hdel).
  apply String.eqb_neq in Hphase. apply Z.eqb_neq in Hinit.
  unfold proceed. unfold bind at 1. unfold bind at 1. simpl.
  rewrite Hphase. simpl. unfold bind at 1. simpl. rewrite Hinit. reflexivity.
Qed.

(** X6: when the metrics read fails with an error that is not benign,
    the reconcile of a running experiment ends there: it returns an
    empty result (no requeue) and no error, and after the status update
    of the sync error it calls no handler of any API family. *)
Theorem Reconcile_metrics_failure (request : NamespacedName) (s : St W)
        (e e1 : Experiment) (w w1 : W) (rerr : error) :
  client_Get request (world s) = (inr e, w) ->
  In Finalizer (Finalizers e) ->
  DeletionTimestamp e = None ->
  Phase (Status e) <> PhaseCompleted ->
  CreateTimestamp (Status e) <> 0 ->
  needsSync e = true ->
  metrics_Read e (cache_RegisterExperiment e w) = ((Some rerr, e1), w1) ->
  validUpdateErr rerr = false ->
  fst (Reconcile request s) = Done (emptyResult, None)
  /\ exists e2 lines,
      trace (snd (Reconcile request s))
      = trace s ++ [EGet request; ERegisterExperiment e; ELogInfo "reconciling";
                    EMetricsRead; EMarkSyncMetricsError; EStatusUpdate e2] ++ lines
      /\ forallb isLog lines = true.
Proof.
  intros Hget Hin Hdel Hphase Hinit Hneeds Hread Hbad.
  rewrite (Reconcile_to_dispatch request s e w Hget Hin Hdel Hphase Hinit).
  unfold dispatch, bind.
  rewrite (syncMetrics_read (fetched request e w s) (Some rerr) e1 w1 Hneeds Hread).
  rewrite Hbad. cbn zeta.
  destruct (MarkSyncMetricsError rerr e1 w1) as [e2 w2]. cbn [fst snd].
  destruct (client_StatusUpdate e2 w2) as [[uerr|] w3]; cbn [fst snd failed].
  - destruct (validUpdateErr uerr); cbn [negb].
    + split; [reflexivity |]. exists e2, [].
      split; [| reflexivity]. unfold fetched. cbn [snd trace].
      repeat rewrite <- app_assoc. reflexivity.
    + split; [reflexivity |]. exists e2, [ELogInfo "Fail to update status: %v"].
      split; [| reflexivity]. unfold fetched. cbn [snd trace].
      repeat rewrite <- app_assoc. reflexivity.
  - split; [reflexivity |]. exists e2, [].
    split; [| reflexivity]. unfold fetched. cbn [snd trace].
    repeat rewrite <- app_assoc. reflexivity.
Qed.

(** X7: the reconcile of a fetched experiment first sees to the
    finalizer token, sending an update when the token is missing.  When
    that update fails with an error that is not benign the reconcile
    returns the error and the status is never initialised.  Otherwise,
    for an experiment that has no deletion timestamp, is not
    [Completed] and whose create timestamp is 0, the reconcile
    initialises the status and sends it; when that status update fails
    with an error that is not benign, the reconcile ends there with an
    empty result and no error: nothing is read, synced or dispatched,
    and no requeue is asked for. *)
Theorem Reconcile_first_status_fails (request : NamespacedName) (s : St W)
        (e : Experiment) (w : W) :
  client_Get request (world s) = (inr e, w) ->
  let s2 := tokenStep (fetched request e w s) in
  let first := initialised (instance s2) (world s2) in
  (failed (tokenError (fetched request e w s)) = true ->
   Reconcile request s = (Done (emptyResult, tokenError (fetched request e w s)), s2)
   /\ Status (instance s2) = Status e)
  /\ (failed (tokenError (fetched request e w s)) = false ->
      DeletionTimestamp e = None ->
      Phase (Status e) <> PhaseCompleted ->
      CreateTimestamp (Status e) = 0 ->
      failed (fst (client_StatusUpdate first (world s2))) = true ->
      Reconcile request s =
      (Done (emptyResult, None),
       mkSt first (snd (client_StatusUpdate first (world s2)))
            (trace s2 ++ [EStatusInit; EStatusUpdate first;
                          ELogInfo "Fail to update status: %v"])))
  /\ (In Finalizer (Finalizers e) -> s2 = fetched request e w s).
Proof.
  intros Hget s2 first.
  destruct (tokenStep_keeps (fetched request e w s)) as [Hd [Hs _]].
  cbn [instance fetched] in Hd, Hs. fold s2 in Hd, Hs.
  split; [| split].
  - intros Htoken. split; [| exact Hs].
    exact (Reconcile_token_fails request s e w Hget Htoken).
  - intros Htoken Hdel Hphase Hinit Hbad.
    rewrite (Reconcile_after_token request s e w Hget Htoken). fold s2.
    unfold bind at 1. cbn [getInstance]. rewrite Hd, Hdel.
    apply String.eqb_neq in Hphase.
    unfold proceed. unfold bind at 1. unfold bind at 1. cbn [getInstance].
    rewrite Hs, Hphase. cbn [ret negb]. unfold bind at 1. cbn [getInstance].
    rewrite Hs, Hinit. cbn [Z.eqb].
    unfold StatusUpdate, bind, callOnInstance, call, getInstance, logInfo, emit, ret.
    cbn [instance world trace]. subst first. unfold initialised in *.
    destruct (client_StatusUpdate _ (world s2)) as [uerr w3]. cbn [fst snd] in *.
    rewrite Hbad. cbn [instance world trace].
    repeat rewrite <- app_assoc. reflexivity.
  - intros Hin. subst s2. unfold tokenStep. cbn [instance fetched].
    now rewrite (hasToken_In e Hin).
Qed.

(** *** The Kubernetes pass *)

(** X8: [detectTargets] never changes the state.  It answers false
    without looking at the experiment when the cached abstract asks to
    terminate, and it panics exactly when the abstract does not ask to
    terminate and the experiment has no [TargetsProvided] condition. *)
Theorem detectTargets_panics_exactly (s : St W) :
  snd (detectTargets s) = s
  /\ (abstractTerminate (world s) = Some true -> fst (detectTargets s) = Done false)
  /\ ((exists msg, fst (detectTargets s) = Panic msg)
      <-> abstractTerminate (world s) <> Some true
          /\ GetCondition ExperimentConditionTargetsProvided (Status (instance s)) = None).
Proof.
  unfold detectTargets. exec.
  destruct (abstractTerminate (world s)) as [[|]|];
    destruct (GetCondition _ _) as [c|]; simpl;
    (split; [reflexivity |]); (split; [try reflexivity; intros Habs; discriminate Habs |]);
    split;
    try (intros [msg Hmsg]; discriminate Hmsg);
    try (intros [Hno Hnone]; first [now contradiction Hno | discriminate Hnone]);
    try (intros _; split; [discriminate | reflexivity]);
    try (intros _; eexists; reflexivity).
Qed.

(** X9: when [checkOrInitRules] fails, the Kubernetes pass stops: it
    sends one status update if asked to, and none otherwise, and
    returns an empty result and no error; it detects no targets, makes
    no progress and does not check for completion. *)
Theorem syncKubernetes_rules_failure (s : St W) (updateStatus : bool) (err : error)
        (e1 : Experiment) (w1 : W) :
  checkOrInitRules (instance s) (world s) = (((updateStatus, Some err), e1), w1) ->
  syncKubernetes s =
  if updateStatus then
    (Done (emptyResult, None),
     mkSt e1 (snd (client_StatusUpdate e1 w1))
          (trace s ++ [ECheckOrInitRules; EStatusUpdate e1]
             ++ if failed (fst (client_StatusUpdate e1 w1))
                then [ELogInfo "Fail to update status: %v"] else []))
  else (Done (emptyResult, None), mkSt e1 w1 (trace s ++ [ECheckOrInitRules])).
Proof.
  intros Hrules. unfold syncKubernetes, abandon, StatusUpdate. exec. rewrite Hrules. simpl.
  destruct updateStatus; [| reflexivity]. simpl.
  destruct (client_StatusUpdate e1 w1) as [[uerr|] w2]; simpl.
  - destruct (validUpdateErr uerr); simpl; repeat rewrite <- app_assoc; reflexivity.
  - repeat rewrite <- app_assoc. reflexivity.
Qed.

(** X10: the Kubernetes pass panics exactly when [checkOrInitRules]
    succeeds, the cached abstract does not ask to terminate, and the
    experiment that [checkOrInitRules] leaves has no [TargetsProvided]
    condition; in every other case it returns. *)
Theorem syncKubernetes_panics_exactly (s : St W) :
  (exists msg, fst (syncKubernetes s) = Panic msg)
  <-> snd (fst (fst (checkOrInitRules (instance s) (world s)))) = None
      /\ abstractTerminate (snd (checkOrInitRules (instance s) (world s))) <> Some true
      /\ GetCondition ExperimentConditionTargetsProvided
           (Status (snd (fst (checkOrInitRules (instance s) (world s))))) = None.
Proof.
  split.
  - intros [msg Hpanic].
    destruct (snd (fst (fst (checkOrInitRules (instance s) (world s))))) as [err|] eqn:Herr.
    + destruct (syncKubernetes_returns s) as [out [s1 Hrun]].
      { left. rewrite Herr. discriminate. }
      rewrite Hrun in Hpanic. discriminate Hpanic.
    + destruct (abstractTerminate (snd (checkOrInitRules (instance s) (world s))))
        as [[|]|] eqn:Habs;
      destruct (GetCondition ExperimentConditionTargetsProvided
                  (Status (snd (fst (checkOrInitRules (instance s) (world s))))))
        as [c|] eqn:Hcond;
      try (split; [reflexivity | split; [discriminate | reflexivity]]);
      exfalso;
      destruct (syncKubernetes_returns s) as [out [s1 Hrun]];
      try (rewrite Hrun in Hpanic; discriminate Hpanic);
      first [ right; left; exact Habs
            | right; right; rewrite Hcond; discriminate ].
  - intros [Herr [Habs Hcond]].
    unfold syncKubernetes, detectTargets. exec.
    destruct (checkOrInitRules (instance s) (world s)) as [[[upd err] e1] w1].
    simpl in *. subst err. simpl.
    destruct (abstractTerminate w1) as [[|]|]; simpl.
    + now contradiction Habs.
    + rewrite Hcond. simpl. eexists. reflexivity.
    + rewrite Hcond. simpl. eexists. reflexivity.
Qed.

(** Takes a run of the pass apart, branch by branch. *)
Ltac branches :=
  repeat match goal with
         | |- context [match ?x with _ => _ end] =>
           lazymatch x with
           | context [match _ with _ => _ end] => fail
           | _ => destruct x eqn:?; simpl
           end
         end.

(** The three ways in which the Kubernetes pass returns. *)
Lemma syncKubernetes_shape (s : St W) :
  match syncKubernetes s with
  | (Done (res, err), s') =>
    exists t,
      trace s' = trace s ++ t
      /\ ((res = emptyResult /\ err = None)
          \/ (res = emptyResult /\ err <> None /\ endsCompleted t)
          \/ (res = nextIteration (instance s') /\ err = None
              /\ existsb isProgress t = true))
  | (Panic _, _) => True
  end.
Proof.
  unfold syncKubernetes, abandon, progression, completion, detectTargets, progress,
         StatusUpdate, failed.
  exec. branches; trivial;
    repeat rewrite <- app_assoc; simpl;
    (eexists; split; [reflexivity |]);
    repeat match goal with
           | |- context [?o = None] => is_var o; destruct o
           end;
    first [ left; split; reflexivity
          | right; left; split; [reflexivity | split; [discriminate | exact I]]
          | right; right; split; [reflexivity | split; reflexivity] ].
Qed.

(** X11: the Kubernetes pass never sets [Requeue]; it asks for a
    requeue after the interval only when it has called
    [progressExperiment] in this pass and returns no error; and it
    returns an error only with an empty result, right after the status
    update that follows a completion check. *)
Theorem syncKubernetes_requeues_after_progress (s s' : St W) (res : Result)
        (err : option error) :
  syncKubernetes s = (Done (res, err), s') ->
  (res = emptyResult \/ res = nextIteration (instance s'))
  /\ Requeue res = false
  /\ exists t,
      trace s' = trace s ++ t
      /\ (res <> emptyResult -> err = None /\ existsb isProgress t = true)
      /\ (err <> None -> res = emptyResult /\ endsCompleted t).
Proof.
  intros Hrun. pose proof (syncKubernetes_shape s) as Hshape. rewrite Hrun in Hshape.
  destruct Hshape as [t [Ht [[Hres Herr] | [[Hres [Herr Hend]] | [Hres [Herr Hprog]]]]]];
    subst res.
  - split; [now left |]. split; [reflexivity |]. exists t. split; [exact Ht |].
    split; [intros Hne; now contradiction Hne | intros Hne; contradiction].
  - split; [now left |]. split; [reflexivity |]. exists t. split; [exact Ht |].
    split; [intros Hne; now contradiction Hne | intros _; now split].
  - split; [now right |]. split; [reflexivity |]. exists t. split; [exact Ht |].
    split; [intros _; now split | intros Hne; contradiction].
Qed.

(** *** One analytics call per reconcile *)

Lemma calls_app (kind : Event -> bool) (t u : list Event) :
  calls kind (t ++ u) = (calls kind t + calls kind u)%nat.
Proof. unfold calls. now rewrite filter_app, length_app. Qed.

Lemma sparing_weaken {A} (n m : nat) (c : M W A) :
  (n <= m)%nat -> sparing n c -> sparing m c.
Proof.
  intros Hle Hc s. destruct (Hc s) as [t [Ht Hn]]. exists t. split; [exact Ht | lia].
Qed.

Lemma sparing_bind {A B} (n m : nat) (c : M W A) (k : A -> M W B) :
  sparing n c -> (forall a, sparing m (k a)) -> sparing (n + m) (bind c k).
Proof.
  intros Hc Hk s. unfold bind.
  destruct (Hc s) as [t [Ht Hn]].
  destruct (c s) as [[a|msg] s1]; simpl in *.
  - destruct (Hk a s1) as [u [Hu Hm]]. exists (t ++ u).
    rewrite Hu, Ht, app_assoc, calls_app. split; [reflexivity | lia].
  - exists t. split; [exact Ht | lia].
Qed.

Lemma sparing_first {A B} (n : nat) (c : M W A) (k : A -> M W B) :
  sparing n c -> (forall a, sparing 0 (k a)) -> sparing n (bind c k).
Proof.
  intros Hc Hk. apply (sparing_weaken (n + 0) n); [lia |]. now apply sparing_bind.
Qed.

Lemma sparing_then {A B} (n : nat) (c : M W A) (k : A -> M W B) :
  sparing 0 c -> (forall a, sparing n (k a)) -> sparing n (bind c k).
Proof. intros Hc Hk. now apply (sparing_bind 0 n). Qed.

Lemma sparing_ret {A} (n : nat) (a : A) : sparing n (ret a : M W A).
Proof.
  intros s. exists []. simpl. rewrite app_nil_r.
  split; [reflexivity | unfold calls; simpl; lia].
Qed.

Lemma sparing_panic {A} (n : nat) (msg : string) : sparing n (@panic W A msg).
Proof.
  intros s. exists []. simpl. rewrite app_nil_r.
  split; [reflexivity | unfold calls; simpl; lia].
Qed.

Lemma sparing_getInstance (n : nat) : sparing n (getInstance : M W Experiment).
Proof.
  intros s. exists []. simpl. rewrite app_nil_r.
  split; [reflexivity | unfold calls; simpl; lia].
Qed.

Lemma sparing_setInstance (n : nat) (e : Experiment) : sparing n (setInstance e : M W unit).
Proof.
  intros s. exists []. simpl. rewrite app_nil_r.
  split; [reflexivity | unfold calls; simpl; lia].
Qed.

Lemma sparing_readWorld {A} (n : nat) (f : W -> A) : sparing n (readWorld f).
Proof.
  intros s. exists []. simpl. rewrite app_nil_r.
  split; [reflexivity | unfold calls; simpl; lia].
Qed.

Lemma sparing_emit (n : nat) (ev : Event) :
  isProgress ev = false -> sparing n (emit ev : M W unit).
Proof.
  intros Hq s. exists [ev]. simpl. split; [reflexivity |].
  unfold calls. simpl. rewrite Hq. simpl. lia.
Qed.

Lemma sparing_call {A} (n : nat) (ev : Event) (f : W -> A * W) :
  isProgress ev = false -> sparing n (call ev f).
Proof.
  intros Hq s. exists [ev]. unfold call. destruct (f (world s)). simpl.
  split; [reflexivity |]. unfold calls. simpl. rewrite Hq. simpl. lia.
Qed.

Lemma sparing_callOnInstance {A} (n : nat) (ev : Event)
      (f : Experiment -> W -> (A * Experiment) * W) :
  isProgress ev = false -> sparing n (callOnInstance ev f).
Proof.
  intros Hq s. exists [ev]. unfold callOnInstance.
  destruct (f (instance s) (world s)) as [[a e] w]. simpl.
  split; [reflexivity |]. unfold calls. simpl. rewrite Hq. simpl. lia.
Qed.

Lemma sparing_progressExperiment (e : Experiment) :
  sparing 1 (callOnInstance (EProgressExperiment e) progressExperiment).
Proof.
  intros s. exists [EProgressExperiment e]. unfold callOnInstance.
  destruct (progressExperiment (instance s) (world s)) as [[a e'] w]. simpl.
  split; [reflexivity |]. unfold calls. simpl. lia.
Qed.

Create HintDb sparing discriminated.

(** Splits a computation that makes no analytics call along its binds
    and branches. *)
Ltac spare :=
  repeat first
    [ solve [auto 1 with sparing nocore]
    | apply sparing_ret
    | apply sparing_panic
    | apply sparing_getInstance
    | apply sparing_setInstance
    | apply sparing_readWorld
    | apply sparing_emit; reflexivity
    | apply sparing_call; reflexivity
    | apply sparing_callOnInstance; reflexivity
    | apply sparing_then; [| intros ?]
    | match goal with
      | |- sparing _ (match ?x with _ => _ end) => destruct x
      | |- sparing _ (let _ := ?x in _) => destruct x
      end ].

Lemma sparing_StatusUpdate (n : nat) : sparing n StatusUpdate.
Proof. unfold StatusUpdate. spare. Qed.

Lemma sparing_Update (n : nat) : sparing n Update.
Proof. unfold Update. spare. Qed.

Hint Resolve sparing_StatusUpdate sparing_Update : sparing.

Lemma sparing_abandon (n : nat) (updateStatus : bool) : sparing n (abandon updateStatus).
Proof. unfold abandon, logInfo. spare. Qed.

Lemma sparing_completion (n : nat) (hasProgressed : bool) :
  sparing n (completion hasProgressed).
Proof. unfold completion, logInfo. spare. Qed.

Lemma sparing_detectTargets (n : nat) : sparing n detectTargets.
Proof. unfold detectTargets. spare. Qed.

Lemma sparing_progress (n : nat) : sparing n progress.
Proof. unfold progress. spare. Qed.

Lemma sparing_addFinalizerIfAbsent (n : nat) (fName : string) :
  sparing n (addFinalizerIfAbsent fName).
Proof. unfold addFinalizerIfAbsent, logInfo. spare. Qed.

Lemma sparing_removeFinalizer (n : nat) (fName : string) :
  sparing n (removeFinalizer fName).
Proof. unfold removeFinalizer, logInfo. spare. Qed.

Lemma sparing_proceed (n : nat) : sparing n (proceed : M W bool).
Proof. unfold proceed. spare. Qed.

Lemma sparing_syncMetrics (n : nat) : sparing n syncMetrics.
Proof. unfold syncMetrics, logInfo. spare. Qed.

Hint Resolve sparing_abandon sparing_completion sparing_detectTargets sparing_progress
     sparing_addFinalizerIfAbsent sparing_removeFinalizer sparing_proceed
     sparing_syncMetrics : sparing.

Lemma sparing_progression : sparing 1 progression.
Proof.
  unfold progression, logInfo.
  apply sparing_then; [apply sparing_progress | intros p].
  destruct p; [| apply sparing_completion].
  apply sparing_then; [apply sparing_getInstance | intros inst].
  apply sparing_first; [apply sparing_progressExperiment | intros err].
  spare.
Qed.

Hint Resolve sparing_progression : sparing.

Lemma sparing_syncKubernetes : sparing 1 syncKubernetes.
Proof. unfold syncKubernetes. spare. Qed.

Hint Resolve sparing_syncKubernetes : sparing.

Lemma sparing_finalizeIstio : sparing 1 finalizeIstio.
Proof.
  unfold finalizeIstio, logError.
  apply sparing_then; [apply sparing_getInstance | intros inst].
  apply sparing_first; [| intros; spare].
  destruct (GetCondition _ _) as [c|]; [| apply sparing_ret].
  destruct (negb _); [| apply sparing_ret].
  apply sparing_then; [apply sparing_setInstance | intros _].
  apply sparing_first; [apply sparing_syncKubernetes | intros [res err]].
  spare.
Qed.

Hint Resolve sparing_finalizeIstio : sparing.

Lemma sparing_finalize : sparing 1 finalize.
Proof. unfold finalize, logInfo. spare. Qed.

Lemma sparing_dispatch : sparing 1 dispatch.
Proof. unfold dispatch. spare. Qed.

Hint Resolve sparing_finalize sparing_dispatch : sparing.

Lemma sparing_Reconcile (request : NamespacedName) : sparing 1 (Reconcile request).
Proof. unfold Reconcile, logInfo. spare. Qed.

Create HintDb walking discriminated.

(** Splits a computation along its binds and branches, for [steps]. *)
Ltac walk :=
  repeat first
    [ solve [auto 1 with walking nocore]
    | apply steps_ret
    | apply steps_panic
    | apply steps_getInstance
    | apply steps_setInstance
    | apply steps_readWorld
    | apply steps_emit; exact I
    | apply steps_call; exact I
    | apply steps_callOnInstance; exact I
    | apply steps_bind; [| intros ?]
    | match goal with
      | |- steps (match ?x with _ => _ end) => destruct x
      | |- steps (let _ := ?x in _) => destruct x
      end ].

Hint Resolve steps_StatusUpdate steps_Update steps_syncKubernetes : walking.

Lemma steps_addFinalizerIfAbsent (fName : string) : steps (addFinalizerIfAbsent fName).
Proof. unfold addFinalizerIfAbsent, logInfo. walk. Qed.

Lemma steps_removeFinalizer (fName : string) : steps (removeFinalizer fName).
Proof. unfold removeFinalizer, logInfo. walk. Qed.

Lemma steps_proceed : steps (proceed : M W bool).
Proof. unfold proceed. walk. Qed.

Lemma steps_syncMetrics : steps syncMetrics.
Proof. unfold syncMetrics, logInfo. walk. Qed.

Hint Resolve steps_addFinalizerIfAbsent steps_removeFinalizer steps_proceed
     steps_syncMetrics : walking.

Lemma steps_finalizeIstio : steps finalizeIstio.
Proof. unfold finalizeIstio, logError. walk. Qed.

Hint Resolve steps_finalizeIstio : walking.

Lemma steps_finalize : steps finalize.
Proof. unfold finalize, logInfo. walk. Qed.

Lemma steps_dispatch : steps dispatch.
Proof. unfold dispatch. walk. Qed.

Hint Resolve steps_finalize steps_dispatch : walking.

Lemma steps_Reconcile (request : NamespacedName) : steps (Reconcile request).
Proof. unfold Reconcile, logInfo. walk. Qed.

(** X12: the call of [progressExperiment] that the reconciler makes
    itself, in [syncKubernetes], is reached at most once in a
    reconcile, whatever is asked and whatever the cluster, the cache
    and the helpers answer: through the dispatch of the Kubernetes
    family or through the pass of [finalizeIstio], never both; and it
    is reached only right after a reading of the clock that finds the
    action not to be a terminate variant and the interval strictly
    elapsed.  The trace holds the calls that [Reconcile] and the
    functions of these sources make; what the helpers outside them
    ([syncKnative], [finalizeKnative], [checkExperimentCompleted] and
    the like) call in their turn is not counted. *)
Theorem Reconcile_one_analytics_call (request : NamespacedName) (s : St W) :
  exists t,
    trace (snd (Reconcile request s)) = trace s ++ t
    /\ gated t
    /\ (calls isProgress t <= 1)%nat.
Proof.
  destruct (steps_Reconcile request s) as [t [Ht Hgated]].
  destruct (sparing_Reconcile request s) as [u [Hu Hcount]].
  exists t. split; [exact Ht | split; [exact Hgated |]].
  rewrite Ht in Hu. apply app_inv_head in Hu. now subst u.
Qed.

(** *** Finalization, further *)

(** X13: the reconcile of a deleted experiment of the Kubernetes family
    that is completed (its [ExperimentCompleted] condition is [True])
    registers the experiment in the cache, sees to the finalizer token
    (an update that adds it when it is missing; none when the
    experiment holds it) and, unless that update fails with an error
    that is not benign, then only drops the token again: after the
    registration it sends updates of the experiment and writes log
    lines, so it runs no pass, sends no status and does not remove the
    experiment from the cache. *)
Theorem Reconcile_deleted_completed (request : NamespacedName) (s : St W)
        (e : Experiment) (w : W) (t : Time) (c : ExperimentCondition) :
  client_Get request (world s) = (inr e, w) ->
  DeletionTimestamp e = Some t ->
  APIVersion (TargetService_ (Spec e)) = KubernetesService ->
  GetCondition ExperimentConditionExperimentCompleted (Status e) = Some c ->
  CondStatus c = ConditionTrue ->
  failed (tokenError (fetched request e w s)) = false ->
  Reconcile request s = tokenOnly (tokenStep (fetched request e w s))
  /\ (exists lines,
        trace (snd (Reconcile request s))
        = trace s ++ [EGet request; ERegisterExperiment e; ELogInfo "reconciling"] ++ lines
        /\ forallb (fun ev => isUpdate ev || isLog ev) lines = true)
  /\ (In Finalizer (Finalizers e) ->
      let answer := client_Update (released e) (cache_RegisterExperiment e w) in
      Reconcile request s =
      (Done (emptyResult, fst answer),
       mkSt (released e) (snd answer)
            (trace s ++ [EGet request; ERegisterExperiment e; ELogInfo "reconciling";
                         ELogInfo "finalizing"; EUpdate (released e)]
               ++ match fst answer with
                  | Some _ => [ELogInfo "setting finalizer failed. (retrying)"]
                  | None => []
                  end
               ++ [ELogInfo "FinalizerRemoved"]))).
Proof.
  intros Hget Hdel Hk Hcond Htrue Htoken.
  destruct (tokenStep_keeps (fetched request e w s)) as [Hd [Hs Hsp]].
  cbn [instance fetched] in Hd, Hs, Hsp.
  assert (Hrun : Reconcile request s = tokenOnly (tokenStep (fetched request e w s))).
  { rewrite (Reconcile_after_token request s e w Hget Htoken).
    unfold bind at 1. cbn [getInstance]. rewrite Hd, Hdel.
    apply finalize_token_only.
    - now rewrite Hsp.
    - right. exists c. now rewrite Hs. }
  split; [exact Hrun | split].
  - rewrite Hrun. unfold tokenOnly, tokenStep. cbn [snd].
    destruct (hasToken (instance (fetched request e w s))); cbn [trace instance world fetched];
      repeat match goal with
             | |- context [client_Update ?x ?y] =>
               destruct (client_Update x y) as [[?|] ?]; cbn [fst snd]
             end;
      eexists; (split; [repeat rewrite <- app_assoc; cbn [app]; reflexivity | reflexivity]).
  - intros Hin answer. rewrite Hrun. unfold tokenOnly, tokenStep.
    cbn [instance fetched]. rewrite (hasToken_In e Hin). subst answer.
    unfold fetched. cbn [instance world trace].
    repeat rewrite <- app_assoc. reflexivity.
Qed.

(** [finalizeIstio] ends with [removeFinalizer], in whatever state the
    block before it leaves. *)
Lemma finalizeIstio_ends (s s' : St W) (r : Result * option error) :
  finalizeIstio s = (Done r, s') ->
  exists s1, removeFinalizer Finalizer s1 = (Done (snd r), s') /\ fst r = emptyResult.
Proof.
  unfold finalizeIstio. unfold bind at 1. simpl. unfold bind at 1.
  match goal with
  | |- context [match ?blk with _ => _ end] => destruct blk as [[[]|msg] s1]
  end; [| discriminate].
  unfold bind at 1. rewrite removeFinalizer_run. simpl.
  intros Hrun. inversion Hrun; subst. exists s1. rewrite removeFinalizer_run. now split.
Qed.

(** X14: for an experiment of any family but the Knative one, whenever
    [finalize] returns, the token is no longer in the experiment's
    finalizer list, the result is empty, and the last call to the
    cluster was the update of the experiment as it is left; only log
    lines follow it. *)
Theorem finalize_drops_token (s s' : St W) (r : Result * option error) :
  APIVersion (TargetService_ (Spec (instance s))) <> KnativeServiceV1Alpha1 ->
  finalize s = (Done r, s') ->
  ~ In Finalizer (Finalizers (instance s'))
  /\ fst r = emptyResult
  /\ exists before lines,
      trace s' = before ++ EUpdate (instance s') :: lines
      /\ forallb isLog lines = true.
Proof.
  intros Hn. apply String.eqb_neq in Hn.
  assert (Hlast : forall (s1 : St W) (err : option error),
    removeFinalizer Finalizer s1 = (Done err, s') ->
    ~ In Finalizer (Finalizers (instance s'))
    /\ exists before lines,
        trace s' = before ++ EUpdate (instance s') :: lines
        /\ forallb isLog lines = true).
  { intros s1 err Hrun. rewrite removeFinalizer_run in Hrun.
    inversion Hrun; subst. cbn [instance trace]. split; [apply filter_drops |].
    exists (trace s1). eexists. split; [reflexivity |].
    destruct (fst (client_Update _ _)); reflexivity. }
  unfold finalize. unfold bind at 1. simpl. unfold bind at 1. simpl.
  destruct (String.eqb _ KubernetesService).
  - intros Hrun. destruct (finalizeIstio_ends _ _ _ Hrun) as [s1 [Hrem Hres]].
    destruct (Hlast s1 (snd r) Hrem) as [Hgone Hupd]. now repeat split.
  - rewrite Hn. unfold bind at 1.
    destruct (removeFinalizer Finalizer _) as [[err|msg] s1] eqn:Hrem; [| discriminate].
    simpl. intros Hrun. inversion Hrun; subst.
    destruct (Hlast _ err Hrem) as [Hgone Hupd]. now repeat split.
Qed.


(** *** Cleanup, further *)

(** X16: [Cleanup] always returns and changes nothing of the experiment
    but, at most, its traffic split; it makes at most one call to the
    cluster, a delete, and never sends the experiment or its status,
    so the split it sets stays in memory. *)
Theorem Cleanup_frame (t : Targets) (s : St W) :
  fst (Cleanup t s) = Done tt
  /\ sameButSplit (instance s) (instance (snd (Cleanup t s)))
  /\ exists u,
      trace (snd (Cleanup t s)) = trace s ++ u
      /\ (calls isDelete u <= 1)%nat
      /\ forallb (fun ev => isDelete ev || isLog ev) u = true.
Proof.
  assert (Hsame : forall e : Experiment, sameButSplit e e)
    by (intros e; repeat split).
  assert (Hsplit : forall (e : Experiment) (b c : Z),
             sameButSplit e (SetStatus (SetTrafficSplit b c (Status e)) e))
    by (intros e b c; repeat split).
  unfold Cleanup, Delete. exec.
  destruct (String.eqb (CleanUp _) CleanUpDelete).
  - destruct (String.eqb (GetStableTarget _ _) "baseline").
    + destruct (client_Delete (tCandidate t) (world s)) as [[err|] w]; simpl.
      * destruct (IsNotFound err); simpl;
          (split; [reflexivity |]); (split; [apply Hsplit |]);
          repeat rewrite <- app_assoc; eexists; (split; [reflexivity |]);
          split; [unfold calls; simpl; lia | reflexivity
                 | unfold calls; simpl; lia | reflexivity].
      * split; [reflexivity |]. split; [apply Hsplit |].
        eexists. split; [reflexivity |]. split; [unfold calls; simpl; lia | reflexivity].
    + destruct (String.eqb (GetStableTarget _ _) "candidate").
      * destruct (client_Delete (tBaseline t) (world s)) as [[err|] w]; simpl.
        -- destruct (IsNotFound err); simpl;
             (split; [reflexivity |]); (split; [apply Hsplit |]);
             repeat rewrite <- app_assoc; eexists; (split; [reflexivity |]);
             split; [unfold calls; simpl; lia | reflexivity
                    | unfold calls; simpl; lia | reflexivity].
        -- split; [reflexivity |]. split; [apply Hsplit |].
           eexists. split; [reflexivity |]. split; [unfold calls; simpl; lia | reflexivity].
      * split; [reflexivity |]. split; [apply Hsame |].
        exists []. rewrite app_nil_r. split; [reflexivity |].
        split; [unfold calls; simpl; lia | reflexivity].
  - split; [reflexivity |]. split; [apply Hsame |].
    exists []. rewrite app_nil_r. split; [reflexivity |].
    split; [unfold calls; simpl; lia | reflexivity].
Qed.

(** X17: with the policy [delete], when the stable target is neither
    ["baseline"] nor ["candidate"], [Cleanup] does nothing: no workload
    is deleted and the traffic split is left as it is. *)
Theorem Cleanup_unknown_stable (t : Targets) (s : St W) :
  CleanUp (Spec (instance s)) = CleanUpDelete ->
  GetStableTarget (instance s) (world s) <> "baseline" ->
  GetStableTarget (instance s) (world s) <> "candidate" ->
  Cleanup t s = (Done tt, s).
Proof.
  intros Hpol Hb Hc. unfold Cleanup. exec.
  apply String.eqb_neq in Hb, Hc.
  rewrite Hpol, String.eqb_refl, Hb, Hc. reflexivity.
Qed.

(** X18: with the policy [delete] and a stable target that is the
    baseline or the candidate, [Cleanup] asks for the deletion of the
    other workload, once, and sets the split to 100 for the stable side
    and 0 for the other, so that it sums to 100; it does so whatever the
    delete answers, also when the delete failed. *)
Theorem Cleanup_stable_side (t : Targets) (s : St W) :
  CleanUp (Spec (instance s)) = CleanUpDelete ->
  GetStableTarget (instance s) (world s) = "baseline"
  \/ GetStableTarget (instance s) (world s) = "candidate" ->
  let split := TrafficSplit (Status (instance (snd (Cleanup t s)))) in
  let other := if String.eqb (GetStableTarget (instance s) (world s)) "baseline"
               then tCandidate t else tBaseline t in
  Baseline split + Candidate split = 100
  /\ (if String.eqb (GetStableTarget (instance s) (world s)) "baseline"
      then Baseline split = 100 else Candidate split = 100)
  /\ world (snd (Cleanup t s)) = snd (client_Delete other (world s))
  /\ exists lines,
      trace (snd (Cleanup t s)) = trace s ++ EDelete other :: lines
      /\ forallb isLog lines = true.
Proof.
  intros Hpol [Hstable | Hstable] split other; subst split other; rewrite Hstable.
  - rewrite (Cleanup_baseline_stable t s Hpol Hstable). simpl.
    split; [reflexivity |]. split; [reflexivity |]. split; [reflexivity |].
    eexists. split; [reflexivity |].
    destruct (fst (client_Delete _ _)) as [err|]; simpl; [| reflexivity].
    destruct (IsNotFound err); reflexivity.
  - rewrite (Cleanup_candidate_stable t s Hpol Hstable). simpl.
    split; [reflexivity |]. split; [reflexivity |]. split; [reflexivity |].
    eexists. split; [reflexivity |].
    destruct (fst (client_Delete _ _)) as [err|]; simpl; [| reflexivity].
    destruct (IsNotFound err); reflexivity.
Qed.

(** *** The progress check and the update predicate, further *)

(** X19: the progress check depends on the clock only through its
    order: once it permits progression for an experiment, it permits it
    at every later reading of the clock, as long as the experiment is
    the same. *)
Theorem progress_stays_permitted (e : Experiment) (w w' : W) (t t' : list Event) :
  time_Now w <= time_Now w' ->
  fst (progress (mkSt e w t)) = Done true ->
  fst (progress (mkSt e w' t')) = Done true.
Proof.
  intros Hlater. rewrite !progress_run. cbn [instance world].
  destruct (TerminateExperiment (Action e)); [discriminate |]. cbn [fst].
  intros Hnow. inversion Hnow as [Hlt]. rewrite Hlt.
  apply Z.ltb_lt in Hlt. f_equal. apply Z.ltb_lt. lia.
Qed.

End Further.

(** X20: an update that leaves the finalizers and the metrics as they
    were and whose new action is not empty (an operator setting or
    changing the action) passes the update predicate; the watch hands
    it on exactly when the generation changed. *)
Theorem admitUpdate_operator_action (oldInstance newInstance : Experiment) :
  Finalizers newInstance = Finalizers oldInstance ->
  Metrics newInstance = Metrics oldInstance ->
  Action newInstance <> "" ->
  snd (UpdateFunc oldInstance newInstance) = true
  /\ admitUpdate oldInstance newInstance
     = negb (Generation newInstance =? Generation oldInstance).
Proof.
  intros Hfin Hmet Hact.
  assert (Hpass : snd (UpdateFunc oldInstance newInstance) = true).
  { rewrite UpdateFunc_answer.
    unfold finalizerAdded, actionCleared, metricsLoaded.
    rewrite Hfin, Hmet. apply String.eqb_neq in Hact. rewrite Hact.
    destruct (Finalizers oldInstance), (Metrics oldInstance);
      rewrite andb_false_r; reflexivity. }
  split; [exact Hpass |].
  unfold admitUpdate, GenerationChangedUpdate. rewrite Hpass. apply andb_true_r.
Qed.

(** ** The watches and the set-up *)

Section WatchProperties.
Context {W : Type} `{TargetCache W}.

Lemma watchWith_update_off
      (createFunc deleteFunc : string -> string -> W -> (list Event * bool) * W)
      (toRequests : string -> string -> W -> list NamespacedName * W)
      (oldName oldNamespace newName newNamespace : string) (w : W) :
  watchWith createFunc deleteFunc false toRequests
            (UpdateEvent oldName oldNamespace newName newNamespace) w
  = ({| logged := []; enqueued := [] |}, w).
Proof. reflexivity. Qed.

(** X21: the deployment watch and the service watch put at most one
    request on the queue for an event, and only when the cache answered
    true to the mark of the event's object, which is also exactly when
    they log a line; an update of a workload marks nothing, enqueues
    nothing and leaves the cache alone. *)
Theorem workload_watches_enqueue (ev : WorkloadEvent) (w : W) :
  ((List.length (enqueued (fst (watchDeployments ev w))) <= 1)%nat
   /\ (enqueued (fst (watchDeployments ev w)) <> [] -> deploymentMarked ev w = true)
   /\ (logged (fst (watchDeployments ev w)) <> [] <-> deploymentMarked ev w = true))
  /\ ((List.length (enqueued (fst (watchServices ev w))) <= 1)%nat
      /\ (enqueued (fst (watchServices ev w)) <> [] -> serviceMarked ev w = true)
      /\ (logged (fst (watchServices ev w)) <> [] <-> serviceMarked ev w = true))
  /\ match ev with
     | UpdateEvent _ _ _ _ =>
       watchDeployments ev w = ({| logged := []; enqueued := [] |}, w)
       /\ watchServices ev w = ({| logged := []; enqueued := [] |}, w)
     | _ => True
     end.
Proof.
  split; [| split].
  - unfold watchDeployments, watchWith, deploymentCreateFunc, deploymentDeleteFunc,
           deploymentUpdateFunc, deploymentToExperiment, deploymentMarked.
    destruct ev as [name namespace | oldName oldNamespace newName newNamespace
                    | name namespace]; simpl.
    + destruct (cache_MarkTargetDeploymentFound name namespace w) as [[|] w1]; simpl.
      * destruct (cache_DeploymentToExperiment name namespace w1) as [[[en ens] [|]] w2];
          simpl; (split; [lia |]); split; try reflexivity;
          split; try reflexivity; intros _; discriminate.
      * split; [lia |]. split; [intros Hne; now contradiction Hne |].
        split; [intros Hne; now contradiction Hne | discriminate].
    + split; [lia |]. split; [intros Hne; now contradiction Hne |].
      split; [intros Hne; now contradiction Hne | discriminate].
    + destruct (cache_MarkTargetDeploymentMissing name namespace w) as [[|] w1]; simpl.
      * destruct (cache_DeploymentToExperiment name namespace w1) as [[[en ens] [|]] w2];
          simpl; (split; [lia |]); split; try reflexivity;
          split; try reflexivity; intros _; discriminate.
      * split; [lia |]. split; [intros Hne; now contradiction Hne |].
        split; [intros Hne; now contradiction Hne | discriminate].
  - unfold watchServices, watchWith, serviceCreateFunc, serviceDeleteFunc,
           serviceUpdateFunc, serviceToExperiment, serviceMarked.
    destruct ev as [name namespace | oldName oldNamespace newName newNamespace
                    | name namespace]; simpl.
    + destruct (cache_MarkTargetServiceFound name namespace w) as [[|] w1]; simpl.
      * destruct (cache_ServiceToExperiment name namespace w1) as [[[en ens] [|]] w2];
          simpl; (split; [lia |]); split; try reflexivity;
          split; try reflexivity; intros _; discriminate.
      * split; [lia |]. split; [intros Hne; now contradiction Hne |].
        split; [intros Hne; now contradiction Hne | discriminate].
    + split; [lia |]. split; [intros Hne; now contradiction Hne |].
      split; [intros Hne; now contradiction Hne | discriminate].
    + destruct (cache_MarkTargetServiceMissing name namespace w) as [[|] w1]; simpl.
      * destruct (cache_ServiceToExperiment name namespace w1) as [[[en ens] [|]] w2];
          simpl; (split; [lia |]); split; try reflexivity;
          split; try reflexivity; intros _; discriminate.
      * split; [lia |]. split; [intros Hne; now contradiction Hne |].
        split; [intros Hne; now contradiction Hne | discriminate].
  - destruct ev; try exact I. split; apply watchWith_update_off.
Qed.
End WatchProperties.

Section SetupProperties.
Context {W : Type} `{Manager W}.

(** X22: once the controller is created, [add] registers the three
    watches in order whatever the first two registrations answer, and
    returns what the registration of the experiment watch answers: an
    error of the deployment watch or of the service watch is lost. *)
Theorem add_reports_last_watch (w w1 w2 w3 w4 : W) (e1 e2 e3 : option error) :
  controller_New w = (None, w1) ->
  controller_Watch "Deployment" w1 = (e1, w2) ->
  controller_Watch "Service" w2 = (e2, w3) ->
  controller_Watch "Experiment" w3 = (e3, w4) ->
  Bootstrap.add w =
  (([CallNewController; CallWatch "Deployment"; CallWatch "Service";
     CallWatch "Experiment"], e3), w4).
Proof.
  intros Hnew Hd Hs He. unfold Bootstrap.add.
  rewrite Hnew, Hd, Hs, He. destruct e3; reflexivity.
Qed.

End SetupProperties.

Section SetupErrors.
Context {W : Type} `{Manager W} `{ManagerParts W}.

(** X23: [Add] returns the first error among those of
    [config.GetConfig], [istioclient.NewForConfig], the notifier's
    [RegisterHandler] and [controller.New], each called in the world
    that the calls before it left; when all four succeed it returns
    what the registration of the experiment watch answers.  It stops at
    the call that fails: the world it leaves is the one that this call
    left, and [controller.New] is called exactly when the first three
    succeeded. *)
Theorem Add_returns_first_error (w : W) :
  let config := config_GetConfig w in
  let istio := istioclient_NewForConfig (snd config) in
  let handler :=
    notifier_RegisterHandler (notifier_NewNotificationCenter (mgr_GetCache (snd istio))) in
  let built :=
    mgr_GetEventRecorderFor Iter8Controller
      (mgr_GetScheme (mgr_GetClient (iter8cache_New (snd handler)))) in
  let created := controller_New built in
  let watched :=
    controller_Watch "Experiment"
      (snd (controller_Watch "Service"
              (snd (controller_Watch "Deployment" (snd created))))) in
  snd (fst (Bootstrap.Add w)) =
  match fst config, fst istio, fst handler, fst created with
  | Some e, _, _, _ => Some e
  | None, Some e, _, _ => Some e
  | None, None, Some e, _ => Some e
  | None, None, None, Some e => Some e
  | None, None, None, None => fst watched
  end
  /\ snd (Bootstrap.Add w) =
     match fst config, fst istio, fst handler, fst created with
     | Some _, _, _, _ => snd config
     | None, Some _, _, _ => snd istio
     | None, None, Some _, _ => snd handler
     | None, None, None, Some _ => snd created
     | None, None, None, None => snd watched
     end
  /\ (In CallNewController (fst (fst (Bootstrap.Add w)))
      <-> fst config = None /\ fst istio = None /\ fst handler = None).
Proof.
  intros config istio handler built created watched.
  subst watched created built handler istio config.
  unfold Bootstrap.Add, Bootstrap.add, Bootstrap.newReconciler.
  destruct (config_GetConfig w) as [[e|] w1]; simpl.
  - split; [reflexivity | split; [reflexivity |]].
    split; [intros [Hc | [Hc | []]]; discriminate Hc | intros [Hc _]; discriminate Hc].
  - destruct (istioclient_NewForConfig w1) as [[e|] w2]; simpl.
    + split; [reflexivity | split; [reflexivity |]].
      split; [intros [Hc | [Hc | [Hc | []]]]; discriminate Hc
             | intros [_ [Hc _]]; discriminate Hc].
    + destruct (notifier_RegisterHandler _) as [[e|] w5]; simpl.
      * split; [reflexivity | split; [reflexivity |]].
        split; [| intros [_ [_ Hc]]; discriminate Hc].
        intros [Hc | [Hc | [Hc | [Hc | [Hc | [Hc | []]]]]]]; discriminate Hc.
      * destruct (controller_New _) as [[e|] w10]; simpl.
        -- split; [reflexivity | split; [reflexivity |]].
           split; [intros _; repeat split | intros _; do 9 right; now left].
        -- destruct (controller_Watch "Deployment" w10) as [e1 w11]. cbn [snd].
           destruct (controller_Watch "Service" w11) as [e2 w12]. cbn [snd].
           destruct (controller_Watch "Experiment" w12) as [e3 w13]. simpl.
           split; [destruct e3; reflexivity | split; [reflexivity |]].
           split; [intros _; repeat split | intros _; do 9 right; now left].
Qed.
End SetupErrors.

(** ** Runs on the concrete world *)

Lemma addFinalizerIfAbsent_present_witness :
  In Finalizer (Finalizers (instance (start running (healthy running 0))))
  /\ addFinalizerIfAbsent Finalizer (start running (healthy running 0))
     = (Done None, start running (healthy running 0)).
Proof.
  split; [simpl; auto |].
  apply (addFinalizerIfAbsent_present (start running (healthy running 0))).
  simpl. auto.
Defined.

Lemma Cleanup_keeps_witness :
  CleanUp (Spec (instance (start keeping (healthy keeping 0)))) <> CleanUpDelete
  /\ Cleanup workloads (start keeping (healthy keeping 0))
     = (Done tt, start keeping (healthy keeping 0)).
Proof.
  split; [discriminate |].
  apply (Cleanup_keeps workloads (start keeping (healthy keeping 0))). discriminate.
Defined.

Lemma finalize_unsupported_witness :
  DeletionTimestamp foreignDeleted <> None
  /\ APIVersion (TargetService_ (Spec foreignDeleted)) <> KubernetesService
  /\ APIVersion (TargetService_ (Spec foreignDeleted)) <> KnativeServiceV1Alpha1
  /\ finalize (start foreignDeleted (healthy foreignDeleted 0)) =
     (Done (emptyResult, None),
      mkSt (released foreignDeleted) (healthy foreignDeleted 0)
           [ELogInfo "finalizing"; EUpdate (released foreignDeleted);
            ELogInfo "FinalizerRemoved"])
  /\ ~ In Finalizer (Finalizers (released foreignDeleted)).
Proof.
  assert (Hdel : DeletionTimestamp foreignDeleted <> None) by discriminate.
  assert (Hk : APIVersion (TargetService_ (Spec foreignDeleted)) <> KubernetesService)
    by discriminate.
  assert (Hn : APIVersion (TargetService_ (Spec foreignDeleted)) <> KnativeServiceV1Alpha1)
    by discriminate.
  destruct (finalize_unsupported (start foreignDeleted (healthy foreignDeleted 0))
                                 Hdel Hk Hn) as [Hrun [Hgone _]].
  split; [exact Hdel |]. split; [exact Hk |]. split; [exact Hn |].
  split; [exact Hrun | exact Hgone].
Defined.

Lemma Reconcile_fetch_error_witness :
  client_Get key (world gone) = (inl notFound, world gone)
  /\ Reconcile key gone = (Done (emptyResult, None), mkSt zeroExperiment (world gone) [EGet key])
  /\ client_Get key (world slow) = (inl timeout, world slow)
  /\ Reconcile key slow
     = (Done (emptyResult, Some timeout), mkSt zeroExperiment (world slow) [EGet key]).
Proof.
  split; [reflexivity |].
  split; [exact (Reconcile_fetch_error key gone notFound (world gone) eq_refl) |].
  split; [reflexivity |].
  exact (Reconcile_fetch_error key slow timeout (world slow) eq_refl).
Defined.

Lemma Reconcile_completed_returns_witness :
  client_Get key (world (arriving completed)) = (inr completed, healthy completed 0)
  /\ DeletionTimestamp completed = None
  /\ Phase (Status completed) = PhaseCompleted
  /\ Reconcile key (arriving completed) =
     (Done (emptyResult, None),
      mkSt completed (cache_RegisterExperiment completed (healthy completed 0))
           [EGet key; ERegisterExperiment completed; ELogInfo "reconciling";
            ELogInfo "NotToProceed"]).
Proof.
  split; [reflexivity |]. split; [reflexivity |]. split; [reflexivity |].
  exact (Reconcile_completed_returns key (arriving completed) completed
                                     (healthy completed 0) eq_refl eq_refl eq_refl).
Defined.

Lemma Reconcile_unsupported_witness :
  client_Get key (world (arriving newcomer)) = (inr newcomer, healthy newcomer 0)
  /\ DeletionTimestamp newcomer = None
  /\ Phase (Status newcomer) <> PhaseCompleted
  /\ failed (tokenError (fetched key newcomer (healthy newcomer 0) (arriving newcomer)))
     = false
  /\ failed (statusError
               (tokenStep (fetched key newcomer (healthy newcomer 0) (arriving newcomer))))
     = false
  /\ fst (syncMetrics
            (statusStep
               (tokenStep (fetched key newcomer (healthy newcomer 0) (arriving newcomer)))))
     = Done None
  /\ APIVersion (TargetService_ (Spec welcomed)) <> KubernetesService
  /\ APIVersion (TargetService_ (Spec welcomed)) <> KnativeServiceV1Alpha1
  /\ Reconcile key (arriving newcomer) =
     (Done (emptyResult, None),
      mkSt (rejected welcomed) (cache_RegisterExperiment newcomer (healthy newcomer 0))
           [EGet key; ERegisterExperiment newcomer; ELogInfo "reconciling";
            EUpdate (held newcomer); EStatusInit; EStatusUpdate welcomed;
            EStatusUpdate (rejected welcomed)])
  /\ GetCondition ExperimentConditionTargetsProvided (Status (rejected welcomed))
     = Some {| Type_ := ExperimentConditionTargetsProvided; CondStatus := "False";
               Reason := "UnsupportedAPIVersion"; Message := unsupportedVersion |}.
Proof.
  assert (Hphase : Phase (Status newcomer) <> PhaseCompleted) by discriminate.
  assert (Hk : APIVersion (TargetService_ (Spec welcomed)) <> KubernetesService)
    by discriminate.
  assert (Hn : APIVersion (TargetService_ (Spec welcomed)) <> KnativeServiceV1Alpha1)
    by discriminate.
  split; [reflexivity |]. split; [reflexivity |]. split; [exact Hphase |].
  split; [reflexivity |]. split; [reflexivity |]. split; [reflexivity |].
  split; [exact Hk |]. split; [exact Hn |].
  split; [| reflexivity].
  exact (Reconcile_unsupported key (arriving newcomer) newcomer (healthy newcomer 0)
                               eq_refl eq_refl Hphase eq_refl eq_refl eq_refl Hk Hn).
Defined.

Lemma finalize_force_terminates_witness :
  (DeletionTimestamp (instance (start deleted (healthy deleted 0))) <> None
   /\ APIVersion (TargetService_ (Spec (instance (start deleted (healthy deleted 0)))))
      = KubernetesService
   /\ GetCondition ExperimentConditionExperimentCompleted
                   (Status (instance (start deleted (healthy deleted 0))))
      = Some notCompleted
   /\ CondStatus notCompleted <> ConditionTrue
   /\ syncKubernetes (overridden (start deleted (healthy deleted 0)))
      = (Done (emptyResult, None), synced)
   /\ finalize (start deleted (healthy deleted 0)) =
      (Done (emptyResult, None),
       mkSt (released forced) (healthy deleted 0)
            [ELogInfo "finalizing"; ECheckOrInitRules; ECheckExperimentCompleted;
             EStatusUpdate forced; ERemoveExperiment forced; EUpdate (released forced);
             ELogInfo "FinalizerRemoved"]))
  /\ (@checkOrInitRules Cluster flaky forced (healthy deleted 0)
      = (((true, Some timeout), forced), healthy deleted 0)
      /\ syncKubernetes (H1 := flaky) (overridden (start deleted (healthy deleted 0)))
         = (Done (emptyResult, None), stalled)
      /\ finalize (H1 := flaky) (start deleted (healthy deleted 0)) =
         (Done (emptyResult, None),
          mkSt (released forced) (healthy deleted 0)
               [ELogInfo "finalizing"; ECheckOrInitRules; EStatusUpdate forced;
                ERemoveExperiment forced; EUpdate (released forced);
                ELogInfo "FinalizerRemoved"]))
  /\ (DeletionTimestamp (instance (start deletedEarly (healthy deletedEarly 0))) <> None
      /\ APIVersion (TargetService_ (Spec deletedEarly)) = KubernetesService
      /\ GetCondition ExperimentConditionExperimentCompleted (Status deletedEarly) = None
      /\ finalize (start deletedEarly (healthy deletedEarly 0)) =
         (Done (emptyResult, None),
          mkSt (released deletedEarly) (healthy deletedEarly 0)
               [ELogInfo "finalizing"; EUpdate (released deletedEarly);
                ELogInfo "FinalizerRemoved"])).
Proof.
  assert (Hdel : DeletionTimestamp (instance (start deleted (healthy deleted 0))) <> None)
    by discriminate.
  assert (Hearly : DeletionTimestamp (instance (start deletedEarly (healthy deletedEarly 0)))
                   <> None)
    by discriminate.
  assert (Hnot : CondStatus notCompleted <> ConditionTrue) by discriminate.
  assert (Hsync : syncKubernetes (overridden (start deleted (healthy deleted 0)))
                  = (Done (emptyResult, None), synced))
    by reflexivity.
  split; [| split].
  - split; [exact Hdel |]. split; [reflexivity |]. split; [reflexivity |].
    split; [exact Hnot |]. split; [exact Hsync |].
    exact (proj1 (proj1 (finalize_force_terminates (start deleted (healthy deleted 0))
                                                   Hdel eq_refl)
                        notCompleted (emptyResult, None) synced eq_refl Hnot Hsync)).
  - split; [reflexivity |].
    exact (proj1 (proj2 (finalize_force_terminates (H1 := flaky)
                                                   (start deleted (healthy deleted 0))
                                                   Hdel eq_refl))
                 notCompleted true timeout forced (healthy deleted 0)
                 eq_refl Hnot eq_refl).
  - split; [exact Hearly |]. split; [reflexivity |]. split; [reflexivity |].
    exact (proj2 (proj2 (finalize_force_terminates
                           (start deletedEarly (healthy deletedEarly 0)) Hearly eq_refl))
                 (or_introl eq_refl)).
Defined.

(** *** Where the code departs from the claims as stated *)

(** Against C1 as stated: the gate is not the first step.  A [Completed]
    experiment without deletion timestamp that has lost the finalizer
    token gets the token back, through a cluster update, before the gate
    is reached. *)
Lemma Reconcile_completed_still_updates :
  client_Get key (world (arriving completedNoToken))
  = (inr completedNoToken, healthy completedNoToken 0)
  /\ DeletionTimestamp completedNoToken = None
  /\ Phase (Status completedNoToken) = PhaseCompleted
  /\ trace (snd (Reconcile key (arriving completedNoToken))) =
     [EGet key; ERegisterExperiment completedNoToken; ELogInfo "reconciling";
      EUpdate completed; ELogInfo "NotToProceed"]
  /\ In (EUpdate completed) (trace (snd (Reconcile key (arriving completedNoToken)))).
Proof.
  split; [reflexivity |]. split; [reflexivity |]. split; [reflexivity |].
  assert (Hrun : trace (snd (Reconcile key (arriving completedNoToken))) =
                 [EGet key; ERegisterExperiment completedNoToken; ELogInfo "reconciling";
                  EUpdate completed; ELogInfo "NotToProceed"])
    by reflexivity.
  split; [exact Hrun |]. rewrite Hrun. simpl. auto.
Qed.

(** Against C2 as stated: a deleted experiment of the Kubernetes family
    without an [ExperimentCompleted] condition is not completed, yet
    finalization neither overrides its action nor runs a pass nor
    touches the cache: it only drops the token.  And when the
    condition is there and not [True], the pass need not install any
    routing: with routing rules that cannot be set up it stops after
    [checkOrInitRules], before the completion check, and the experiment
    is removed from the cache and loses its token all the same. *)
Lemma finalize_without_condition :
  DeletionTimestamp deletedEarly <> None
  /\ APIVersion (TargetService_ (Spec deletedEarly)) = KubernetesService
  /\ (forall c,
         GetCondition ExperimentConditionExperimentCompleted (Status deletedEarly) = Some c ->
         CondStatus c <> ConditionTrue)
  /\ finalize (start deletedEarly (healthy deletedEarly 0)) =
     (Done (emptyResult, None),
      mkSt (released deletedEarly) (healthy deletedEarly 0)
           [ELogInfo "finalizing"; EUpdate (released deletedEarly);
            ELogInfo "FinalizerRemoved"])
  /\ Action (released deletedEarly) <> ActionOverrideFailure
  /\ ~ In (ERemoveExperiment deletedEarly)
          (trace (snd (finalize (start deletedEarly (healthy deletedEarly 0)))))
  /\ DeletionTimestamp deleted <> None
  /\ APIVersion (TargetService_ (Spec deleted)) = KubernetesService
  /\ GetCondition ExperimentConditionExperimentCompleted (Status deleted)
     = Some notCompleted
  /\ @checkOrInitRules Cluster flaky forced (healthy deleted 0)
     = (((true, Some timeout), forced), healthy deleted 0)
  /\ finalize (H1 := flaky) (start deleted (healthy deleted 0)) =
     (Done (emptyResult, None),
      mkSt (released forced) (healthy deleted 0)
           [ELogInfo "finalizing"; ECheckOrInitRules; EStatusUpdate forced;
            ERemoveExperiment forced; EUpdate (released forced);
            ELogInfo "FinalizerRemoved"])
  /\ ~ In ECheckExperimentCompleted
          (trace (snd (finalize (H1 := flaky) (start deleted (healthy deleted 0))))).
Proof.
  split; [discriminate |]. split; [reflexivity |].
  split; [intros c Hc; discriminate Hc |].
  split; [reflexivity |]. split; [discriminate |].
  split; [simpl; intros [Hev | [Hev | [Hev | []]]]; discriminate Hev |].
  split; [discriminate |]. split; [reflexivity |]. split; [reflexivity |].
  split; [reflexivity |]. split; [reflexivity |].
  simpl. intros [Hev | [Hev | [Hev | [Hev | [Hev | [Hev | []]]]]]]; discriminate Hev.
Qed.

(** Against C3 as stated: at the instant that equals the last increment
    time plus the interval, with no terminate action, [progress] does
    not yet permit progression. *)
Lemma progress_at_the_interval :
  TerminateExperiment (Action running) = false
  /\ LastIncrementTime (Status running)
     + GetIntervalDuration (TrafficControl_ (Spec running)) <= 15000000000
  /\ time_Now (healthy running 15000000000) = 15000000000
  /\ fst (progress (start running (healthy running 15000000000))) = Done false.
Proof.
  split; [reflexivity |]. split; [vm_compute; discriminate |].
  split; reflexivity.
Qed.

(** Against C4 as stated: that update is none of the three
    only-changes, and the predicate rejects it all the same. *)
Lemma UpdateFunc_rejects_more :
  ~ onlyFinalizerAdded objectOld objectNew
  /\ ~ onlyActionCleared objectOld objectNew
  /\ ~ onlyMetricsLoaded objectOld objectNew
  /\ GenerationChangedUpdate objectOld objectNew = true
  /\ snd (UpdateFunc objectOld objectNew) = false
  /\ admitUpdate objectOld objectNew = false.
Proof.
  split; [intros [_ [f Hnew]]; discriminate Hnew |].
  split; [intros [Hold _]; now apply Hold |].
  split; [intros [_ [m [_ Hnew]]]; discriminate Hnew |].
  split; [reflexivity |]. split; reflexivity.
Qed.

(** Against C6 as stated: a deleted experiment of an unsupported API
    family is finalized by the reconcile, so no targets error is set
    and no status is sent.  Nor is the error set in the other cases in
    which the reconcile ends before the dispatch: a completed
    experiment, a finalizer that could not be added (the update error
    is then returned), a first status that could not be sent, and
    metrics that could not be read. *)
Lemma Reconcile_unsupported_deleted :
  client_Get key (world (arriving foreignDeleted))
  = (inr foreignDeleted, healthy foreignDeleted 0)
  /\ APIVersion (TargetService_ (Spec foreignDeleted)) <> KubernetesService
  /\ APIVersion (TargetService_ (Spec foreignDeleted)) <> KnativeServiceV1Alpha1
  /\ Reconcile key (arriving foreignDeleted) =
     (Done (emptyResult, None),
      mkSt (released foreignDeleted)
           (cache_RegisterExperiment foreignDeleted (healthy foreignDeleted 0))
           [EGet key; ERegisterExperiment foreignDeleted; ELogInfo "reconciling";
            ELogInfo "finalizing"; EUpdate (released foreignDeleted);
            ELogInfo "FinalizerRemoved"])
  /\ Status (instance (snd (Reconcile key (arriving foreignDeleted))))
     = Status foreignDeleted
  /\ (forall obj,
      ~ In (EStatusUpdate obj) (trace (snd (Reconcile key (arriving foreignDeleted)))))
  /\ Reconcile key (arriving foreignCompleted) =
     (Done (emptyResult, None),
      mkSt foreignCompleted
           (cache_RegisterExperiment foreignCompleted (healthy foreignCompleted 0))
           [EGet key; ERegisterExperiment foreignCompleted; ELogInfo "reconciling";
            ELogInfo "NotToProceed"])
  /\ Reconcile key (start zeroExperiment (rejecting newcomer)) =
     (Done (emptyResult, Some timeout),
      mkSt (held newcomer) (cache_RegisterExperiment newcomer (rejecting newcomer))
           [EGet key; ERegisterExperiment newcomer; ELogInfo "reconciling";
            EUpdate (held newcomer); ELogInfo "setting finalizer failed. (retrying)"])
  /\ Reconcile key (start zeroExperiment (refusing foreignCreated)) =
     (Done (emptyResult, None),
      mkSt (initialised foreignCreated (refusing foreignCreated))
           (cache_RegisterExperiment foreignCreated (refusing foreignCreated))
           [EGet key; ERegisterExperiment foreignCreated; ELogInfo "reconciling";
            EStatusInit;
            EStatusUpdate (initialised foreignCreated (refusing foreignCreated));
            ELogInfo "Fail to update status: %v"])
  /\ Reconcile (H1 := flaky) key (arriving foreignMeasured) =
     (Done (emptyResult, None),
      mkSt foreignMeasured
           (cache_RegisterExperiment foreignMeasured (healthy foreignMeasured 0))
           [EGet key; ERegisterExperiment foreignMeasured; ELogInfo "reconciling";
            EMetricsRead; EMarkSyncMetricsError; EStatusUpdate foreignMeasured])
  /\ GetCondition ExperimentConditionTargetsProvided
                  (Status (initialised foreignCreated (refusing foreignCreated)))
     = None
  /\ GetCondition ExperimentConditionTargetsProvided (Status foreignCompleted)
     = GetCondition ExperimentConditionTargetsProvided (Status running)
  /\ GetCondition ExperimentConditionTargetsProvided (Status foreignMeasured)
     = GetCondition ExperimentConditionTargetsProvided (Status running).
Proof.
  split; [reflexivity |]. split; [discriminate |]. split; [discriminate |].
  split; [reflexivity |]. split; [reflexivity |].
  split.
  - intros obj. simpl.
    intros [Hev | [Hev | [Hev | [Hev | [Hev | [Hev | []]]]]]]; discriminate Hev.
  - repeat split; reflexivity.
Qed.

(** C5: with the policy [delete] and the baseline stable, [Cleanup]
    deletes the candidate only and sets the split to 100 and 0; but when
    the delete answers not-found it logs that as an error, and it lets
    every other delete error pass without a word: the test on
    [errors.IsNotFound] is the wrong way round. *)
Theorem Cleanup_logs_not_found :
  Cleanup workloads (start running absent) =
    (Done tt,
     mkSt cleaned absent [EDelete (tCandidate workloads); ELogError "Delete Candidate"])
  /\ Cleanup workloads (start running broken) =
       (Done tt, mkSt cleaned broken [EDelete (tCandidate workloads)])
  /\ Cleanup workloads (start running (healthy running 0)) =
       (Done tt, mkSt cleaned (healthy running 0) [EDelete (tCandidate workloads)]).
Proof.
  split; [| split].
  - exact (Cleanup_baseline_stable workloads (start running absent) eq_refl eq_refl).
  - exact (Cleanup_baseline_stable workloads (start running broken) eq_refl eq_refl).
  - exact (Cleanup_baseline_stable workloads (start running (healthy running 0))
                                   eq_refl eq_refl).
Qed.

(** *** Runs for the further properties *)

Lemma finalizer_round_trip_witness :
  ~ In Finalizer (Finalizers (instance (start completedNoToken (healthy completedNoToken 0))))
  /\ In Finalizer
        (Finalizers (instance (snd (addFinalizerIfAbsent Finalizer
                                      (start completedNoToken (healthy completedNoToken 0))))))
  /\ Finalizers (instance (snd (removeFinalizer Finalizer
                                  (snd (addFinalizerIfAbsent Finalizer
                                          (start completedNoToken
                                                 (healthy completedNoToken 0)))))))
     = Finalizers (instance (start completedNoToken (healthy completedNoToken 0))).
Proof.
  assert (Hnot : ~ In Finalizer
                     (Finalizers (instance (start completedNoToken
                                                  (healthy completedNoToken 0)))))
    by (intros []).
  split; [exact Hnot |].
  exact (finalizer_round_trip (start completedNoToken (healthy completedNoToken 0)) Hnot).
Defined.

Lemma addFinalizerIfAbsent_other_name_witness :
  "finalizer.other" <> Finalizer
  /\ ~ In "finalizer.other" (Finalizers (instance (start running (healthy running 0))))
  /\ Finalizers (instance (snd (addFinalizerIfAbsent "finalizer.other"
                                  (start running (healthy running 0)))))
     = [Finalizer; Finalizer]
  /\ ~ In "finalizer.other"
         (Finalizers (instance (snd (addFinalizerIfAbsent "finalizer.other"
                                       (start running (healthy running 0))))))
  /\ Finalizers (instance (snd (addFinalizerIfAbsent "finalizer.other"
                                  (snd (addFinalizerIfAbsent "finalizer.other"
                                          (start running (healthy running 0)))))))
     = [Finalizer; Finalizer; Finalizer].
Proof.
  assert (Hother : "finalizer.other" <> Finalizer) by discriminate.
  assert (Hnot : ~ In "finalizer.other"
                     (Finalizers (instance (start running (healthy running 0)))))
    by (intros [Heq | []]; discriminate Heq).
  split; [exact Hother |]. split; [exact Hnot |].
  exact (addFinalizerIfAbsent_other_name "finalizer.other"
           (start running (healthy running 0)) Hother Hnot).
Defined.

Lemma syncMetrics_outcome_witness :
  needsSync measured = true
  /\ @metrics_Read Cluster flaky measured (healthy measured 0)
     = ((Some timeout, measured), healthy measured 0)
  /\ (fst (syncMetrics (H1 := flaky) (start measured (healthy measured 0))) = Done None
      <-> failed (H1 := flaky) (Some timeout) = false)
  /\ (failed (H1 := flaky) (Some timeout) = false ->
      trace (snd (syncMetrics (H1 := flaky) (start measured (healthy measured 0))))
      = [EMetricsRead; EMarkSyncMetrics])
  /\ (failed (H1 := flaky) (Some timeout) = true ->
      exists e2 lines,
        trace (snd (syncMetrics (H1 := flaky) (start measured (healthy measured 0))))
        = [EMetricsRead; EMarkSyncMetricsError; EStatusUpdate e2] ++ lines
        /\ forallb isLog lines = true
        /\ exists err,
            fst (syncMetrics (H1 := flaky) (start measured (healthy measured 0)))
            = Done (Some err)).
Proof.
  split; [reflexivity |]. split; [reflexivity |].
  exact (syncMetrics_outcome (H1 := flaky) (start measured (healthy measured 0))
                             (Some timeout) measured (healthy measured 0)
                             eq_refl eq_refl).
Defined.

Lemma Reconcile_metrics_failure_witness :
  client_Get key (world (arriving measured)) = (inr measured, healthy measured 0)
  /\ In Finalizer (Finalizers measured)
  /\ DeletionTimestamp measured = None
  /\ Phase (Status measured) <> PhaseCompleted
  /\ CreateTimestamp (Status measured) <> 0
  /\ needsSync measured = true
  /\ @metrics_Read Cluster flaky measured (cache_RegisterExperiment measured (healthy measured 0))
     = ((Some timeout, measured), cache_RegisterExperiment measured (healthy measured 0))
  /\ @validUpdateErr Cluster flaky timeout = false
  /\ fst (Reconcile (H1 := flaky) key (arriving measured)) = Done (emptyResult, None)
  /\ exists e2 lines,
      trace (snd (Reconcile (H1 := flaky) key (arriving measured)))
      = [EGet key; ERegisterExperiment measured; ELogInfo "reconciling";
         EMetricsRead; EMarkSyncMetricsError; EStatusUpdate e2] ++ lines
      /\ forallb isLog lines = true.
Proof.
  assert (Hin : In Finalizer (Finalizers measured)) by (simpl; auto).
  assert (Hphase : Phase (Status measured) <> PhaseCompleted) by discriminate.
  assert (Hinit : CreateTimestamp (Status measured) <> 0) by discriminate.
  split; [reflexivity |]. split; [exact Hin |]. split; [reflexivity |].
  split; [exact Hphase |]. split; [exact Hinit |]. split; [reflexivity |].
  split; [reflexivity |]. split; [reflexivity |].
  exact (Reconcile_metrics_failure (H1 := flaky) key (arriving measured) measured measured
           (healthy measured 0) (cache_RegisterExperiment measured (healthy measured 0))
           timeout eq_refl Hin eq_refl Hphase Hinit eq_refl eq_refl eq_refl).
Defined.

Lemma Reconcile_first_status_fails_witness :
  (client_Get key (world (start zeroExperiment (rejecting firstSeen)))
   = (inr firstSeen, rejecting firstSeen)
   /\ failed (tokenError (fetched key firstSeen (rejecting firstSeen)
                                 (start zeroExperiment (rejecting firstSeen)))) = true
   /\ Reconcile key (start zeroExperiment (rejecting firstSeen)) =
      (Done (emptyResult, Some timeout),
       mkSt (held firstSeen) (cache_RegisterExperiment firstSeen (rejecting firstSeen))
            [EGet key; ERegisterExperiment firstSeen; ELogInfo "reconciling";
             EUpdate (held firstSeen); ELogInfo "setting finalizer failed. (retrying)"])
   /\ Status (held firstSeen) = Status firstSeen)
  /\ (client_Get key (world (start zeroExperiment (refusing firstSeen)))
      = (inr firstSeen, refusing firstSeen)
      /\ failed (tokenError (fetched key firstSeen (refusing firstSeen)
                                    (start zeroExperiment (refusing firstSeen)))) = false
      /\ DeletionTimestamp firstSeen = None
      /\ Phase (Status firstSeen) <> PhaseCompleted
      /\ CreateTimestamp (Status firstSeen) = 0
      /\ failed (fst (client_StatusUpdate
                        (initialised (held firstSeen)
                                     (cache_RegisterExperiment firstSeen (refusing firstSeen)))
                        (cache_RegisterExperiment firstSeen (refusing firstSeen)))) = true
      /\ Reconcile key (start zeroExperiment (refusing firstSeen)) =
         (Done (emptyResult, None),
          mkSt (initialised (held firstSeen)
                            (cache_RegisterExperiment firstSeen (refusing firstSeen)))
               (cache_RegisterExperiment firstSeen (refusing firstSeen))
               [EGet key; ERegisterExperiment firstSeen; ELogInfo "reconciling";
                EUpdate (held firstSeen); EStatusInit;
                EStatusUpdate
                  (initialised (held firstSeen)
                               (cache_RegisterExperiment firstSeen (refusing firstSeen)));
                ELogInfo "Fail to update status: %v"])).
Proof.
  assert (Hphase : Phase (Status firstSeen) <> PhaseCompleted) by discriminate.
  split.
  - split; [reflexivity |]. split; [reflexivity |].
    exact (proj1 (Reconcile_first_status_fails
                    key (start zeroExperiment (rejecting firstSeen)) firstSeen
                    (rejecting firstSeen) eq_refl)
                 eq_refl).
  - split; [reflexivity |]. split; [reflexivity |]. split; [reflexivity |].
    split; [exact Hphase |]. split; [reflexivity |]. split; [reflexivity |].
    exact (proj1 (proj2 (Reconcile_first_status_fails
                           key (start zeroExperiment (refusing firstSeen)) firstSeen
                           (refusing firstSeen) eq_refl))
                 eq_refl eq_refl Hphase eq_refl eq_refl).
Defined.

Lemma syncKubernetes_rules_failure_witness :
  @checkOrInitRules Cluster flaky running (healthy running 0)
  = (((true, Some timeout), running), healthy running 0)
  /\ syncKubernetes (H1 := flaky) (start running (healthy running 0)) =
     (Done (emptyResult, None),
      mkSt running (healthy running 0) [ECheckOrInitRules; EStatusUpdate running]).
Proof.
  split; [reflexivity |].
  exact (syncKubernetes_rules_failure (H1 := flaky) (start running (healthy running 0))
           true timeout running (healthy running 0) eq_refl).
Defined.

Lemma syncKubernetes_requeues_after_progress_witness :
  syncKubernetes (start running (healthy running 20000000000))
  = (Done (nextIteration running, None), progressed)
  /\ (nextIteration running = emptyResult
      \/ nextIteration running = nextIteration (instance progressed))
  /\ Requeue (nextIteration running) = false
  /\ exists t,
      trace progressed = trace (start running (healthy running 20000000000)) ++ t
      /\ (nextIteration running <> emptyResult ->
          @None error = None /\ existsb isProgress t = true)
      /\ (@None error <> None -> nextIteration running = emptyResult /\ endsCompleted t).
Proof.
  split; [reflexivity |].
  exact (syncKubernetes_requeues_after_progress
           (start running (healthy running 20000000000)) progressed
           (nextIteration running) None eq_refl).
Defined.

Lemma Reconcile_deleted_completed_witness :
  client_Get key (world (arriving heldElsewhere))
  = (inr heldElsewhere, healthy heldElsewhere 0)
  /\ ~ In Finalizer (Finalizers heldElsewhere)
  /\ DeletionTimestamp heldElsewhere = Some 7000000000
  /\ APIVersion (TargetService_ (Spec heldElsewhere)) = KubernetesService
  /\ GetCondition ExperimentConditionExperimentCompleted (Status heldElsewhere)
     = Some {| Type_ := ExperimentConditionExperimentCompleted;
               CondStatus := ConditionTrue; Reason := ""; Message := "" |}
  /\ failed (tokenError (fetched key heldElsewhere (healthy heldElsewhere 0)
                                (arriving heldElsewhere))) = false
  /\ Reconcile key (arriving heldElsewhere) =
     (Done (emptyResult, None),
      mkSt heldElsewhere
           (cache_RegisterExperiment heldElsewhere (healthy heldElsewhere 0))
           [EGet key; ERegisterExperiment heldElsewhere; ELogInfo "reconciling";
            EUpdate (held heldElsewhere);
            ELogInfo "finalizing"; EUpdate heldElsewhere;
            ELogInfo "FinalizerRemoved"])
  /\ In Finalizer (Finalizers deletedDone)
  /\ Reconcile key (arriving deletedDone) =
     (Done (emptyResult, None),
      mkSt (released deletedDone)
           (cache_RegisterExperiment deletedDone (healthy deletedDone 0))
           [EGet key; ERegisterExperiment deletedDone; ELogInfo "reconciling";
            ELogInfo "finalizing"; EUpdate (released deletedDone);
            ELogInfo "FinalizerRemoved"]).
Proof.
  assert (Hin : In Finalizer (Finalizers deletedDone)) by (simpl; auto).
  assert (Hout : ~ In Finalizer (Finalizers heldElsewhere))
    by (simpl; intros [Heq | []]; discriminate Heq).
  split; [reflexivity |]. split; [exact Hout |]. split; [reflexivity |].
  split; [reflexivity |]. split; [reflexivity |]. split; [reflexivity |].
  split; [| split; [exact Hin |]].
  - exact (proj1 (Reconcile_deleted_completed key (arriving heldElsewhere) heldElsewhere
                    (healthy heldElsewhere 0) 7000000000
                    {| Type_ := ExperimentConditionExperimentCompleted;
                       CondStatus := ConditionTrue; Reason := ""; Message := "" |}
                    eq_refl eq_refl eq_refl eq_refl eq_refl eq_refl)).
  - exact (proj2 (proj2 (Reconcile_deleted_completed key (arriving deletedDone) deletedDone
                           (healthy deletedDone 0) 7000000000
                           {| Type_ := ExperimentConditionExperimentCompleted;
                              CondStatus := ConditionTrue; Reason := ""; Message := "" |}
                           eq_refl eq_refl eq_refl eq_refl eq_refl eq_refl))
                 Hin).
Defined.

Lemma finalize_drops_token_witness :
  APIVersion (TargetService_ (Spec (instance (start deleted (healthy deleted 0)))))
  <> KnativeServiceV1Alpha1
  /\ finalize (start deleted (healthy deleted 0))
     = (Done (emptyResult, None),
        mkSt (released forced) (healthy deleted 0)
             [ELogInfo "finalizing"; ECheckOrInitRules; ECheckExperimentCompleted;
              EStatusUpdate forced; ERemoveExperiment forced; EUpdate (released forced);
              ELogInfo "FinalizerRemoved"])
  /\ ~ In Finalizer (Finalizers (released forced))
  /\ fst (emptyResult, @None error) = emptyResult
  /\ exists before lines,
      [ELogInfo "finalizing"; ECheckOrInitRules; ECheckExperimentCompleted;
       EStatusUpdate forced; ERemoveExperiment forced; EUpdate (released forced);
       ELogInfo "FinalizerRemoved"]
      = before ++ EUpdate (released forced) :: lines
      /\ forallb isLog lines = true.
Proof.
  assert (Hn : APIVersion (TargetService_ (Spec (instance (start deleted (healthy deleted 0)))))
               <> KnativeServiceV1Alpha1) by discriminate.
  split; [exact Hn |]. split; [reflexivity |].
  exact (finalize_drops_token (start deleted (healthy deleted 0))
           (mkSt (released forced) (healthy deleted 0)
                 [ELogInfo "finalizing"; ECheckOrInitRules; ECheckExperimentCompleted;
                  EStatusUpdate forced; ERemoveExperiment forced; EUpdate (released forced);
                  ELogInfo "FinalizerRemoved"])
           (emptyResult, None) Hn eq_refl).
Defined.


Lemma Cleanup_unknown_stable_witness :
  CleanUp (Spec (instance (start running (undecided running)))) = CleanUpDelete
  /\ GetStableTarget (instance (start running (undecided running)))
                     (world (start running (undecided running))) <> "baseline"
  /\ GetStableTarget (instance (start running (undecided running)))
                     (world (start running (undecided running))) <> "candidate"
  /\ Cleanup workloads (start running (undecided running))
     = (Done tt, start running (undecided running)).
Proof.
  assert (Hb : GetStableTarget (instance (start running (undecided running)))
                               (world (start running (undecided running))) <> "baseline")
    by discriminate.
  assert (Hc : GetStableTarget (instance (start running (undecided running)))
                               (world (start running (undecided running))) <> "candidate")
    by discriminate.
  split; [reflexivity |]. split; [exact Hb |]. split; [exact Hc |].
  exact (Cleanup_unknown_stable workloads (start running (undecided running))
                                eq_refl Hb Hc).
Defined.

Lemma Cleanup_stable_side_witness :
  CleanUp (Spec (instance (start running broken))) = CleanUpDelete
  /\ (GetStableTarget (instance (start running broken)) (world (start running broken))
      = "baseline"
      \/ GetStableTarget (instance (start running broken)) (world (start running broken))
         = "candidate")
  /\ Baseline (TrafficSplit (Status (instance (snd (Cleanup workloads (start running broken))))))
     + Candidate (TrafficSplit (Status (instance (snd (Cleanup workloads
                                                        (start running broken))))))
     = 100
  /\ Baseline (TrafficSplit (Status (instance (snd (Cleanup workloads (start running broken))))))
     = 100
  /\ world (snd (Cleanup workloads (start running broken))) = broken
  /\ exists lines,
      trace (snd (Cleanup workloads (start running broken)))
      = EDelete (tCandidate workloads) :: lines
      /\ forallb isLog lines = true.
Proof.
  split; [reflexivity |]. split; [left; reflexivity |].
  exact (Cleanup_stable_side workloads (start running broken) eq_refl
                             (or_introl eq_refl)).
Defined.

Lemma progress_stays_permitted_witness :
  time_Now (healthy running 20000000000) <= time_Now (healthy running 30000000000)
  /\ fst (progress (mkSt running (healthy running 20000000000) [])) = Done true
  /\ fst (progress (mkSt running (healthy running 30000000000) [])) = Done true.
Proof.
  assert (Hlater : time_Now (healthy running 20000000000)
                   <= time_Now (healthy running 30000000000))
    by (vm_compute; discriminate).
  split; [exact Hlater |]. split; [reflexivity |].
  exact (progress_stays_permitted running (healthy running 20000000000)
                                  (healthy running 30000000000) [] [] Hlater eq_refl).
Defined.

Lemma admitUpdate_operator_action_witness :
  Finalizers aborted = Finalizers running
  /\ Metrics aborted = Metrics running
  /\ Action aborted <> ""
  /\ snd (UpdateFunc running aborted) = true
  /\ admitUpdate running aborted = negb (Generation aborted =? Generation running).
Proof.
  assert (Hact : Action aborted <> "") by discriminate.
  split; [reflexivity |]. split; [reflexivity |]. split; [exact Hact |].
  exact (admitUpdate_operator_action running aborted eq_refl eq_refl Hact).
Defined.

Lemma add_reports_last_watch_witness :
  controller_New ["Deployment"; "Service"] = (None, ["Deployment"; "Service"])
  /\ controller_Watch "Deployment" ["Deployment"; "Service"]
     = (Some timeout, ["Deployment"; "Service"])
  /\ controller_Watch "Service" ["Deployment"; "Service"]
     = (Some timeout, ["Deployment"; "Service"])
  /\ controller_Watch "Experiment" ["Deployment"; "Service"]
     = (None, ["Deployment"; "Service"])
  /\ Bootstrap.add ["Deployment"; "Service"] =
     (([CallNewController; CallWatch "Deployment"; CallWatch "Service";
        CallWatch "Experiment"], None), ["Deployment"; "Service"]).
Proof.
  split; [reflexivity |]. split; [reflexivity |]. split; [reflexivity |].
  split; [reflexivity |].
  exact (add_reports_last_watch ["Deployment"; "Service"] ["Deployment"; "Service"]
           ["Deployment"; "Service"] ["Deployment"; "Service"] ["Deployment"; "Service"]
           (Some timeout) (Some timeout) None eq_refl eq_refl eq_refl eq_refl).
Defined.
